(** * Inventory bot: store, transfer, receiving, reorder advice, stocktake

    A shallow embedding of [InventoryManager] and of the stocktake handlers of
    [main.py].  Python dictionaries are finite maps keyed by strings, Python
    integers are unbounded ([Z]), [None] is [option]'s [None].  Methods of the
    manager are state-passing functions [Manager -> result * Manager]. *)

From Stdlib Require Import ZArith NArith Lia.
From stdpp Require Import gmap strings list fin_maps.

Local Open Scope Z_scope.

(** ** Data model *)

(** An item record: the dictionary [{'quantity': ..., 'category': ...}]. *)
Record Item := mkItem { quantity : Z; category : option string }.

#[global] Instance Item_eq_dec : EqDecision Item.
Proof. solve_decision. Defined.

Abbreviation Inventory := (gmap string Item).
Abbreviation Store := (gmap string (gmap string Item)).

(** The manager object.  [data] is [self.data].  The file behind
    [self.filename] is represented by what the program does to it: [written]
    lists the snapshots handed to [json.dump], oldest first, and [disk_ok n]
    tells whether the write attempt number [n] goes through. *)
Record Manager := mkManager {
  data : Store;
  written : list Store;
  disk_ok : nat → bool
}.

Definition with_data (d : Store) (m : Manager) : Manager :=
  {| data := d; written := written m; disk_ok := disk_ok m |}.

Definition create_default_data : Store :=
  {[ "refrigerator_1" := ∅; "refrigerator_2" := ∅;
     "refrigerator_3" := ∅; "cupboard" := ∅ ]}.

(** [save_data]: one write attempt; [True] unless the write raised. *)
Definition save_data (m : Manager) : bool * Manager :=
  (disk_ok m (length (written m)),
   {| data := data m; written := written m ++ [data m]; disk_ok := disk_ok m |}).

(** *** Reading and writing [self.data[location][name]] *)

Definition items_at (d : Store) (location : string) : Inventory :=
  default ∅ (d !! location).

Definition record_at (d : Store) (location name : string) : option Item :=
  d !! location ≫= (.!! name).

(** The quantity of an item at a location, 0 when it is not stocked there. *)
Definition qty_at (d : Store) (location name : string) : Z :=
  from_option quantity 0 (record_at d location name).

Definition set_record (location name : string) (r : Item) (d : Store) : Store :=
  <[location := <[name := r]> (items_at d location)]> d.

Definition del_record (location name : string) (d : Store) : Store :=
  <[location := delete name (items_at d location)]> d.

(** ** Inventory store *)

Definition add_item (location name : string) (qty : Z) (cat : option string)
    (m : Manager) : bool * Manager :=
  match data m !! location with
  | None => (false, m)
  | Some items =>
      match items !! name with
      | Some _ => (false, m)
      | None => save_data (with_data (set_record location name (mkItem qty cat) (data m)) m)
      end
  end.

Definition edit_item (location name : string) (new_quantity : option Z)
    (new_category : option string) (m : Manager) : bool * Manager :=
  match record_at (data m) location name with
  | None => (false, m)
  | Some r =>
      let r1 := match new_quantity with
                | Some q => mkItem q (category r)
                | None => r
                end in
      let r2 := match new_category with
                | Some c => mkItem (quantity r1) (Some c)
                | None => r1
                end in
      save_data (with_data (set_record location name r2 (data m)) m)
  end.

Definition remove_item (location name : string) (m : Manager) : bool * Manager :=
  match record_at (data m) location name with
  | None => (false, m)
  | Some _ => save_data (with_data (del_record location name (data m)) m)
  end.

(** [get_inventory] returns one location's mapping or the whole store. *)
Inductive InventoryView :=
  | LocationItems (items : Inventory)
  | WholeStore (d : Store).

(** Truth value of a string in [if location:]: the empty string is false
    (as is the default argument [None]). *)
Definition truthy (s : string) : bool := negb (String.eqb s "").

Definition get_inventory (location : option string) (m : Manager)
    : InventoryView * Manager :=
  match location with
  | Some loc =>
      if truthy loc
      then (LocationItems (default ∅ (data m !! loc)), m)
      else (WholeStore (data m), m)
  | None => (WholeStore (data m), m)
  end.

Definition get_cupboard_items (m : Manager) : Inventory * Manager :=
  (default ∅ (data m !! "cupboard"), m).

(** ** Transfer engine *)

(** Exceptions that the modelled code can raise, and what a call yields: a
    value or an exception. *)
Inductive Exn :=
  | KeyError (key : string)
  | IndexError
  | OverflowError
  | ValueError
  | ZeroDivisionError
  | SyntaxError
  | OtherError.

Inductive Raised (A : Type) :=
  | Returned (a : A)
  | Raise (e : Exn).
Arguments Returned {A} a.
Arguments Raise {A} e.

Definition fridges : list string :=
  ["refrigerator_1"; "refrigerator_2"; "refrigerator_3"].

(** The loop [for loc in [...]: if item_name in self.data[loc]: ...; break]. *)
Fixpoint first_stocking (locs : list string) (item_name : string) (d : Store)
    : Raised (option string) :=
  match locs with
  | [] => Returned None
  | loc :: rest =>
      match d !! loc with
      | None => Raise (KeyError loc)
      | Some items =>
          match items !! item_name with
          | Some _ => Returned (Some loc)
          | None => first_stocking rest item_name d
          end
      end
  end.

(** [if not target_location: target_location = 'refrigerator_1']. *)
Definition target_of (found : option string) : string :=
  match found with Some loc => loc | None => "refrigerator_1" end.

Definition msg_not_found : string := "Товар не найден в шкафу".
Definition msg_insufficient : string := "Недостаточно товара в шкафу".
Definition msg_save_error : string := "Ошибка сохранения данных".

Definition move_from_cupboard (item_name : string) (amount : Z) (m : Manager)
    : Raised (bool * string) * Manager :=
  match record_at (data m) "cupboard" item_name with
  | None => (Returned (false, msg_not_found), m)
  | Some r =>
      if quantity r <? amount then (Returned (false, msg_insufficient), m)
      else
        match first_stocking fridges item_name (data m) with
        | Raise e => (Raise e, m)
        | Returned found =>
            let target_location := target_of found in
            (* self.data['cupboard'][item_name]['quantity'] -= quantity *)
            let d1 := set_record "cupboard" item_name
                        (mkItem (quantity r - amount) (category r)) (data m) in
            (* if ... == 0: del self.data['cupboard'][item_name] *)
            let d2 := if qty_at d1 "cupboard" item_name =? 0
                      then del_record "cupboard" item_name d1 else d1 in
            match d2 !! target_location with
            | None => (Raise (KeyError target_location), with_data d2 m)
            | Some titems =>
                let d3 :=
                  match titems !! item_name with
                  | Some t =>
                      set_record target_location item_name
                        (mkItem (quantity t + amount) (category t)) d2
                  | None =>
                      (* self.data['cupboard'].get(item_name, {}).get('category') *)
                      let cat := record_at d2 "cupboard" item_name ≫= category in
                      set_record target_location item_name (mkItem amount cat) d2
                  end in
                let '(ok, m') := save_data (with_data d3 m) in
                if ok then (Returned (true, target_location), m')
                else (Returned (false, msg_save_error), m')
            end
        end
  end.

(** ** Receiving engine *)

Definition receive_one (d : Store) (line : string * Z) : Store :=
  let '(item_name, qty) := line in
  match record_at d "cupboard" item_name with
  | Some r => set_record "cupboard" item_name (mkItem (quantity r + qty) (category r)) d
  | None => set_record "cupboard" item_name (mkItem qty None) d
  end.

Definition add_to_cupboard (goods_list : list (string * Z)) (m : Manager)
    : bool * Manager :=
  let d0 := match data m !! "cupboard" with
            | None => <["cupboard" := ∅]> (data m)
            | Some _ => data m
            end in
  save_data (with_data (foldl receive_one d0 goods_list) m).

(** ** Reorder advisor *)

Record Recommendation := mkRecommendation { current : Z; recommended : Z }.

#[global] Instance Recommendation_eq_dec : EqDecision Recommendation.
Proof. solve_decision. Defined.

(** The set built by [fridge_items.add(item)] over the three refrigerators. *)
Definition fridge_items (d : Store) : gset string :=
  foldl (λ acc loc, acc ∪ dom (default ∅ (d !! loc))) ∅ fridges.

(** [total_in_fridges] after the inner loop. *)
Definition total_in_fridges (d : Store) (item : string) : Z :=
  foldl (λ total loc, total + qty_at d loc item) 0 fridges.

(** Conversion of an integer to a double, as [total_in_fridges * 0.5] performs
    it on its left operand: the nearest double, ties to even, and
    [OverflowError] when the result does not fit.  The double obtained is an
    integer and is returned as such. *)
Definition float_of_int (z : Z) : option Z :=
  let a := Z.abs z in
  let n := Z.log2 a + 1 in
  if n <=? 53 then Some z
  else
    let shift := n - 53 in
    let q := Z.shiftr a shift in
    let r := a mod 2 ^ shift in
    let half := 2 ^ (shift - 1) in
    let q' := if (half <? r) || ((r =? half) && Z.odd q) then q + 1 else q in
    let v := q' * 2 ^ shift in
    if 2 ^ 1024 <=? v then None else Some (Z.sgn z * v).

(** [math.ceil(total * 0.5)]: halving a double that holds an integer is exact,
    and the ceiling of [x / 2] is [(x + 1) / 2] rounded down. *)
Definition ceil_half (total : Z) : option Z :=
  x ← float_of_int total; Some ((x + 1) / 2).

Definition check_item (d : Store) (threshold : Z) (item : string)
    (acc : Raised (gmap string Recommendation)) : Raised (gmap string Recommendation) :=
  match acc with
  | Raise e => Raise e
  | Returned to_order =>
      let cupboard_qty := qty_at d "cupboard" item in
      if cupboard_qty <? threshold then
        match ceil_half (total_in_fridges d item) with
        | None => Raise OverflowError
        | Some c =>
            Returned (<[item := mkRecommendation cupboard_qty (Z.max 10 c)]> to_order)
        end
      else Returned to_order
  end.

Definition check_stock_levels (threshold : Z) (m : Manager)
    : Raised (gmap string Recommendation) * Manager :=
  (set_fold (check_item (data m) threshold) (Returned ∅) (fridge_items (data m)), m).

(** The call sites pass no argument: [threshold=10]. *)
Definition default_threshold : Z := 10.

(** ** Quantity expression evaluator *)

(** Text entered by the operator is a Python [str]: a list of code points. *)
Abbreviation pystr := (list N).

(** An ASCII literal as a [str]. *)
Definition of_ascii (s : string) : pystr :=
  map Ascii.N_of_ascii (String.list_ascii_of_string s).

Definition chr_x : N := 120.       (* 'x' *)
Definition chr_kha : N := 1093.    (* Cyrillic 'х', U+0445 *)
Definition chr_star : N := 42.     (* '*' *)
Definition chr_plus : N := 43.     (* '+' *)
Definition chr_minus : N := 45.    (* '-' *)
Definition chr_slash : N := 47.    (* '/' *)
Definition chr_space : N := 32.    (* ' ' *)
Definition chr_zero : N := 48.     (* '0' *)

(** [s.replace(old, new)] for one-character [old] and [new]. *)
Definition replace (old new : N) (s : pystr) : pystr :=
  map (λ c, if (c =? old)%N then new else c) s.

(** The class [\d] of [re] on [str] patterns: the decimal digits of Unicode
    (category Nd, Unicode 14), which come in runs of ten starting at these
    code points. *)
Definition decimal_zeros : list N :=
  [48; 1632; 1776; 1984; 2406; 2534; 2662; 2790; 2918; 3046; 3174; 3302; 3430;
   3558; 3664; 3792; 3872; 4160; 4240; 6112; 6160; 6470; 6608; 6784; 6800;
   6992; 7088; 7232; 7248; 42528; 43216; 43264; 43472; 43504; 43600; 44016;
   65296; 66720; 68912; 69734; 69872; 69942; 70096; 70384; 70736; 70864;
   71248; 71360; 71472; 71904; 72016; 72784; 73040; 73120; 92768; 92864;
   93008; 120782; 120792; 120802; 120812; 120822; 123200; 123632; 125264;
   130032]%N.

Definition re_digit (c : N) : bool :=
  existsb (λ z, (z <=? c)%N && (c <? z + 10)%N) decimal_zeros.

(** The class [\s]: Unicode whitespace. *)
Definition whitespace : list N :=
  [9; 10; 11; 12; 13; 28; 29; 30; 31; 32; 133; 160; 5760; 8192; 8193; 8194;
   8195; 8196; 8197; 8198; 8199; 8200; 8201; 8202; 8232; 8233; 8239; 8287;
   12288]%N.

Definition re_space (c : N) : bool := existsb (N.eqb c) whitespace.

(** The characters that [re.sub(r'[^\d\*\+\-\s/]', '', expression)] keeps. *)
Definition kept (c : N) : bool :=
  re_digit c || (c =? chr_star)%N || (c =? chr_plus)%N || (c =? chr_minus)%N
  || re_space c || (c =? chr_slash)%N.

Definition re_sub_strip (s : pystr) : pystr := List.filter kept s.

(** A double, as sign, mantissa and exponent. *)
Inductive float64 :=
  | F_zero (neg : bool)
  | F_finite (neg : bool) (mantissa : positive) (exponent : Z)
  | F_infinity (neg : bool)
  | F_nan.

(** The numbers an arithmetic expression evaluates to. *)
Inductive pynum :=
  | PyInt (z : Z)
  | PyFloat (f : float64).

(** [int(v)]: identity on integers, truncation toward zero on doubles. *)
Definition int (v : pynum) : Raised Z :=
  match v with
  | PyInt z => Returned z
  | PyFloat (F_zero _) => Returned 0
  | PyFloat (F_finite neg m e) =>
      let a := if 0 <=? e then Z.pos m * 2 ^ e else Z.pos m / 2 ^ (- e) in
      Returned (if neg then - a else a)
  | PyFloat (F_infinity _) => Raise OverflowError
  | PyFloat F_nan => Raise ValueError
  end.

(** [calculate_expression], over the interpreter's [eval]. *)
Definition calculate_expression (eval : pystr → Raised pynum) (expression : pystr)
    : option Z :=
  let expression := replace chr_kha chr_star (replace chr_x chr_star expression) in
  let expression := re_sub_strip expression in
  match eval expression with
  | Raise _ => None                       (* except: return None *)
  | Returned v =>
      match int v with
      | Raise _ => None
      | Returned z => Some z
      end
  end.

(** The test of [handle_counting_quantity] on the evaluator's result:
    [if calculated is None or calculated < 0] re-prompts. *)
Definition counting_accepts (calculated : option Z) : bool :=
  match calculated with
  | None => false
  | Some c => negb (c <? 0)
  end.

(** *** A reference for [eval] on integer arithmetic

    [eval_arith] decides what the interpreter's [eval] does on short
    one-line expressions made of ASCII digits, [+ - * / // **] and spaces,
    as long as every intermediate value is an integer.  It answers [None]
    where it does not decide: other characters, inputs over 256 characters, a
    true division with a non-zero divisor (a double) and powers. *)

Inductive token :=
  | TNum (z : Z)
  | TPlus | TMinus | TStar | TSlash | TDoubleStar | TDoubleSlash.

Definition digit_value (c : N) : Z := Z.of_N (c - chr_zero).

Definition ascii_digit (c : N) : bool := (chr_zero <=? c)%N && (c <=? 57)%N.

(** A decimal literal, digits most significant first: zeros only, or no
    leading zero. *)
Definition number (digits : list N) : option Z :=
  let value := foldl (λ acc c, 10 * acc + digit_value c) 0 digits in
  match digits with
  | [] => None
  | c :: _ => if (c =? chr_zero)%N && negb (value =? 0) then None else Some value
  end.

(** Tokens already read are prepended once the pending literal is closed. *)
Definition flush (pending : list N) (rest : option (list token)) : option (list token) :=
  match pending with
  | [] => rest
  | _ => z ← number pending; ts ← rest; Some (TNum z :: ts)
  end.

Fixpoint lex (pending : list N) (s : pystr) : option (list token) :=
  match s with
  | [] => flush pending (Some [])
  | c :: rest =>
      if ascii_digit c then lex (pending ++ [c]) rest
      else if (c =? chr_space)%N then flush pending (lex [] rest)
      else if (c =? chr_plus)%N then flush pending (cons TPlus <$> lex [] rest)
      else if (c =? chr_minus)%N then flush pending (cons TMinus <$> lex [] rest)
      else if (c =? chr_star)%N then
        match rest with
        | c' :: rest' =>
            if (c' =? chr_star)%N then flush pending (cons TDoubleStar <$> lex [] rest')
            else flush pending (cons TStar <$> lex [] rest)
        | [] => flush pending (Some [TStar])
        end
      else if (c =? chr_slash)%N then
        match rest with
        | c' :: rest' =>
            if (c' =? chr_slash)%N then flush pending (cons TDoubleSlash <$> lex [] rest')
            else flush pending (cons TSlash <$> lex [] rest)
        | [] => flush pending (Some [TSlash])
        end
      else None
  end.

Inductive binop := Add | Sub | Mul | TrueDiv | FloorDiv.

Inductive expr :=
  | Num (z : Z)
  | UPos (e : expr)
  | UNeg (e : expr)
  | Pow (base : Z) (e : expr)
  | Bin (op : binop) (l r : expr).

(** What is open to the left of the operand being read: prefix signs and
    bases of powers (innermost first), the product so far, the sum so far. *)
Inductive frame := FPos | FNeg | FPow (base : Z).

Definition close (frames : list frame) (e : expr) : expr :=
  foldl (λ e f, match f with
                | FPos => UPos e
                | FNeg => UNeg e
                | FPow b => Pow b e
                end) e frames.

Definition join (acc : option (expr * binop)) (e : expr) : expr :=
  match acc with
  | Some (l, op) => Bin op l e
  | None => e
  end.

(** The grammar of Python expressions on these tokens:
    sum: term (('+'|'-') term)*;  term: factor (('*'|'/'|'//') factor)*;
    factor: ('+'|'-') factor | NUMBER ['**' factor]. *)
Fixpoint parse (ts : list token) (sum term : option (expr * binop))
    (frames : list frame) : option expr :=
  match ts with
  | TPlus :: r => parse r sum term (FPos :: frames)
  | TMinus :: r => parse r sum term (FNeg :: frames)
  | TNum z :: TDoubleStar :: r => parse r sum term (FPow z :: frames)
  | TNum z :: r =>
      let t := join term (close frames (Num z)) in
      match r with
      | [] => Some (join sum t)
      | TStar :: r' => parse r' sum (Some (t, Mul)) []
      | TSlash :: r' => parse r' sum (Some (t, TrueDiv)) []
      | TDoubleSlash :: r' => parse r' sum (Some (t, FloorDiv)) []
      | TPlus :: r' => parse r' (Some (join sum t, Add)) None []
      | TMinus :: r' => parse r' (Some (join sum t, Sub)) None []
      | _ => None
      end
  | _ => None
  end.

(** Evaluation, left operand first.  [None]: not decided here. *)
Fixpoint eval_expr (e : expr) : option (Raised Z) :=
  match e with
  | Num z => Some (Returned z)
  | UPos e => eval_expr e
  | UNeg e =>
      match eval_expr e with
      | Some (Returned z) => Some (Returned (- z))
      | other => other
      end
  | Pow _ _ => None
  | Bin op l r =>
      match eval_expr l with
      | Some (Returned x) =>
          match eval_expr r with
          | Some (Returned y) =>
              match op with
              | Add => Some (Returned (x + y))
              | Sub => Some (Returned (x - y))
              | Mul => Some (Returned (x * y))
              | FloorDiv => if y =? 0 then Some (Raise ZeroDivisionError)
                            else Some (Returned (x / y))
              | TrueDiv => if y =? 0 then Some (Raise ZeroDivisionError) else None
              end
          | other => other
          end
      | other => other
      end
  end.

Definition arith_char (c : N) : bool :=
  ascii_digit c || (c =? chr_space)%N || (c =? chr_star)%N || (c =? chr_plus)%N
  || (c =? chr_minus)%N || (c =? chr_slash)%N.

Definition eval_arith (s : pystr) : option (Raised pynum) :=
  if forallb arith_char s && (length s <=? 256)%nat then
    match lex [] s ≫= (λ ts, parse ts None None []) with
    | None => Some (Raise SyntaxError)
    | Some e =>
        match eval_expr e with
        | Some (Returned z) => Some (Returned (PyInt z))
        | Some (Raise x) => Some (Raise x)
        | None => None
        end
    end
  else None.

(** An [eval] that follows the reference where it decides and [other]
    elsewhere. *)
Definition eval_with (other : pystr → Raised pynum) (s : pystr) : Raised pynum :=
  default (other s) (eval_arith s).

(** ** Integers in the text of a reply *)

(** [sys.int_info.default_max_str_digits]: the interpreter (CPython 3.11 and
    later, with the settings it starts with) refuses to convert between text
    and an integer of more decimal digits than this. *)
Definition int_max_str_digits : Z := 4300.

Definition str_digits_bound : Z := Eval vm_compute in 10 ^ int_max_str_digits.

(** [n] has at most [int_max_str_digits] decimal digits. *)
Definition printable (n : Z) : bool := Z.abs n <? str_digits_bound.

(** A replacement field [{n}] of an f-string over an integer: [ValueError]
    when [n] is too long to print.  The text itself is not modelled.  This
    concerns the quantities that are stored or that [eval] has computed.  A
    quantity that [int] has read from a message is printable, reading being
    under the same limit, and so is one read through [float], which has at
    most 309 digits; the replies that print such a quantity are modelled
    without this step. *)
Definition format_int (n : Z) : Raised unit :=
  if printable n then Returned tt else Raise ValueError.

Arguments printable : simpl never.

(** ** Stocktake session *)

Inductive ConvState := COUNTING_ITEM | COUNTING_CONFIRM | CONVERSATION_END.

(** The entries [current_items], [current_item_index] and [current_location]
    of [context.user_data['counting']]; they are set together when a
    location with items is entered. *)
Record Cursor := mkCursor {
  current_items : list string;
  current_item_index : nat;
  current_location : string
}.

(** [context.user_data['counting']].  Its entry ['locations'] is the constant
    list [counting_locations]: it is written once and only read. *)
Record Counting := mkCounting {
  current_location_index : nat;
  results : gmap string (gmap string Z);
  cursor : option Cursor
}.

Definition counting_locations : list string :=
  ["refrigerator_1"; "refrigerator_2"; "refrigerator_3"; "cupboard"].

(** [inventory_manager.get_inventory(location)] for a location of the
    session: these names are non-empty, so the call is in its one-location
    branch. *)
Definition location_inventory (location : string) (m : Manager) : Inventory :=
  match (get_inventory (Some location) m).1 with
  | LocationItems items => items
  | WholeStore _ => ∅
  end.

(** [list(items.keys())]. *)
Definition keys (items : Inventory) : list string := (map_to_list items).*1.

(** One line of the report of [finish_counting]: it prints the stored
    quantity, the counted one and their difference, in this order, and gives
    the difference. *)
Definition report_line (old_quantity new_quantity : Z) : Raised Z :=
  let difference := new_quantity - old_quantity in
  match format_int old_quantity with
  | Raise e => Raise e
  | Returned _ =>
      match format_int new_quantity with
      | Raise e => Raise e
      | Returned _ =>
          match format_int difference with
          | Raise e => Raise e
          | Returned _ => Returned difference
          end
      end
  end.

(** The loops of [finish_counting]: the sum of the differences between the
    counted and the stored quantities; a counted item that is no longer
    stored raises [KeyError], a line that does not print [ValueError]. *)
Definition report_difference (c : Counting) (m : Manager) : Raised Z :=
  map_fold (λ location items acc,
    map_fold (λ item new_quantity acc,
      match acc with
      | Raise e => Raise e
      | Returned total_difference =>
          match location_inventory location m !! item with
          | None => Raise (KeyError item)
          | Some r =>
              match report_line (quantity r) new_quantity with
              | Raise e => Raise e
              | Returned difference => Returned (total_difference + difference)
              end
          end
      end) acc items) (Returned 0) (results c).

(** [finish_counting]: the report ends with the total, and the handler asks
    for the confirmation. *)
Definition finish_counting (c : Counting) (m : Manager) : Raised ConvState * Counting :=
  match report_difference c m with
  | Raise e => (Raise e, c)
  | Returned total_difference =>
      match format_int total_difference with
      | Raise e => (Raise e, c)
      | Returned _ => (Returned COUNTING_CONFIRM, c)
      end
  end.

(** The question about an item: its stored quantity is printed into the
    prompt, and the handler returns [COUNTING_ITEM]. *)
Definition ask (current_quantity : Z) : Raised ConvState :=
  match format_int current_quantity with
  | Raise e => Raise e
  | Returned _ => Returned COUNTING_ITEM
  end.

(** The question on entering a location: it is about [current_items[0]],
    whose record is read from [items]. *)
Definition first_question (items : Inventory) : Raised ConvState :=
  match keys items with
  | [] => Raise IndexError
  | item_name :: _ =>
      match items !! item_name with
      | None => Raise (KeyError item_name)
      | Some r => ask (quantity r)
      end
  end.

(** [next_counting_location]; [rest] is the part of the location list after
    the current index, which the recursion walks. *)
Fixpoint next_location_from (rest : list string) (c : Counting) (m : Manager)
    : Raised ConvState * Counting :=
  let c := mkCounting (S (current_location_index c)) (results c) (cursor c) in
  match rest with
  | [] => finish_counting c m
  | location :: rest' =>
      let items := location_inventory location m in
      if decide (items = ∅) then next_location_from rest' c m
      else
        (first_question items,
         mkCounting (current_location_index c) (results c)
           (Some (mkCursor (keys items) 0 location)))
  end.

Definition next_counting_location (c : Counting) (m : Manager)
    : Raised ConvState * Counting :=
  next_location_from (drop (S (current_location_index c)) counting_locations) c m.

Definition start_counting (m : Manager) : Raised ConvState * Counting :=
  let c := mkCounting 0 ∅ None in
  match counting_locations with
  | [] => (Raise IndexError, c)
  | location :: _ =>
      let items := location_inventory location m in
      if decide (items = ∅) then next_counting_location c m
      else (first_question items,
            mkCounting 0 ∅ (Some (mkCursor (keys items) 0 location)))
  end.

Definition record_result (location item_name : string) (calculated : Z)
    (res : gmap string (gmap string Z)) : gmap string (gmap string Z) :=
  <[location := <[item_name := calculated]> (default ∅ (res !! location))]> res.

Definition handle_counting_quantity (eval : pystr → Raised pynum)
    (expression : pystr) (c : Counting) (m : Manager) : Raised ConvState * Counting :=
  let calculated := calculate_expression eval expression in
  match calculated with
  | None => (Returned COUNTING_ITEM, c)
  | Some calculated =>
      if calculated <? 0 then (Returned COUNTING_ITEM, c)
      else
        match cursor c with
        | None => (Raise (KeyError "current_location"), c)
        | Some cur =>
            match current_items cur !! current_item_index cur with
            | None => (Raise IndexError, c)
            | Some item_name =>
                let location := current_location cur in
                let cur' := mkCursor (current_items cur)
                              (S (current_item_index cur)) location in
                let c' := mkCounting (current_location_index c)
                            (record_result location item_name calculated (results c))
                            (Some cur') in
                match current_items cur !! S (current_item_index cur) with
                | Some next_item =>
                    match location_inventory location m !! next_item with
                    | None => (Raise (KeyError next_item), c')
                    | Some r => (ask (quantity r), c')
                    end
                | None => next_counting_location c' m
                end
            end
        end
  end.

(** Every recorded quantity goes through [edit_item(location, item,
    new_quantity)]; the value [edit_item] returns is dropped. *)
Definition apply_results (res : gmap string (gmap string Z)) (m : Manager) : Manager :=
  map_fold (λ location items m,
    map_fold (λ item new_quantity m,
      (edit_item location item (Some new_quantity) None m).2) m items) m res.

(** [confirm_counting]; [said_yes] is [update.message.text.lower() == 'да']. *)
Definition confirm_counting (said_yes : bool) (c : Counting) (m : Manager)
    : ConvState * Manager :=
  if said_yes then (CONVERSATION_END, apply_results (results c) m)
  else (CONVERSATION_END, m).

(** A session from [start_counting] on: the operator's messages are fed to
    [handle_counting_quantity] for as long as the conversation is in
    [COUNTING_ITEM]; the walk stops at the first exception. *)
Fixpoint feed (eval : pystr → Raised pynum) (texts : list pystr)
    (st : Raised ConvState * Counting) (m : Manager) : Raised ConvState * Counting :=
  match texts with
  | [] => st
  | text :: texts' =>
      match st with
      | (Returned COUNTING_ITEM, c) =>
          feed eval texts' (handle_counting_quantity eval text c m) m
      | _ => st
      end
  end.

(** What the session has recorded for an item of a location. *)
Definition recorded (c : Counting) (l n : string) : option Z :=
  results c !! l ≫= (.!! n).

(** What holds of a session that runs against the store of [m]: it has
    recorded non-negative quantities of items the store holds, and the items
    it still has to ask about are items of the current location. *)
Definition session_inv (m : Manager) (c : Counting) : Prop :=
  (∀ l n q, recorded c l n = Some q → 0 ≤ q ∧ is_Some (record_at (data m) l n))
  ∧ (∀ cur, cursor c = Some cur →
       ∀ n, n ∈ current_items cur →
            is_Some (record_at (data m) (current_location cur) n)).

(** ** Quantity gates of the chat handlers *)

(** [add_item_quantity] and [edit_item_quantity]: [if quantity <= 0: raise
    ValueError], after which the handler asks again. *)
Definition positive_gate (qty : Z) : bool := negb (qty <=? 0).

(** ** Store predicates *)

Definition all_quantities (P : Z → Prop) (d : Store) : Prop :=
  ∀ location name r, record_at d location name = Some r → P (quantity r).

Definition has_fridges (d : Store) : Prop :=
  Forall (λ loc, is_Some (d !! loc)) fridges.

(** ** Receiving, as the specification words it *)

(** The quantity a batch brings for one name, and whether it names it. *)
Definition received (goods_list : list (string * Z)) (name : string) : Z :=
  foldr (λ line acc, if decide (line.1 = name) then line.2 + acc else acc) 0 goods_list.

Definition receive_spec (goods_list : list (string * Z)) (name : string)
    (before : option Item) : option Item :=
  match before with
  | Some r => Some (mkItem (quantity r + received goods_list name) (category r))
  | None => if decide (name ∈ goods_list.*1)
            then Some (mkItem (received goods_list name) None) else None
  end.

(** ** Reorder advice, as the specification words it *)

Definition stocked_in_fridge (d : Store) (item : string) : Prop :=
  ∃ loc, loc ∈ fridges ∧ is_Some (record_at d loc item).

(** [totalInFridges]: the item's quantities over the three refrigerators. *)
Definition fridge_total (d : Store) (item : string) : Z :=
  qty_at d "refrigerator_1" item + qty_at d "refrigerator_2" item
  + qty_at d "refrigerator_3" item.

(** The entry of an item below the threshold, with the ceiling of half the
    total taken over the integers. *)
Definition advice (d : Store) (threshold : Z) (item : string) : option Recommendation :=
  if qty_at d "cupboard" item <? threshold
  then Some (mkRecommendation (qty_at d "cupboard" item)
               (Z.max 10 ((fridge_total d item + 1) / 2)))
  else None.

(** ** Sample stores *)

(** A manager over [d] with nothing written yet and a disk that works. *)
Definition manager_of (d : Store) : Manager := mkManager d [] (λ _, true).

Definition sample_store : Store :=
  {[ "refrigerator_1" := {[ "Cola" := mkItem 5 (Some "drinks") ]};
     "refrigerator_2" := ∅;
     "refrigerator_3" := ∅;
     "cupboard" := {[ "Cola" := mkItem 12 (Some "drinks");
                      "Water" := mkItem 6 (Some "still") ]} ]}.

(** The default store with [q] "Cola" in refrigerator 1. *)
Definition cola_store (q : Z) : Store :=
  <["refrigerator_1" := {[ "Cola" := mkItem q (Some "drinks") ]}]> create_default_data.

(** An [eval] that follows the reference on integer arithmetic and raises on
    everything else. *)
Definition eval_integers : pystr → Raised pynum :=
  eval_with (λ _, Raise OtherError).

(** An [eval] that knows one power besides: ["10**5000"]. *)
Definition ten_to_5000 : Z := Eval vm_compute in 10 ^ 5000.

Definition eval_power : pystr → Raised pynum :=
  eval_with (λ s, if decide (s = of_ascii "10**5000")
                  then Returned (PyInt ten_to_5000) else Raise OtherError).

(** A stocktake of [cola_store 5] in which the operator answers [text] to
    the one question asked. *)
Definition count_cola (text : string) : Raised ConvState * Counting :=
  feed eval_integers [of_ascii text]
    (start_counting (manager_of (cola_store 5))) (manager_of (cola_store 5)).

(** * The rest of the manager and the chat handlers *)

(** ** Writes and the store in memory *)

(** [m'] comes from [m] by operations of the manager: same disk, and either
    nothing happened or the last snapshot handed to the writer is the store
    in memory. *)
Definition tracked (m m' : Manager) : Prop :=
  disk_ok m' = disk_ok m
  ∧ (m' = m ∨ ∃ snapshots, written m' = written m ++ snapshots ++ [data m']).

(** The last snapshot handed to the writer is the store in memory. *)
Definition synced (m : Manager) : Prop := last (written m) = Some (data m).

(** The refrigerator a transfer of [item] goes to, as the transfer's loop
    finds it. *)
Definition home_location (d : Store) (item : string) : string :=
  if decide (is_Some (record_at d "refrigerator_1" item)) then "refrigerator_1"
  else if decide (is_Some (record_at d "refrigerator_2" item)) then "refrigerator_2"
  else if decide (is_Some (record_at d "refrigerator_3" item)) then "refrigerator_3"
  else "refrigerator_1".

(** The cleaning that [calculate_expression] applies before [eval]. *)
Definition clean (expression : pystr) : pystr :=
  re_sub_strip (replace chr_kha chr_star (replace chr_x chr_star expression)).

(** Every item that [location] holds has a recorded count. *)
Definition counted (m : Manager) (c : Counting) (location : string) : Prop :=
  ∀ n, is_Some (location_inventory location m !! n) → is_Some (recorded c location n).

(** What makes a prompt or the report fail: a quantity stored in one of
    the four locations that does not print; or, with every item counted, a
    count that does not print or whose difference to the stored quantity
    does not, or the total of the differences. *)
Definition unprintable (m : Manager) (c : Counting) : Prop :=
  (∃ l n r, l ∈ counting_locations ∧ record_at (data m) l n = Some r
            ∧ printable (quantity r) = false)
  ∨ ((∀ l, l ∈ counting_locations → counted m c l)
     ∧ ((∃ l n q r, recorded c l n = Some q ∧ record_at (data m) l n = Some r
                    ∧ (printable q = false ∨ printable (q - quantity r) = false))
        ∨ (∃ total, report_difference c m = Returned total
                    ∧ printable total = false))).

(** Where a session stands: asking about item number [current_item_index] of
    a location of the list, everything before it counted; or at the
    confirmation, everything counted; or stopped by a number that does not
    print. *)
Definition walk_inv (m : Manager) (st : Raised ConvState * Counting) : Prop :=
  (∀ l n q, recorded st.2 l n = Some q →
     l ∈ counting_locations ∧ is_Some (location_inventory l m !! n))
  ∧ match st.1 with
    | Returned COUNTING_ITEM =>
        ∃ cur before after,
          cursor st.2 = Some cur
          ∧ counting_locations = before ++ current_location cur :: after
          ∧ length before = current_location_index st.2
          ∧ current_items cur = keys (location_inventory (current_location cur) m)
          ∧ (current_item_index cur < length (current_items cur))%nat
          ∧ (∀ l, l ∈ before → counted m st.2 l)
          ∧ (∀ i n, (i < current_item_index cur)%nat →
                    current_items cur !! i = Some n →
                    is_Some (recorded st.2 (current_location cur) n))
    | Returned COUNTING_CONFIRM =>
        ∀ l, l ∈ counting_locations → counted m st.2 l
    | Raise ValueError => unprintable m st.2
    | _ => False
    end.

(** ** Search *)

(** [search_item]: the locations that hold [name], with their record;
    [None] when there is none. *)
Definition search_item (name : string) (m : Manager)
    : option (gmap string Item) * Manager :=
  let results :=
    map_fold (λ location items results,
                match items !! name with
                | Some r => <[location := r]> results
                | None => results
                end) ∅ (data m) in
  (if decide (results = ∅) then None else Some results, m).

(** ** Chat handlers of the store *)

(** The states of the conversations, and the end of a conversation. *)
Inductive HandlerState :=
  | ADD_LOCATION | ADD_NAME | ADD_QUANTITY | ADD_CATEGORY
  | EDIT_LOCATION | EDIT_NAME | EDIT_QUANTITY | EDIT_CATEGORY
  | REMOVE_LOCATION | REMOVE_ITEM
  | RECEIVE_GOODS
  | FILL_FRIDGE_ITEM | FILL_FRIDGE_QUANTITY
  | END.

(** The entries of [context.user_data] that these handlers read back; an
    entry that has not been set is [None].  The entries [category] and
    [new_category] are written and never read. *)
Record UserData := mkUserData {
  ud_location : option string;
  ud_name : option string;
  ud_quantity : option Z;
  ud_new_quantity : option Z;
  ud_fill_item : option string
}.

Definition set_location (v : string) (ud : UserData) : UserData :=
  mkUserData (Some v) (ud_name ud) (ud_quantity ud) (ud_new_quantity ud) (ud_fill_item ud).
Definition set_name (v : string) (ud : UserData) : UserData :=
  mkUserData (ud_location ud) (Some v) (ud_quantity ud) (ud_new_quantity ud) (ud_fill_item ud).
Definition set_quantity (v : Z) (ud : UserData) : UserData :=
  mkUserData (ud_location ud) (ud_name ud) (Some v) (ud_new_quantity ud) (ud_fill_item ud).
Definition set_new_quantity (v : option Z) (ud : UserData) : UserData :=
  mkUserData (ud_location ud) (ud_name ud) (ud_quantity ud) v (ud_fill_item ud).
Definition set_fill_item (v : string) (ud : UserData) : UserData :=
  mkUserData (ud_location ud) (ud_name ud) (ud_quantity ud) (ud_new_quantity ud) (Some v).

(** [location_map] of the location handlers. *)
Definition location_map (user_input : string) : option string :=
  if String.eqb user_input "Холодильник 1" then Some "refrigerator_1"
  else if String.eqb user_input "Холодильник 2" then Some "refrigerator_2"
  else if String.eqb user_input "Холодильник 3" then Some "refrigerator_3"
  else if String.eqb user_input "Шкаф" then Some "cupboard"
  else None.

(** [text if text != '-' else None]. *)
Definition unless_dash (text : string) : option string :=
  if String.eqb text "-" then None else Some text.

(** *** Adding *)

Definition add_item_location (user_input : string) (ud : UserData)
    : HandlerState * UserData :=
  match location_map user_input with
  | None => (ADD_LOCATION, ud)
  | Some location => (ADD_NAME, set_location location ud)
  end.

Definition add_item_name (text : string) (ud : UserData) : HandlerState * UserData :=
  (ADD_QUANTITY, set_name text ud).

(** [parsed] is [int(update.message.text)], [None] when it raises
    [ValueError]. *)
Definition add_item_quantity (parsed : option Z) (ud : UserData)
    : HandlerState * UserData :=
  match parsed with
  | Some qty => if qty <=? 0 then (ADD_QUANTITY, ud)
                else (ADD_CATEGORY, set_quantity qty ud)
  | None => (ADD_QUANTITY, ud)
  end.

(** The boolean is the result of [add_item]; it tells which reply is sent:
    "added" or "already exists". *)
Definition add_item_category (text : string) (ud : UserData) (m : Manager)
    : Raised (bool * HandlerState) * Manager :=
  match ud_location ud with
  | None => (Raise (KeyError "location"), m)
  | Some location =>
      match ud_name ud with
      | None => (Raise (KeyError "name"), m)
      | Some name =>
          match ud_quantity ud with
          | None => (Raise (KeyError "quantity"), m)
          | Some qty =>
              let '(ok, m') := add_item location name qty (unless_dash text) m in
              (Returned (ok, END), m')
          end
      end
  end.

(** *** Editing *)

(** A location without items, and a name that the location does not hold,
    end the conversation with an error reply. *)
Definition edit_item_location (user_input : string) (ud : UserData) (m : Manager)
    : HandlerState * UserData :=
  match location_map user_input with
  | None => (EDIT_LOCATION, ud)
  | Some location =>
      if decide (location_inventory location m = ∅) then (END, ud)
      else (EDIT_NAME, set_location location ud)
  end.

(** The prompt for the new quantity prints the stored one, after the name
    has been set. *)
Definition edit_item_name (text : string) (ud : UserData) (m : Manager)
    : Raised HandlerState * UserData :=
  match ud_location ud with
  | None => (Raise (KeyError "location"), ud)
  | Some location =>
      match location_inventory location m !! text with
      | None => (Returned END, ud)
      | Some item_details =>
          (match format_int (quantity item_details) with
           | Raise e => Raise e
           | Returned _ => Returned EDIT_QUANTITY
           end, set_name text ud)
      end
  end.

(** [parsed] is [int(update.message.text)], which is evaluated when the text
    is not ["-"]. *)
Definition edit_item_quantity (text : string) (parsed : option Z) (ud : UserData)
    : HandlerState * UserData :=
  if String.eqb text "-" then (EDIT_CATEGORY, set_new_quantity None ud)
  else
    match parsed with
    | Some qty => if qty <=? 0 then (EDIT_QUANTITY, ud)
                  else (EDIT_CATEGORY, set_new_quantity (Some qty) ud)
    | None => (EDIT_QUANTITY, ud)
    end.

Definition edit_item_category (text : string) (ud : UserData) (m : Manager)
    : Raised (bool * HandlerState) * Manager :=
  match ud_location ud with
  | None => (Raise (KeyError "location"), m)
  | Some location =>
      match ud_name ud with
      | None => (Raise (KeyError "name"), m)
      | Some name =>
          let '(ok, m') :=
            edit_item location name (ud_new_quantity ud) (unless_dash text) m in
          (Returned (ok, END), m')
      end
  end.

(** *** Removing *)

Definition remove_item_location (user_input : string) (ud : UserData) (m : Manager)
    : HandlerState * UserData :=
  match location_map user_input with
  | None => (REMOVE_LOCATION, ud)
  | Some location =>
      if decide (location_inventory location m = ∅) then (END, ud)
      else (REMOVE_ITEM, set_location location ud)
  end.

(** What [remove_item_name] replies. *)
Inductive RemoveReply := RemoveNotFound | Removed | RemoveFailed.

Definition remove_item_name (text : string) (ud : UserData) (m : Manager)
    : Raised (RemoveReply * HandlerState) * Manager :=
  match ud_location ud with
  | None => (Raise (KeyError "location"), m)
  | Some location =>
      match location_inventory location m !! text with
      | None => (Returned (RemoveNotFound, END), m)
      | Some _ =>
          let '(ok, m') := remove_item location text m in
          (Returned (if ok then Removed else RemoveFailed, END), m')
      end
  end.

(** *** Filling a refrigerator *)

Definition start_fill_fridge (m : Manager) : HandlerState :=
  if decide ((get_cupboard_items m).1 = ∅) then END else FILL_FRIDGE_ITEM.

(** The prompt for the quantity prints what the cupboard holds, after the
    item has been set. *)
Definition select_fill_item (text : string) (ud : UserData) (m : Manager)
    : Raised HandlerState * UserData :=
  match (get_cupboard_items m).1 !! text with
  | None => (Returned FILL_FRIDGE_ITEM, ud)
  | Some r =>
      (match format_int (quantity r) with
       | Raise e => Raise e
       | Returned _ => Returned FILL_FRIDGE_QUANTITY
       end, set_fill_item text ud)
  end.

(** What [handle_fill_quantity] replies. *)
Inductive FillReply :=
  | FillNotANumber
  | FillGone
  | FillTooMuch (max_quantity : Z)
  | FillMoved (target : string)
  | FillError (reason : string).

(** [parsed] is [int(update.message.text)], [None] when it raises
    [ValueError].  The whole body is under [try ... except ValueError], so
    that a stored quantity that does not print into the "insufficient" reply
    is answered like a text that is not a number. *)
Definition handle_fill_quantity (parsed : option Z) (ud : UserData) (m : Manager)
    : Raised (FillReply * HandlerState) * Manager :=
  match parsed with
  | None => (Returned (FillNotANumber, FILL_FRIDGE_QUANTITY), m)
  | Some qty =>
      match ud_fill_item ud with
      | None => (Raise (KeyError "fill_item"), m)
      | Some item_name =>
          match (get_cupboard_items m).1 !! item_name with
          | None => (Returned (FillGone, END), m)
          | Some r =>
              let max_quantity := quantity r in
              if max_quantity <? qty
              then
                match format_int max_quantity with
                | Returned _ =>
                    (Returned (FillTooMuch max_quantity, FILL_FRIDGE_QUANTITY), m)
                | Raise ValueError =>
                    (Returned (FillNotANumber, FILL_FRIDGE_QUANTITY), m)
                | Raise e => (Raise e, m)
                end
              else
                match move_from_cupboard item_name qty m with
                | (Returned (true, target), m') => (Returned (FillMoved target, END), m')
                | (Returned (false, reason), m') => (Returned (FillError reason, END), m')
                | (Raise e, m') => (Raise e, m')
                end
          end
      end
  end.

(** *** Receiving *)

(** The UTF-8 bytes of a code point; item names are the UTF-8 bytes of the
    text the operator typed. *)
Definition utf8_char (c : N) : list Ascii.ascii :=
  let byte (n : N) := Ascii.ascii_of_N n in
  (if c <? 128 then [byte c]
   else if c <? 2048 then [byte (192 + c / 64); byte (128 + c mod 64)]
   else if c <? 65536 then
     [byte (224 + c / 4096); byte (128 + (c / 64) mod 64); byte (128 + c mod 64)]
   else
     [byte (240 + c / 262144); byte (128 + (c / 4096) mod 64);
      byte (128 + (c / 64) mod 64); byte (128 + c mod 64)])%N.

Definition utf8 (s : pystr) : string :=
  String.string_of_list_ascii (flat_map utf8_char s).

(** [text.split(sep)] for a one-character separator. *)
Fixpoint split_on (sep : N) (text : pystr) : list pystr :=
  match text with
  | [] => [[]]
  | c :: rest =>
      if (c =? sep)%N then [] :: split_on sep rest
      else match split_on sep rest with
           | line :: lines => (c :: line) :: lines
           | [] => [[c]]
           end
  end.

Fixpoint lstrip (s : pystr) : pystr :=
  match s with
  | [] => []
  | c :: rest => if re_space c then lstrip rest else s
  end.

(** [s.strip()]: whitespace is what [\s] matches. *)
Definition strip (s : pystr) : pystr := reverse (lstrip (reverse (lstrip s))).

(** [s.rsplit(' ', 1)] when it has two parts: what is before and after the
    last space; [None] when [s] has no space. *)
Fixpoint rsplit_space (s : pystr) : option (pystr * pystr) :=
  match s with
  | [] => None
  | c :: rest =>
      match rsplit_space rest with
      | Some (before, after) => Some (c :: before, after)
      | None => if (c =? chr_space)%N then Some ([], rest) else None
      end
  end.

(** The two kinds of lines that [handle_receive_goods] reports. *)
Inductive LineError :=
  | BadQuantity (line : pystr)
  | BadLine (line : pystr).

Section Receive.

(** [int(quantity_str)], [None] when it raises [ValueError]; and
    [int(float(quantity_str))], [None] when either call raises. *)
Context (parse_int parse_float : pystr → option Z).

Definition receive_line (line : pystr) : (string * Z) + LineError :=
  match rsplit_space (strip line) with
  | Some (item_name, quantity_str) =>
      match parse_int quantity_str with
      | Some qty => inl (utf8 item_name, qty)
      | None =>
          match parse_float quantity_str with
          | Some qty => inl (utf8 item_name, qty)
          | None => inr (BadQuantity line)
          end
      end
  | None => inr (BadLine line)
  end.

Definition receive_lines (text : pystr) : list ((string * Z) + LineError) :=
  receive_line <$> split_on 10%N text.

Definition goods_of (parsed : list ((string * Z) + LineError)) : list (string * Z) :=
  omap (λ x, match x with inl g => Some g | inr _ => None end) parsed.

Definition errors_of (parsed : list ((string * Z) + LineError)) : list LineError :=
  omap (λ x, match x with inl _ => None | inr e => Some e end) parsed.

(** What [handle_receive_goods] replies. *)
Inductive ReceiveReply :=
  | NothingRecognised
  | GoodsAdded (goods_list : list (string * Z)) (errors : list LineError)
  | GoodsNotAdded.

Definition handle_receive_goods (text : pystr) (m : Manager)
    : (ReceiveReply * HandlerState) * Manager :=
  let parsed := receive_lines text in
  let goods_list := goods_of parsed in
  let errors := errors_of parsed in
  match goods_list with
  | [] => ((NothingRecognised, RECEIVE_GOODS), m)
  | _ =>
      let '(ok, m') := add_to_cupboard goods_list m in
      if ok then ((GoodsAdded goods_list errors, END), m')
      else ((GoodsNotAdded, END), m')
  end.

End Receive.

(** ** Further samples *)

(** A manager whose store has been written once. *)
Definition written_manager (d : Store) : Manager := mkManager d [d] (λ _, true).

(** [context.user_data] with nothing set. *)
Definition no_user_data : UserData := mkUserData None None None None None.

(** A stand-in for [int] in examples: it reads the tokens made of ASCII
    digits only and rejects every other token (the interpreter's [int]
    accepts more: signs, surrounding whitespace, underscores, other
    decimal digits). *)
Definition digits_only (token : pystr) : option Z :=
  if forallb ascii_digit token && negb (length token =? 0)%nat
  then Some (foldl (λ acc c, 10 * acc + digit_value c) 0 token)
  else None.

(** * Properties *)

(** ** Reading after writing *)

Lemma record_at_set_record (d : Store) (l n l' n' : string) (r : Item) :
  record_at (set_record l n r d) l' n'
  = if decide (l = l' ∧ n = n') then Some r else record_at d l' n'.
Proof.
  unfold record_at, set_record, items_at.
  destruct (decide (l = l')) as [<-|Hl].
  - rewrite lookup_insert_eq. simpl.
    destruct (decide (n = n')) as [<-|Hn].
    + rewrite lookup_insert_eq. by rewrite decide_True.
    + rewrite lookup_insert_ne by done. rewrite decide_False by tauto.
      by destruct (d !! l).
  - rewrite lookup_insert_ne by done. by rewrite decide_False by tauto.
Qed.

Lemma record_at_del_record (d : Store) (l n l' n' : string) :
  record_at (del_record l n d) l' n'
  = if decide (l = l' ∧ n = n') then None else record_at d l' n'.
Proof.
  unfold record_at, del_record, items_at.
  destruct (decide (l = l')) as [<-|Hl].
  - rewrite lookup_insert_eq. simpl.
    destruct (decide (n = n')) as [<-|Hn].
    + rewrite lookup_delete_eq. by rewrite decide_True.
    + rewrite lookup_delete_ne by done. rewrite decide_False by tauto.
      by destruct (d !! l).
  - rewrite lookup_insert_ne by done. by rewrite decide_False by tauto.
Qed.

Create Rewrite HintDb store.
#[local] Hint Rewrite record_at_set_record record_at_del_record : store.

Lemma record_at_lookup (d : Store) (l n : string) (items : Inventory) :
  d !! l = Some items → record_at d l n = items !! n.
Proof. intros H. unfold record_at. by rewrite H. Qed.

Lemma record_at_Some_location (d : Store) (l n : string) (r : Item) :
  record_at d l n = Some r → is_Some (d !! l).
Proof. unfold record_at. destruct (d !! l); [eauto | discriminate]. Qed.

(** ** The target of a transfer *)

Lemma first_stocking_found (locs : list string) (item : string) (d : Store) (loc : string) :
  first_stocking locs item d = Returned (Some loc) →
  loc ∈ locs ∧ is_Some (record_at d loc item).
Proof.
  induction locs as [|l locs IH]; simpl; [discriminate|].
  destruct (d !! l) as [items|] eqn:Hl; [|discriminate].
  destruct (items !! item) as [t|] eqn:Ht.
  - intros [= <-]. split; [left|].
    rewrite (record_at_lookup _ _ _ _ Hl), Ht. eauto.
  - intros H. destruct (IH H) as [? ?]. split; [by right | done].
Qed.

Lemma first_stocking_none (locs : list string) (item : string) (d : Store) :
  first_stocking locs item d = Returned None →
  Forall (λ loc, is_Some (d !! loc) ∧ record_at d loc item = None) locs.
Proof.
  induction locs as [|l locs IH]; simpl; [constructor|].
  destruct (d !! l) as [items|] eqn:Hl; [|discriminate].
  destruct (items !! item) as [t|] eqn:Ht; [discriminate|].
  intros H. constructor; [|by apply IH].
  split; [eauto|]. by rewrite (record_at_lookup _ _ _ _ Hl).
Qed.

Lemma first_stocking_total (locs : list string) (item : string) (d : Store) :
  Forall (λ loc, is_Some (d !! loc)) locs →
  ∃ found, first_stocking locs item d = Returned found.
Proof.
  induction 1 as [|l locs [items Hl] _ IH]; simpl; [eauto|].
  rewrite Hl. destruct (items !! item); eauto.
Qed.

Lemma target_is_fridge (item : string) (d : Store) (found : option string) :
  first_stocking fridges item d = Returned found →
  target_of found ∈ fridges ∧ is_Some (d !! target_of found).
Proof.
  destruct found as [loc|]; unfold target_of; intros H.
  - apply first_stocking_found in H as [? [t Ht]].
    split; [done|]. by eapply record_at_Some_location.
  - apply first_stocking_none in H. split; [by left|].
    by inversion H as [|?? [? _] _].
Qed.

Lemma fridge_not_cupboard (loc : string) : loc ∈ fridges → loc ≠ "cupboard".
Proof.
  unfold fridges. rewrite !elem_of_cons, elem_of_nil.
  intros [->|[->|[->|[]]]]; discriminate.
Qed.

(** ** What a transfer does once the two checks have passed *)

Lemma move_from_cupboard_run (m : Manager) (item : string) (q : Z) (r : Item)
    (found : option string) :
  record_at (data m) "cupboard" item = Some r →
  q ≤ quantity r →
  first_stocking fridges item (data m) = Returned found →
  ∃ m', move_from_cupboard item q m
        = (Returned (if disk_ok m (length (written m))
                     then (true, target_of found) else (false, msg_save_error)), m')
      ∧ written m' = written m ++ [data m']
      ∧ disk_ok m' = disk_ok m
      ∧ (∀ l n, record_at (data m') l n =
           if decide (l = target_of found ∧ n = item) then
             Some (match record_at (data m) (target_of found) item with
                   | Some t => mkItem (quantity t + q) (category t)
                   | None => mkItem q (if quantity r - q =? 0 then None else category r)
                   end)
           else if decide (l = "cupboard" ∧ n = item) then
             (if quantity r - q =? 0 then None
              else Some (mkItem (quantity r - q) (category r)))
           else record_at (data m) l n).
Proof.
  intros Hr Hq Hfound.
  destruct (target_is_fridge _ _ _ Hfound) as [Hin [titems Ht]].
  pose proof (fridge_not_cupboard _ Hin) as Hne.
  unfold move_from_cupboard. rewrite Hr, Hfound.
  destruct (Z.ltb_spec (quantity r) q) as [?|_]; [lia|].
  set (d1 := set_record "cupboard" item _ (data m)).
  assert (Hq1 : qty_at d1 "cupboard" item = quantity r - q).
  { unfold qty_at, d1. rewrite record_at_set_record. by rewrite decide_True. }
  rewrite Hq1.
  set (d2 := if quantity r - q =? 0 then del_record "cupboard" item d1 else d1).
  assert (Hd2 : ∀ l n, record_at d2 l n =
            if decide ("cupboard" = l ∧ item = n)
            then (if quantity r - q =? 0 then None
                  else Some (mkItem (quantity r - q) (category r)))
            else record_at (data m) l n).
  { intros l n. unfold d2, d1. destruct (quantity r - q =? 0).
    - rewrite record_at_del_record. case_decide; [done|].
      rewrite record_at_set_record. by rewrite decide_False.
    - by rewrite record_at_set_record. }
  assert (Ht2 : d2 !! target_of found = Some titems).
  { unfold d2, d1, del_record, set_record. destruct (quantity r - q =? 0);
      rewrite ?lookup_insert_ne by done; done. }
  rewrite Ht2. simpl.
  eexists. split; [by destruct (disk_ok m (length (written m)))|].
  simpl. split; [done|]. split; [done|].
  intros l n.
  assert (Htm : record_at (data m) (target_of found) item = titems !! item)
    by by apply record_at_lookup.
  rewrite Htm.
  destruct (titems !! item) as [t|] eqn:Hti.
  - rewrite record_at_set_record. case_decide as Hc.
    + destruct Hc as [<- <-]. by rewrite decide_True.
    + rewrite decide_False by (intros [-> ->]; tauto).
      rewrite Hd2.
      destruct (decide ("cupboard" = l ∧ item = n)) as [[<- <-]|?];
        [by rewrite decide_True | by rewrite decide_False by (intros [? ?]; subst; auto)].
  - rewrite record_at_set_record. case_decide as Hc.
    + destruct Hc as [<- <-]. rewrite decide_True by done.
      rewrite Hd2. rewrite decide_True by done.
      by destruct (quantity r - q =? 0).
    + rewrite decide_False by (intros [-> ->]; tauto).
      rewrite Hd2.
      destruct (decide ("cupboard" = l ∧ item = n)) as [[<- <-]|?];
        [by rewrite decide_True | by rewrite decide_False by (intros [? ?]; subst; auto)].
Qed.

Lemma move_from_cupboard_not_found (m : Manager) (item : string) (q : Z) :
  record_at (data m) "cupboard" item = None →
  move_from_cupboard item q m = (Returned (false, msg_not_found), m).
Proof. intros H. unfold move_from_cupboard. by rewrite H. Qed.

Lemma move_from_cupboard_insufficient (m : Manager) (item : string) (q : Z) (r : Item) :
  record_at (data m) "cupboard" item = Some r →
  quantity r < q →
  move_from_cupboard item q m = (Returned (false, msg_insufficient), m).
Proof.
  intros H Hlt. unfold move_from_cupboard. rewrite H.
  by destruct (Z.ltb_spec (quantity r) q) as [_|?]; [|lia].
Qed.

Lemma move_from_cupboard_raise (m : Manager) (item : string) (q : Z) (r : Item) (e : Exn) :
  record_at (data m) "cupboard" item = Some r →
  q ≤ quantity r →
  first_stocking fridges item (data m) = Raise e →
  move_from_cupboard item q m = (Raise e, m).
Proof.
  intros Hr Hq He. unfold move_from_cupboard. rewrite Hr, He.
  by destruct (Z.ltb_spec (quantity r) q) as [?|_]; [lia|].
Qed.

(** A transfer that reports success went through [move_from_cupboard_run]. *)
Lemma move_from_cupboard_success (m m' : Manager) (item target : string) (q : Z) (r : Item) :
  record_at (data m) "cupboard" item = Some r →
  q ≤ quantity r →
  move_from_cupboard item q m = (Returned (true, target), m') →
  target ∈ fridges
  ∧ ∀ l n, record_at (data m') l n =
      if decide (l = target ∧ n = item) then
        Some (match record_at (data m) target item with
              | Some t => mkItem (quantity t + q) (category t)
              | None => mkItem q (if quantity r - q =? 0 then None else category r)
              end)
      else if decide (l = "cupboard" ∧ n = item) then
        (if quantity r - q =? 0 then None
         else Some (mkItem (quantity r - q) (category r)))
      else record_at (data m) l n.
Proof.
  intros Hr Hq Hmove.
  destruct (first_stocking fridges item (data m)) as [found|e] eqn:Hfound.
  - destruct (move_from_cupboard_run m item q r found Hr Hq Hfound)
      as (m1 & Heq & _ & _ & Hrec).
    rewrite Heq in Hmove.
    destruct (disk_ok m (length (written m))); [|discriminate].
    injection Hmove as <- <-.
    split; [|done]. by destruct (target_is_fridge _ _ _ Hfound).
  - rewrite (move_from_cupboard_raise m item q r e Hr Hq Hfound) in Hmove.
    discriminate.
Qed.

Lemma has_fridges_total (item : string) (d : Store) :
  has_fridges d → ∃ found, first_stocking fridges item d = Returned found.
Proof. apply first_stocking_total. Qed.

(** ** Transfer: conservation (C1) *)

(** C1.  For an item of the cupboard and a quantity [q] not above its
    cupboard quantity, a transfer that reports success keeps the sum of the
    item's quantities in the cupboard and at the target, lowers the cupboard
    quantity by exactly [q], and leaves no cupboard record exactly when that
    quantity reaches 0.  With the three refrigerators in the store and a
    working disk the transfer does report success. *)
Theorem transfer_conservation (m : Manager) (item : string) (q : Z) (r : Item) :
  record_at (data m) "cupboard" item = Some r →
  q ≤ quantity r →
  (∀ target m',
     move_from_cupboard item q m = (Returned (true, target), m') →
     qty_at (data m') "cupboard" item + qty_at (data m') target item
       = qty_at (data m) "cupboard" item + qty_at (data m) target item
     ∧ qty_at (data m') "cupboard" item = qty_at (data m) "cupboard" item - q
     ∧ (record_at (data m') "cupboard" item = None ↔ quantity r - q = 0))
  ∧ (has_fridges (data m) → disk_ok m (length (written m)) = true →
     ∃ target m', move_from_cupboard item q m = (Returned (true, target), m')).
Proof.
  intros Hr Hq. split.
  - intros target m' Hmove.
    destruct (move_from_cupboard_success m m' item target q r Hr Hq Hmove)
      as [Hin Hrec].
    pose proof (fridge_not_cupboard _ Hin) as Hne.
    assert (Hc : record_at (data m') "cupboard" item
                 = if quantity r - q =? 0 then None
                   else Some (mkItem (quantity r - q) (category r))).
    { rewrite Hrec. rewrite decide_False by (intros [? ?]; subst; auto).
      by rewrite decide_True. }
    assert (Ht : qty_at (data m') target item = qty_at (data m) target item + q).
    { unfold qty_at. rewrite Hrec. rewrite decide_True by done.
      by destruct (record_at (data m) target item). }
    assert (Hc' : qty_at (data m') "cupboard" item = quantity r - q).
    { unfold qty_at. rewrite Hc.
      destruct (Z.eqb_spec (quantity r - q) 0) as [E|E]; simpl; lia. }
    assert (Hc0 : qty_at (data m) "cupboard" item = quantity r).
    { unfold qty_at. by rewrite Hr. }
    split; [lia|]. split; [lia|].
    rewrite Hc. destruct (Z.eqb_spec (quantity r - q) 0) as [E|E]; split;
      (done || lia || discriminate).
  - intros Hf Hdisk.
    destruct (has_fridges_total item _ Hf) as [found Hfound].
    destruct (move_from_cupboard_run m item q r found Hr Hq Hfound)
      as (m1 & Heq & _).
    rewrite Hdisk in Heq. eauto.
Qed.

Lemma sample_has_fridges : has_fridges sample_store.
Proof. unfold has_fridges, fridges. repeat constructor; vm_compute; eauto. Qed.

Lemma transfer_conservation_witness :
  record_at (data (manager_of sample_store)) "cupboard" "Cola"
    = Some (mkItem 12 (Some "drinks"))
  ∧ 4 ≤ 12
  ∧ ((∀ target m',
        move_from_cupboard "Cola" 4 (manager_of sample_store)
          = (Returned (true, target), m') →
        qty_at (data m') "cupboard" "Cola" + qty_at (data m') target "Cola"
          = qty_at (data (manager_of sample_store)) "cupboard" "Cola"
            + qty_at (data (manager_of sample_store)) target "Cola"
        ∧ qty_at (data m') "cupboard" "Cola"
          = qty_at (data (manager_of sample_store)) "cupboard" "Cola" - 4
        ∧ (record_at (data m') "cupboard" "Cola" = None ↔ 12 - 4 = 0))
     ∧ (has_fridges (data (manager_of sample_store)) →
        disk_ok (manager_of sample_store)
          (length (written (manager_of sample_store))) = true →
        ∃ target m',
          move_from_cupboard "Cola" 4 (manager_of sample_store)
            = (Returned (true, target), m'))).
Proof.
  split; [reflexivity|]. split; [lia|].
  apply (transfer_conservation (manager_of sample_store) "Cola" 4
           (mkItem 12 (Some "drinks"))); [reflexivity | simpl; lia].
Defined.

(** ** Transfer: the category of a record created at the target (C3) *)

(** Where the target does not stock the item and the cupboard keeps some of
    it, the new record carries the cupboard's category. *)
Lemma transfer_category_carried (m m' : Manager) (item target : string) (q : Z) (r : Item) :
  record_at (data m) "cupboard" item = Some r →
  q < quantity r →
  record_at (data m) target item = None →
  move_from_cupboard item q m = (Returned (true, target), m') →
  record_at (data m') target item = Some (mkItem q (category r)).
Proof.
  intros Hr Hq Hnone Hmove.
  destruct (move_from_cupboard_success m m' item target q r Hr ltac:(lia) Hmove)
    as [_ Hrec].
  rewrite Hrec, decide_True, Hnone by done.
  by destruct (Z.eqb_spec (quantity r - q) 0) as [E|E]; [lia|].
Qed.

(** Where the transfer empties the cupboard record, the category is read
    after the record is deleted, and the new record has none. *)
Lemma transfer_category_dropped (m m' : Manager) (item target : string) (r : Item) :
  record_at (data m) "cupboard" item = Some r →
  record_at (data m) target item = None →
  move_from_cupboard item (quantity r) m = (Returned (true, target), m') →
  record_at (data m') target item = Some (mkItem (quantity r) None).
Proof.
  intros Hr Hnone Hmove.
  destruct (move_from_cupboard_success m m' item target (quantity r) r Hr
              ltac:(lia) Hmove) as [_ Hrec].
  rewrite Hrec, decide_True, Hnone by done.
  by rewrite Z.sub_diag.
Qed.

(** C3.  The cupboard holds 6 "Water" of category "still" and no
    refrigerator stocks it.  Transferring all 6 creates the record at
    refrigerator 1 without a category: the category the cupboard record had
    before the decrement is not carried. *)
Theorem transfer_depleting_loses_category :
  record_at sample_store "cupboard" "Water" = Some (mkItem 6 (Some "still"))
  ∧ record_at sample_store "refrigerator_1" "Water" = None
  ∧ (move_from_cupboard "Water" 6 (manager_of sample_store)).1
    = Returned (true, "refrigerator_1")
  ∧ record_at (data (move_from_cupboard "Water" 6 (manager_of sample_store)).2)
      "refrigerator_1" "Water" = Some (mkItem 6 None)
  ∧ record_at (data (move_from_cupboard "Water" 6 (manager_of sample_store)).2)
      "cupboard" "Water" = None.
Proof. repeat split; vm_compute; reflexivity. Qed.

(** ** Transfer: rejections (C7) *)

(** C7.  A transfer of an item that the cupboard does not hold fails with
    the "not found" message, a transfer of more than the cupboard holds fails
    with the "insufficient quantity" message, the manager is returned as it
    was in both cases, and the messages differ from each other and from the
    message of a failed save. *)
Theorem transfer_rejections (m : Manager) (item : string) (q : Z) :
  (record_at (data m) "cupboard" item = None →
   move_from_cupboard item q m = (Returned (false, msg_not_found), m))
  ∧ (∀ r, record_at (data m) "cupboard" item = Some r → quantity r < q →
     move_from_cupboard item q m = (Returned (false, msg_insufficient), m))
  ∧ msg_not_found ≠ msg_insufficient
  ∧ msg_not_found ≠ msg_save_error
  ∧ msg_insufficient ≠ msg_save_error.
Proof.
  split; [apply move_from_cupboard_not_found|].
  split; [apply move_from_cupboard_insufficient|].
  by repeat split.
Qed.

Lemma transfer_rejections_witness :
  record_at (data (manager_of sample_store)) "cupboard" "Juice" = None
  ∧ move_from_cupboard "Juice" 1 (manager_of sample_store)
    = (Returned (false, msg_not_found), manager_of sample_store)
  ∧ record_at (data (manager_of sample_store)) "cupboard" "Water"
    = Some (mkItem 6 (Some "still"))
  ∧ 6 < 7
  ∧ move_from_cupboard "Water" 7 (manager_of sample_store)
    = (Returned (false, msg_insufficient), manager_of sample_store).
Proof.
  split; [reflexivity|]. split.
  { apply (transfer_rejections (manager_of sample_store) "Juice" 1). reflexivity. }
  split; [reflexivity|]. split; [lia|].
  apply (proj1 (proj2 (transfer_rejections (manager_of sample_store) "Water" 7))
           (mkItem 6 (Some "still"))); [reflexivity | simpl; lia].
Defined.

(** ** Transfer: no lower bound on the quantity (C10) *)

(** C10.  With the three refrigerators in the store, a transfer of any
    [q] not above the cupboard quantity, zero and negative [q] included,
    passes both checks and reports success when the save goes through.  The
    cupboard quantity becomes [quantity r - q] and the target holds a record
    with its former quantity plus [q]: for [q = 0] the cupboard quantity is
    unchanged and a target record exists all the same, for [q < 0] the
    cupboard quantity grows and the target quantity shrinks, and a record
    created at the target has quantity [q]. *)
Theorem transfer_signed (m : Manager) (item : string) (q : Z) (r : Item) :
  record_at (data m) "cupboard" item = Some r →
  q ≤ quantity r →
  has_fridges (data m) →
  ∃ target m' t',
    target ∈ fridges
    ∧ move_from_cupboard item q m
      = (Returned (if disk_ok m (length (written m))
                   then (true, target) else (false, msg_save_error)), m')
    ∧ qty_at (data m') "cupboard" item = quantity r - q
    ∧ record_at (data m') target item = Some t'
    ∧ quantity t' = qty_at (data m) target item + q
    ∧ (record_at (data m) target item = None → quantity t' = q)
    ∧ (q = 0 → qty_at (data m') "cupboard" item = qty_at (data m) "cupboard" item)
    ∧ (q < 0 → qty_at (data m) "cupboard" item < qty_at (data m') "cupboard" item
               ∧ quantity t' < qty_at (data m) target item).
Proof.
  intros Hr Hq Hf.
  destruct (has_fridges_total item _ Hf) as [found Hfound].
  destruct (move_from_cupboard_run m item q r found Hr Hq Hfound)
    as (m' & Heq & _ & _ & Hrec).
  destruct (target_is_fridge _ _ _ Hfound) as [Hin _].
  pose proof (fridge_not_cupboard _ Hin) as Hne.
  assert (Hc : qty_at (data m') "cupboard" item = quantity r - q).
  { unfold qty_at. rewrite Hrec. rewrite decide_False by (intros [? ?]; subst; auto).
    rewrite decide_True by done.
    destruct (Z.eqb_spec (quantity r - q) 0) as [E|E]; simpl; lia. }
  assert (Hc0 : qty_at (data m) "cupboard" item = quantity r).
  { unfold qty_at. by rewrite Hr. }
  assert (Ht : ∃ t', record_at (data m') (target_of found) item = Some t'
            ∧ quantity t' = qty_at (data m) (target_of found) item + q
            ∧ (record_at (data m) (target_of found) item = None → quantity t' = q)).
  { rewrite Hrec, decide_True by done. eexists. split; [done|].
    unfold qty_at.
    destruct (record_at (data m) (target_of found) item); simpl;
      split; (done || lia). }
  destruct Ht as (t' & Ht1 & Ht2 & Ht3).
  exists (target_of found), m', t'. repeat split; try done; lia.
Qed.

Lemma transfer_signed_witness :
  record_at (data (manager_of sample_store)) "cupboard" "Water"
    = Some (mkItem 6 (Some "still"))
  ∧ -3 ≤ 6
  ∧ has_fridges (data (manager_of sample_store))
  ∧ ∃ target m' t',
      target ∈ fridges
      ∧ move_from_cupboard "Water" (-3) (manager_of sample_store)
        = (Returned (if disk_ok (manager_of sample_store)
                          (length (written (manager_of sample_store)))
                     then (true, target) else (false, msg_save_error)), m')
      ∧ qty_at (data m') "cupboard" "Water" = 6 - -3
      ∧ record_at (data m') target "Water" = Some t'
      ∧ quantity t' = qty_at (data (manager_of sample_store)) target "Water" + -3
      ∧ (record_at (data (manager_of sample_store)) target "Water" = None →
         quantity t' = -3)
      ∧ (-3 = 0 → qty_at (data m') "cupboard" "Water"
                  = qty_at (data (manager_of sample_store)) "cupboard" "Water")
      ∧ (-3 < 0 → qty_at (data (manager_of sample_store)) "cupboard" "Water"
                  < qty_at (data m') "cupboard" "Water"
                  ∧ quantity t' < qty_at (data (manager_of sample_store)) target "Water").
Proof.
  split; [reflexivity|]. split; [lia|]. split; [apply sample_has_fridges|].
  apply (transfer_signed (manager_of sample_store) "Water" (-3)
           (mkItem 6 (Some "still")));
    [reflexivity | simpl; lia | apply sample_has_fridges].
Defined.

(** ** Receiving (C8) *)

Lemma receive_one_record (d : Store) (n name : string) (q : Z) :
  record_at (receive_one d (n, q)) "cupboard" name
  = if decide (n = name)
    then Some (match record_at d "cupboard" n with
               | Some r => mkItem (quantity r + q) (category r)
               | None => mkItem q None
               end)
    else record_at d "cupboard" name.
Proof.
  unfold receive_one.
  destruct (record_at d "cupboard" n) as [r|];
    rewrite record_at_set_record;
    (destruct (decide (n = name)) as [->|Hne];
      [by rewrite decide_True | by rewrite decide_False by tauto]).
Qed.

Lemma receive_one_elsewhere (d : Store) (line : string * Z) (l : string) :
  l ≠ "cupboard" → receive_one d line !! l = d !! l.
Proof.
  intros Hl. destruct line as [n q]. unfold receive_one, set_record.
  by destruct (record_at d "cupboard" n); rewrite lookup_insert_ne.
Qed.

Lemma receive_fold_record (goods_list : list (string * Z)) (d : Store) (name : string) :
  record_at (foldl receive_one d goods_list) "cupboard" name
  = receive_spec goods_list name (record_at d "cupboard" name).
Proof.
  revert d. induction goods_list as [|[n q] rest IH]; intros d.
  - unfold receive_spec. change (foldl receive_one d []) with d.
    destruct (record_at d "cupboard" name) as [[q0 c0]|]; simpl;
      [by rewrite Z.add_0_r | done].
  - change (foldl receive_one d ((n, q) :: rest))
      with (foldl receive_one (receive_one d (n, q)) rest).
    rewrite IH, receive_one_record. unfold receive_spec.
    change (((n, q) :: rest).*1) with (n :: rest.*1).
    assert (Hcons : received ((n, q) :: rest) name
                    = if decide (n = name) then q + received rest name
                      else received rest name) by reflexivity.
    rewrite Hcons. clear Hcons.
    destruct (decide (n = name)) as [->|Hne].
    + rewrite (decide_True (P := name ∈ name :: rest.*1)) by left.
      destruct (record_at d "cupboard" name) as [r|]; simpl; f_equal; f_equal; lia.
    + destruct (record_at d "cupboard" name) as [r|]; [done|].
      destruct (decide (name ∈ rest.*1)) as [Hin|Hnin].
      * by rewrite decide_True by by right.
      * rewrite decide_False; [done|].
        rewrite elem_of_cons. intros [->|?]; done.
Qed.

Lemma receive_fold_elsewhere (goods_list : list (string * Z)) (d : Store) (l : string) :
  l ≠ "cupboard" → foldl receive_one d goods_list !! l = d !! l.
Proof.
  intros Hl. revert d. induction goods_list as [|line rest IH]; intros d; simpl;
    [done|]. by rewrite IH, receive_one_elsewhere.
Qed.

Lemma add_to_cupboard_record (goods_list : list (string * Z)) (m : Manager) (name : string) :
  record_at (data (add_to_cupboard goods_list m).2) "cupboard" name
  = receive_spec goods_list name (record_at (data m) "cupboard" name).
Proof.
  unfold add_to_cupboard. simpl. rewrite receive_fold_record. f_equal.
  destruct (data m !! "cupboard") as [items|] eqn:Hc; [done|].
  unfold record_at. by rewrite lookup_insert_eq, Hc.
Qed.

Lemma add_to_cupboard_elsewhere (goods_list : list (string * Z)) (m : Manager) (l : string) :
  l ≠ "cupboard" → data (add_to_cupboard goods_list m).2 !! l = data m !! l.
Proof.
  intros Hl. unfold add_to_cupboard. simpl.
  rewrite receive_fold_elsewhere by done.
  destruct (data m !! "cupboard"); [done|]. by rewrite lookup_insert_ne.
Qed.

(** C8.  [add_to_cupboard] applies the lines in order, each one adding its
    quantity to the cupboard record of that name or creating the record with
    that quantity and no category; so the cupboard ends with every name's
    former quantity plus what the batch brings for it, categories of former
    records kept and new records without one, and the other locations as they
    were.  It makes one write attempt, of the store after the whole batch, and
    returns the outcome of that attempt. *)
Theorem receive_batch (goods_list : list (string * Z)) (m : Manager) :
  (add_to_cupboard goods_list m).1 = disk_ok m (length (written m))
  ∧ written (add_to_cupboard goods_list m).2
    = written m ++ [data (add_to_cupboard goods_list m).2]
  ∧ (∀ name, record_at (data (add_to_cupboard goods_list m).2) "cupboard" name
             = receive_spec goods_list name (record_at (data m) "cupboard" name))
  ∧ (∀ l, l ≠ "cupboard" → data (add_to_cupboard goods_list m).2 !! l = data m !! l)
  ∧ (∀ d line name, record_at (receive_one d line) "cupboard" name
       = if decide (line.1 = name)
         then Some (match record_at d "cupboard" line.1 with
                    | Some r => mkItem (quantity r + line.2) (category r)
                    | None => mkItem line.2 None
                    end)
         else record_at d "cupboard" name).
Proof.
  split; [done|]. split; [done|].
  split; [apply add_to_cupboard_record|].
  split; [apply add_to_cupboard_elsewhere|].
  intros d [n q] name. apply receive_one_record.
Qed.

(** ** Reading a location (C9) *)

(** C9, as the code has it.  For a non-empty location name that is not a key
    of the store, [get_inventory] returns an empty mapping; for the empty
    string, as for no argument, it returns the whole store; the manager is
    never changed. *)
Theorem get_inventory_unknown (m : Manager) (location : string) :
  location ≠ "" →
  data m !! location = None →
  get_inventory (Some location) m = (LocationItems ∅, m)
  ∧ get_inventory (Some "") m = (WholeStore (data m), m)
  ∧ get_inventory None m = (WholeStore (data m), m)
  ∧ ∀ arg, (get_inventory arg m).2 = m.
Proof.
  intros Hne Hnone. unfold get_inventory, truthy. repeat split.
  - destruct (String.eqb_spec location "") as [->|_]; [done|]. simpl.
    by rewrite Hnone.
  - intros [loc|]; [|done]. by destruct (negb (String.eqb loc "")).
Qed.

Lemma get_inventory_unknown_witness :
  "freezer" ≠ ""
  ∧ data (manager_of create_default_data) !! "freezer" = None
  ∧ get_inventory (Some "freezer") (manager_of create_default_data)
    = (LocationItems ∅, manager_of create_default_data).
Proof.
  split; [discriminate|]. split; [reflexivity|].
  apply (get_inventory_unknown (manager_of create_default_data) "freezer");
    [discriminate | reflexivity].
Defined.

(** The empty string is none of the four location keys, and for it
    [get_inventory] returns the whole store, which is not an empty mapping. *)
Lemma get_inventory_empty_name :
  ("" ∉ counting_locations)
  ∧ get_inventory (Some "") (manager_of create_default_data)
    = (WholeStore create_default_data, manager_of create_default_data)
  ∧ create_default_data ≠ ∅
  ∧ ¬ (∀ (m : Manager) (location : string),
         location ∉ counting_locations →
         (get_inventory (Some location) m).1 = LocationItems ∅).
Proof.
  assert (Hnin : "" ∉ counting_locations).
  { unfold counting_locations. rewrite !elem_of_cons, elem_of_nil.
    intros [?|[?|[?|[?|[]]]]]; discriminate. }
  split; [done|]. split; [reflexivity|]. split.
  - intros H. apply (f_equal (λ d : Store, d !! "cupboard")) in H.
    vm_compute in H. discriminate.
  - intros H. specialize (H (manager_of create_default_data) "" Hnin).
    discriminate.
Qed.

(** ** Reorder advisor (C5) *)

Lemma total_in_fridges_sum (d : Store) (item : string) :
  total_in_fridges d item = fridge_total d item.
Proof. unfold total_in_fridges, fridge_total, fridges. simpl. lia. Qed.

Lemma is_Some_items_record (d : Store) (loc item : string) :
  is_Some (default ∅ (d !! loc) !! item) ↔ is_Some (record_at d loc item).
Proof.
  unfold record_at. destruct (d !! loc); simpl; [done|].
  rewrite lookup_empty. done.
Qed.

Lemma elem_of_fridge_items (d : Store) (item : string) :
  item ∈ fridge_items d ↔ stocked_in_fridge d item.
Proof.
  unfold fridge_items, stocked_in_fridge, fridges. simpl.
  rewrite !elem_of_union, !elem_of_dom, !is_Some_items_record.
  split.
  - intros [[[H|H]|H]|H]; [by apply not_elem_of_empty in H| | |];
      eexists; (split; [|exact H]); set_solver.
  - intros (loc & Hin & H). rewrite !elem_of_cons, elem_of_nil in Hin.
    destruct Hin as [->|[->|[->|[]]]]; tauto.
Qed.

Lemma float_of_int_exact (z : Z) : Z.abs z ≤ 2 ^ 53 → float_of_int z = Some z.
Proof.
  intros Hz. destruct (decide (Z.abs z = 2 ^ 53)) as [Heq|Hne].
  - assert (z = 2 ^ 53 ∨ z = - 2 ^ 53) as [->| ->] by lia; reflexivity.
  - unfold float_of_int.
    assert (Hlog : Z.log2 (Z.abs z) + 1 ≤ 53).
    { destruct (decide (Z.abs z = 0)) as [->|H0]; [simpl; lia|].
      assert (Z.log2 (Z.abs z) < 53); [|lia].
      apply Z.log2_lt_pow2; lia. }
    by destruct (Z.leb_spec (Z.log2 (Z.abs z) + 1) 53) as [_|?]; [|lia].
Qed.

Lemma ceil_half_exact (z : Z) :
  Z.abs z ≤ 2 ^ 53 → ceil_half z = Some ((z + 1) / 2).
Proof. intros Hz. unfold ceil_half. by rewrite float_of_int_exact. Qed.

Lemma check_fold (d : Store) (threshold : Z) :
  (∀ item, Z.abs (fridge_total d item) ≤ 2 ^ 53) →
  ∀ X : gset string, ∃ to_order,
    set_fold (check_item d threshold) (Returned ∅) X = Returned to_order
    ∧ ∀ item, to_order !! item
              = if decide (item ∈ X) then advice d threshold item else None.
Proof.
  intros Hexact.
  apply (set_fold_ind_L
           (λ r (X : gset string), ∃ to_order, r = Returned to_order
              ∧ ∀ item, to_order !! item
                        = if decide (item ∈ X) then advice d threshold item else None)).
  - exists ∅. split; [done|]. intros item. rewrite lookup_empty.
    by rewrite decide_False by apply not_elem_of_empty.
  - intros x X r Hx (t & -> & Ht). unfold check_item.
    rewrite total_in_fridges_sum, ceil_half_exact by done.
    assert (Hother : ∀ item, item ≠ x →
              (if decide (item ∈ {[x]} ∪ X) then advice d threshold item else None)
              = if decide (item ∈ X) then advice d threshold item else None).
    { intros item Hne. destruct (decide (item ∈ X)) as [Hin|Hnin].
      - rewrite decide_True; [done|]. apply elem_of_union. by right.
      - rewrite decide_False; [done|].
        rewrite elem_of_union, elem_of_singleton. tauto. }
    assert (Hhere : x ∈ {[x]} ∪ X).
    { apply elem_of_union. left. by apply elem_of_singleton. }
    destruct (qty_at d "cupboard" x <? threshold) eqn:Hlow.
    + eexists. split; [done|]. intros item.
      destruct (decide (item = x)) as [->|Hne].
      * rewrite lookup_insert_eq, decide_True by done.
        unfold advice. by rewrite Hlow.
      * by rewrite lookup_insert_ne, Ht, Hother.
    + exists t. split; [done|]. intros item. rewrite Ht.
      destruct (decide (item = x)) as [->|Hne].
      * rewrite decide_False, decide_True by done.
        unfold advice. by rewrite Hlow.
      * by rewrite Hother.
Qed.

(** C5, within the range where doubles are exact.  When every item's total
    over the refrigerators is at most 2^53 in absolute value,
    [check_stock_levels] with threshold 10 returns a mapping in which an item
    stocked in some refrigerator appears exactly when its cupboard quantity
    (0 if absent) is below 10, with that quantity as [current] and
    [max(10, c)] as [recommended], [c] being the least integer with
    [total <= 2 * c]; items stocked in no refrigerator do not appear, and the
    manager is returned as it was. *)
Theorem reorder_advice (m : Manager) :
  (∀ item, Z.abs (fridge_total (data m) item) ≤ 2 ^ 53) →
  ∃ to_order,
    check_stock_levels default_threshold m = (Returned to_order, m)
    ∧ ∀ item,
        (stocked_in_fridge (data m) item →
           (is_Some (to_order !! item) ↔ qty_at (data m) "cupboard" item < 10)
           ∧ ∀ rec, to_order !! item = Some rec →
               current rec = qty_at (data m) "cupboard" item
               ∧ ∃ c, recommended rec = Z.max 10 c
                      ∧ fridge_total (data m) item ≤ 2 * c < fridge_total (data m) item + 2)
        ∧ (¬ stocked_in_fridge (data m) item → to_order !! item = None).
Proof.
  intros Hexact.
  destruct (check_fold (data m) default_threshold Hexact (fridge_items (data m)))
    as (t & Heq & Ht).
  exists t. split; [unfold check_stock_levels; by rewrite Heq|].
  intros item. rewrite Ht. split.
  - intros Hst. rewrite decide_True by by apply elem_of_fridge_items.
    unfold advice, default_threshold.
    destruct (Z.ltb_spec (qty_at (data m) "cupboard" item) 10) as [Hlt|Hge].
    + split; [split; eauto|]. intros rec [= <-]. simpl. split; [done|].
      exists ((fridge_total (data m) item + 1) / 2). split; [done|].
      pose proof (Z.div_mod (fridge_total (data m) item + 1) 2 ltac:(lia)).
      pose proof (Z.mod_pos_bound (fridge_total (data m) item + 1) 2 ltac:(lia)).
      lia.
    + split; [|done]. split; [intros [? ?]; done | lia].
  - intros Hst. by rewrite decide_False by by rewrite elem_of_fridge_items.
Qed.

Lemma cola_store_totals (q : Z) (item : string) :
  Z.abs q ≤ 2 ^ 53 → Z.abs (fridge_total (cola_store q) item) ≤ 2 ^ 53.
Proof.
  intros Hq. unfold fridge_total, qty_at, record_at, cola_store.
  rewrite lookup_insert_eq. simpl.
  destruct (decide (item = "Cola")) as [->|Hne].
  - change (Z.abs (q + 0 + 0) ≤ 2 ^ 53). lia.
  - rewrite lookup_singleton_ne by done. change (Z.abs 0 ≤ 2 ^ 53). lia.
Qed.

Lemma reorder_advice_witness :
  (∀ item, Z.abs (fridge_total (data (manager_of (cola_store 7))) item) ≤ 2 ^ 53)
  ∧ ∃ to_order,
      check_stock_levels default_threshold (manager_of (cola_store 7))
        = (Returned to_order, manager_of (cola_store 7))
      ∧ ∀ item,
          (stocked_in_fridge (data (manager_of (cola_store 7))) item →
             (is_Some (to_order !! item)
              ↔ qty_at (data (manager_of (cola_store 7))) "cupboard" item < 10)
             ∧ ∀ rec, to_order !! item = Some rec →
                 current rec = qty_at (data (manager_of (cola_store 7))) "cupboard" item
                 ∧ ∃ c, recommended rec = Z.max 10 c
                        ∧ fridge_total (data (manager_of (cola_store 7))) item ≤ 2 * c
                          < fridge_total (data (manager_of (cola_store 7))) item + 2)
          ∧ (¬ stocked_in_fridge (data (manager_of (cola_store 7))) item →
             to_order !! item = None).
Proof.
  assert (H : ∀ item,
             Z.abs (fridge_total (data (manager_of (cola_store 7))) item) ≤ 2 ^ 53).
  { intros item. apply cola_store_totals. simpl. lia. }
  split; [exact H|].
  apply (reorder_advice (manager_of (cola_store 7)) H).
Defined.

(** With 2^1024 "Cola" in refrigerator 1 and none in the cupboard, the
    conversion of the total to a double overflows and [check_stock_levels]
    raises instead of returning a mapping with "Cola" in it.  With 2^54 + 2
    the total is rounded to 2^54 and the recommendation is 2^53, one below the
    ceiling of half the total. *)
Lemma reorder_advice_beyond_doubles :
  stocked_in_fridge (cola_store (2 ^ 1024)) "Cola"
  ∧ qty_at (cola_store (2 ^ 1024)) "cupboard" "Cola" = 0
  ∧ (check_stock_levels default_threshold (manager_of (cola_store (2 ^ 1024)))).1
    = Raise OverflowError
  ∧ fridge_total (cola_store (2 ^ 54 + 2)) "Cola" = 2 ^ 54 + 2
  ∧ (∃ to_order,
       (check_stock_levels default_threshold (manager_of (cola_store (2 ^ 54 + 2)))).1
         = Returned to_order
       ∧ to_order !! "Cola" = Some (mkRecommendation 0 (2 ^ 53)))
  ∧ ¬ (2 ^ 54 + 2 ≤ 2 * 2 ^ 53).
Proof.
  split.
  { exists "refrigerator_1". split; [by left | by vm_compute; eauto]. }
  split; [by vm_compute|]. split; [by vm_compute|]. split; [by vm_compute|].
  split; [|lia].
  eexists. split; by vm_compute.
Qed.
(** ** Stocktake: what confirming writes *)

Lemma edit_item_record (l n l' n' : string) (nq : option Z) (nc : option string)
    (m : Manager) :
  record_at (data (edit_item l n nq nc m).2) l' n'
  = if decide (l = l' ∧ n = n')
    then (λ r, mkItem (default (quantity r) nq)
                 (match nc with Some c => Some c | None => category r end))
         <$> record_at (data m) l n
    else record_at (data m) l' n'.
Proof.
  unfold edit_item.
  destruct (record_at (data m) l n) as [r|] eqn:Hr; simpl.
  - rewrite record_at_set_record. case_decide; [|done].
    by destruct r, nq, nc.
  - case_decide as Hc; [|done]. destruct Hc as [<- <-]. done.
Qed.

Lemma apply_items_record (l : string) (items : gmap string Z) (m : Manager) (l' n' : string) :
  record_at (data (map_fold (λ item new_quantity m,
                      (edit_item l item (Some new_quantity) None m).2) m items)) l' n'
  = match (if decide (l = l') then items !! n' else None) with
    | Some q => (λ r, mkItem q (category r)) <$> record_at (data m) l' n'
    | None => record_at (data m) l' n'
    end.
Proof.
  revert l' n'.
  apply (map_fold_weak_ind
           (λ (m1 : Manager) (items : gmap string Z), ∀ l' n',
              record_at (data m1) l' n'
              = match (if decide (l = l') then items !! n' else None) with
                | Some q => (λ r, mkItem q (category r)) <$> record_at (data m) l' n'
                | None => record_at (data m) l' n'
                end)).
  - intros l' n'. rewrite lookup_empty. by destruct (decide (l = l')).
  - intros i x its m1 Hi IH l' n'. rewrite edit_item_record. simpl.
    destruct (decide (l = l')) as [<-|Hl].
    + destruct (decide (i = n')) as [<-|Hn].
      * rewrite decide_True, lookup_insert_eq by done.
        rewrite IH, decide_True, Hi by done. done.
      * rewrite decide_False, lookup_insert_ne by tauto.
        rewrite IH. by rewrite decide_True.
    + rewrite decide_False by tauto. rewrite IH. by rewrite decide_False.
Qed.

Lemma apply_results_record (res : gmap string (gmap string Z)) (m : Manager) (l n : string) :
  record_at (data (apply_results res m)) l n
  = match res !! l ≫= (.!! n) with
    | Some q => (λ r, mkItem q (category r)) <$> record_at (data m) l n
    | None => record_at (data m) l n
    end.
Proof.
  revert l n. unfold apply_results.
  apply (map_fold_weak_ind
           (λ (m1 : Manager) (res : gmap string (gmap string Z)), ∀ l n,
              record_at (data m1) l n
              = match res !! l ≫= (.!! n) with
                | Some q => (λ r, mkItem q (category r)) <$> record_at (data m) l n
                | None => record_at (data m) l n
                end)).
  - intros l n. by rewrite lookup_empty.
  - intros i items res' m1 Hi IH l n. rewrite apply_items_record.
    destruct (decide (i = l)) as [<-|Hl].
    + rewrite lookup_insert_eq. simpl. rewrite IH, Hi. simpl.
      done.
    + rewrite lookup_insert_ne by done. by rewrite IH.
Qed.

(** ** Stocktake: what a session records *)

Lemma elem_of_keys (items : Inventory) (n : string) :
  n ∈ keys items → is_Some (items !! n).
Proof.
  unfold keys. rewrite list_elem_of_fmap. intros ([k r] & -> & Hin).
  apply elem_of_map_to_list in Hin. eauto.
Qed.

Lemma recorded_record_result (c : Counting) (idx : nat) (cur : option Cursor)
    (location item : string) (q : Z) (l n : string) :
  recorded (mkCounting idx (record_result location item q (results c)) cur) l n
  = if decide (location = l ∧ item = n) then Some q else recorded c l n.
Proof.
  unfold recorded, record_result. simpl.
  destruct (decide (location = l)) as [<-|Hl].
  - rewrite lookup_insert_eq. simpl.
    destruct (decide (item = n)) as [<-|Hn].
    + rewrite lookup_insert_eq. by rewrite decide_True.
    + rewrite lookup_insert_ne by done. rewrite decide_False by tauto.
      by destruct (results c !! location).
  - rewrite lookup_insert_ne by done. by rewrite decide_False by tauto.
Qed.

Section Session.

(** The interpreter's [eval] and the manager the session runs against; no
    other operation changes the store while the session is open. *)
Context (eval : pystr → Raised pynum) (m : Manager).

Lemma location_inventory_lookup (l n : string) (r : Item) :
  location_inventory l m !! n = Some r → record_at (data m) l n = Some r.
Proof.
  unfold location_inventory, get_inventory, record_at.
  destruct (truthy l); simpl; [|by rewrite lookup_empty].
  destruct (data m !! l); simpl; [done | by rewrite lookup_empty].
Qed.

Lemma entered_location_inv (c : Counting) (idx : nat) (l : string) :
  session_inv m c →
  session_inv m (mkCounting idx (results c)
                   (Some (mkCursor (keys (location_inventory l m)) 0 l))).
Proof.
  intros [Hres _]. split; [exact Hres|].
  intros cur [= <-] n Hn. simpl in *.
  destruct (elem_of_keys _ _ Hn) as [r Hr].
  apply location_inventory_lookup in Hr. eauto.
Qed.

Lemma finish_counting_state (c : Counting) : (finish_counting c m).2 = c.
Proof.
  unfold finish_counting.
  destruct (report_difference c m) as [total|]; [|done].
  by destruct (format_int total).
Qed.

Lemma next_location_from_inv (rest : list string) (c : Counting) :
  session_inv m c → session_inv m (next_location_from rest c m).2.
Proof.
  revert c. induction rest as [|l rest IH]; intros c Hinv; simpl.
  - rewrite finish_counting_state. exact Hinv.
  - destruct (decide (location_inventory l m = ∅)).
    + apply IH. exact Hinv.
    + simpl. by apply (entered_location_inv c).
Qed.

Lemma start_counting_inv : session_inv m (start_counting m).2.
Proof.
  assert (H0 : session_inv m (mkCounting 0 ∅ None)).
  { split; [|discriminate]. intros l n q. unfold recorded. simpl.
    by rewrite lookup_empty. }
  unfold start_counting, counting_locations.
  destruct (decide (location_inventory "refrigerator_1" m = ∅)).
  - by apply next_location_from_inv.
  - simpl. by apply (entered_location_inv (mkCounting 0 ∅ None)).
Qed.

Lemma handle_counting_quantity_inv (text : pystr) (c : Counting) :
  session_inv m c → session_inv m (handle_counting_quantity eval text c m).2.
Proof.
  intros Hinv. unfold handle_counting_quantity.
  destruct (calculate_expression eval text) as [q|]; [|done].
  destruct (Z.ltb_spec q 0) as [?|Hq]; [done|].
  destruct (cursor c) as [cur|] eqn:Hcur; [|done].
  destruct (current_items cur !! current_item_index cur) as [item|] eqn:Hitem;
    [|done].
  set (c' := mkCounting _ _ _).
  assert (Hinv' : session_inv m c').
  { destruct Hinv as [Hres Hcursor]. split.
    - intros l n q'. unfold c'. rewrite recorded_record_result.
      case_decide as Hc; [|apply Hres].
      destruct Hc as [<- <-]. intros [= <-]. split; [done|].
      apply (Hcursor cur Hcur). by eapply list_elem_of_lookup_2.
    - intros cur' [= <-] n Hn. simpl in *. by apply (Hcursor cur Hcur). }
  destruct (current_items cur !! S (current_item_index cur)) as [next|].
  - by destruct (location_inventory (current_location cur) m !! next).
  - by apply next_location_from_inv.
Qed.

Lemma feed_inv (texts : list pystr) (st : Raised ConvState * Counting) :
  session_inv m st.2 → session_inv m (feed eval texts st m).2.
Proof.
  revert st. induction texts as [|text texts IH]; intros [[s|e] c] Hinv; simpl;
    try done.
  destruct s; try done. apply IH. by apply handle_counting_quantity_inv.
Qed.

(** Whatever the operator sends, the session holds non-negative counts of
    items that the store holds. *)
Lemma session_records (texts : list pystr) (l n : string) (q : Z) :
  recorded (feed eval texts (start_counting m) m).2 l n = Some q →
  0 ≤ q ∧ is_Some (record_at (data m) l n).
Proof. apply feed_inv, start_counting_inv. Qed.

(** ** Stocktake: confirming and declining (C6) *)

(** C6.  For a session run from [start_counting] on the store of [m] with
    any messages: confirming leaves every recorded (location, item) with the
    recorded quantity and the category it had, whatever its quantity was,
    leaves every item the session has not recorded as it was, and declining
    returns the manager as it was. *)
Theorem stocktake_confirm (texts : list pystr) :
  let c := (feed eval texts (start_counting m) m).2 in
  (∀ l n q, recorded c l n = Some q →
     ∃ r, record_at (data m) l n = Some r
          ∧ record_at (data (confirm_counting true c m).2) l n
            = Some (mkItem q (category r)))
  ∧ (∀ l n, recorded c l n = None →
       record_at (data (confirm_counting true c m).2) l n = record_at (data m) l n)
  ∧ (confirm_counting false c m).2 = m.
Proof.
  intros c. unfold confirm_counting. simpl. split; [|split; [|done]].
  - intros l n q Hq. destruct (session_records texts l n q Hq) as [_ [r Hr]].
    exists r. split; [done|]. rewrite apply_results_record.
    unfold recorded in Hq. by rewrite Hq, Hr.
  - intros l n Hnone. rewrite apply_results_record.
    unfold recorded in Hnone. by rewrite Hnone.
Qed.

End Session.

(** ** Quantities that stay positive (C2) *)

Lemma received_nonneg (goods_list : list (string * Z)) (name : string) :
  Forall (λ line, 0 < line.2) goods_list → 0 ≤ received goods_list name.
Proof.
  induction 1 as [|[n q] rest Hq _ IH]; [done|].
  change (0 ≤ if decide (n = name) then q + received rest name
              else received rest name).
  simpl in Hq. case_decide; lia.
Qed.

Lemma received_pos (goods_list : list (string * Z)) (name : string) :
  Forall (λ line, 0 < line.2) goods_list → name ∈ goods_list.*1 →
  0 < received goods_list name.
Proof.
  induction 1 as [|[n q] rest Hq Hrest IH]; [by intros ?%elem_of_nil|].
  change (name ∈ n :: rest.*1 →
          0 < if decide (n = name) then q + received rest name
              else received rest name).
  simpl in Hq. pose proof (received_nonneg rest name Hrest).
  rewrite elem_of_cons. case_decide; [lia|]. intros [->|Hin]; [done|].
  by apply IH.
Qed.

(** C2, as the code has it.  From a store whose quantities are all
    positive: adding or editing with a positive quantity (what the add and
    edit handlers let through), removing, transferring a positive quantity,
    receiving positive quantities and confirming a stocktake of positive
    counts leave all quantities positive; confirming a stocktake session
    leaves all quantities non-negative. *)
Theorem quantities_stay_positive (m : Manager) :
  all_quantities (λ q, 0 < q) (data m) →
  (∀ q, positive_gate q = true ↔ 0 < q)
  ∧ (∀ l n q cat, 0 < q →
       all_quantities (λ q, 0 < q) (data (add_item l n q cat m).2))
  ∧ (∀ l n nq nc, (∀ q, nq = Some q → 0 < q) →
       all_quantities (λ q, 0 < q) (data (edit_item l n nq nc m).2))
  ∧ (∀ l n, all_quantities (λ q, 0 < q) (data (remove_item l n m).2))
  ∧ (∀ item q, 0 < q →
       all_quantities (λ q, 0 < q) (data (move_from_cupboard item q m).2))
  ∧ (∀ goods_list, Forall (λ line, 0 < line.2) goods_list →
       all_quantities (λ q, 0 < q) (data (add_to_cupboard goods_list m).2))
  ∧ (∀ c, (∀ l n q, recorded c l n = Some q → 0 < q) →
       all_quantities (λ q, 0 < q) (data (confirm_counting true c m).2))
  ∧ (∀ eval texts,
       all_quantities (λ q, 0 ≤ q)
         (data (confirm_counting true (feed eval texts (start_counting m) m).2 m).2)).
Proof.
  intros Hpos. repeat apply conj.
  - intros q. unfold positive_gate. destruct (Z.leb_spec q 0); simpl; split;
      (done || lia).
  - intros l n q cat Hq. unfold add_item.
    destruct (data m !! l) as [items|]; [|done].
    destruct (items !! n); [done|]. simpl.
    intros l' n' r. autorewrite with store.
    case_decide; [by intros [= <-] | apply Hpos].
  - intros l n nq nc Hq l' n' r. rewrite edit_item_record.
    case_decide; [|apply Hpos].
    destruct (record_at (data m) l n) as [r0|] eqn:Hr0; [|done].
    intros [= <-]. simpl. destruct nq as [q|]; simpl; [by apply Hq|].
    by apply (Hpos l n r0).
  - intros l n. unfold remove_item.
    destruct (record_at (data m) l n); [|done]. simpl.
    intros l' n' r. autorewrite with store.
    case_decide; [done | apply Hpos].
  - intros item q Hq.
    destruct (record_at (data m) "cupboard" item) as [r|] eqn:Hr.
    2:{ by rewrite (move_from_cupboard_not_found m item q Hr). }
    destruct (Z.lt_ge_cases (quantity r) q) as [Hlt|Hge].
    { by rewrite (move_from_cupboard_insufficient m item q r Hr Hlt). }
    destruct (first_stocking fridges item (data m)) as [found|e] eqn:Hfound.
    2:{ by rewrite (move_from_cupboard_raise m item q r e Hr Hge Hfound). }
    destruct (move_from_cupboard_run m item q r found Hr Hge Hfound)
      as (m1 & -> & _ & _ & Hrec).
    simpl. intros l n r'. rewrite Hrec.
    pose proof (Hpos _ _ _ Hr).
    case_decide.
    + destruct (record_at (data m) (target_of found) item) as [t|] eqn:Ht;
        intros [= <-]; simpl; [|done].
      pose proof (Hpos _ _ _ Ht). simpl in *. lia.
    + case_decide; [|apply Hpos].
      destruct (Z.eqb_spec (quantity r - q) 0); [done|].
      intros [= <-]. simpl in *. lia.
  - intros goods_list Hgoods l n r.
    destruct (decide (l = "cupboard")) as [->|Hl].
    + rewrite add_to_cupboard_record. unfold receive_spec.
      destruct (record_at (data m) "cupboard" n) as [r0|] eqn:Hr0.
      * intros [= <-]. pose proof (Hpos _ _ _ Hr0).
        pose proof (received_nonneg goods_list n Hgoods). simpl in *. lia.
      * case_decide; [|done]. intros [= <-]. simpl.
        by apply received_pos.
    + unfold record_at. rewrite add_to_cupboard_elsewhere by done. apply Hpos.
  - intros c Hc l n r. unfold confirm_counting. simpl.
    rewrite apply_results_record.
    destruct (results c !! l ≫= (.!! n)) as [q|] eqn:Hq; [|apply Hpos].
    destruct (record_at (data m) l n); [|done]. intros [= <-]. simpl.
    by apply (Hc l n).
  - intros eval texts l n r. unfold confirm_counting. simpl.
    rewrite apply_results_record.
    destruct (results _ !! l ≫= (.!! n)) as [q|] eqn:Hq.
    + destruct (record_at (data m) l n); [|done]. intros [= <-]. simpl.
      by destruct (session_records eval m texts l n q Hq).
    + intros Hr. pose proof (Hpos _ _ _ Hr). simpl in *. lia.
Qed.


Lemma default_data_record (l n : string) : record_at create_default_data l n = None.
Proof.
  unfold record_at, create_default_data.
  destruct (decide (l = "refrigerator_1")) as [->|?];
    [by rewrite lookup_insert_eq | rewrite lookup_insert_ne by done].
  destruct (decide (l = "refrigerator_2")) as [->|?];
    [by rewrite lookup_insert_eq | rewrite lookup_insert_ne by done].
  destruct (decide (l = "refrigerator_3")) as [->|?];
    [by rewrite lookup_insert_eq | rewrite lookup_insert_ne by done].
  destruct (decide (l = "cupboard")) as [->|?];
    [by rewrite lookup_singleton_eq | by rewrite lookup_singleton_ne].
Qed.

Lemma cola_store_record (q : Z) (l n : string) :
  record_at (cola_store q) l n
  = if decide (l = "refrigerator_1" ∧ n = "Cola")
    then Some (mkItem q (Some "drinks")) else None.
Proof.
  unfold cola_store.
  change (<["refrigerator_1" := {["Cola" := mkItem q (Some "drinks")]}]> create_default_data)
    with (set_record "refrigerator_1" "Cola" (mkItem q (Some "drinks")) create_default_data).
  rewrite record_at_set_record, default_data_record.
  destruct (decide (l = "refrigerator_1" ∧ n = "Cola")) as [[-> ->]|Hne].
  - by rewrite decide_True.
  - rewrite decide_False; [done|]. intros [<- <-]. by apply Hne.
Qed.

Lemma cola_store_positive (q : Z) :
  0 < q → all_quantities (λ q, 0 < q) (cola_store q).
Proof.
  intros Hq l n r. rewrite cola_store_record.
  case_decide; [by intros [= <-] | done].
Qed.

Lemma stocktake_confirm_witness :
  recorded (count_cola "8").2 "refrigerator_1" "Cola" = Some 8
  ∧ record_at (data (confirm_counting true (count_cola "8").2
                       (manager_of (cola_store 5))).2) "refrigerator_1" "Cola"
    = Some (mkItem 8 (Some "drinks"))
  ∧ (confirm_counting false (count_cola "8").2 (manager_of (cola_store 5))).2
    = manager_of (cola_store 5).
Proof.
  assert (Hrec : recorded (count_cola "8").2 "refrigerator_1" "Cola" = Some 8)
    by (vm_compute; reflexivity).
  destruct (stocktake_confirm eval_integers (manager_of (cola_store 5)) [of_ascii "8"])
    as (Hwritten & _ & Hdecline).
  split; [exact Hrec|]. split; [|exact Hdecline].
  destruct (Hwritten "refrigerator_1" "Cola" 8 Hrec) as (r & Hr & Hafter).
  change (data (manager_of (cola_store 5))) with (cola_store 5) in Hr.
  rewrite cola_store_record in Hr.
  rewrite decide_True in Hr by (split; reflexivity).
  injection Hr as <-. exact Hafter.
Defined.

Lemma quantities_stay_positive_witness :
  all_quantities (λ q, 0 < q) (data (manager_of (cola_store 5)))
  ∧ all_quantities (λ q, 0 < q)
      (data (add_item "cupboard" "Cola" 3 None (manager_of (cola_store 5))).2)
  ∧ all_quantities (λ q, 0 < q)
      (data (move_from_cupboard "Cola" 2 (manager_of (cola_store 5))).2)
  ∧ all_quantities (λ q, 0 ≤ q)
      (data (confirm_counting true (count_cola "8").2 (manager_of (cola_store 5))).2).
Proof.
  assert (H : all_quantities (λ q, 0 < q) (data (manager_of (cola_store 5))))
    by (apply cola_store_positive; lia).
  destruct (quantities_stay_positive (manager_of (cola_store 5)) H)
    as (_ & Hadd & _ & _ & Hmove & _ & _ & Hsession).
  split; [exact H|]. split; [apply Hadd; lia|]. split; [apply Hmove; lia|].
  apply Hsession.
Defined.

(** A stocktake of a store with 5 "Cola" in refrigerator 1, answered with
    "0": the count is accepted, and confirming leaves the "Cola" entry in
    place with quantity 0. *)
Lemma stocktake_zero_stays :
  all_quantities (λ q, 0 < q) (cola_store 5)
  ∧ (count_cola "0").1 = Returned COUNTING_CONFIRM
  ∧ recorded (count_cola "0").2 "refrigerator_1" "Cola" = Some 0
  ∧ record_at (data (confirm_counting true (count_cola "0").2
                       (manager_of (cola_store 5))).2) "refrigerator_1" "Cola"
    = Some (mkItem 0 (Some "drinks"))
  ∧ ¬ all_quantities (λ q, 0 < q)
        (data (confirm_counting true (count_cola "0").2 (manager_of (cola_store 5))).2).
Proof.
  assert (Hafter : record_at (data (confirm_counting true (count_cola "0").2
                       (manager_of (cola_store 5))).2) "refrigerator_1" "Cola"
                   = Some (mkItem 0 (Some "drinks"))) by (vm_compute; reflexivity).
  split; [apply cola_store_positive; lia|].
  split; [vm_compute; reflexivity|]. split; [vm_compute; reflexivity|].
  split; [exact Hafter|].
  intros Hall. specialize (Hall _ _ _ Hafter). simpl in Hall. lia.
Qed.

(** ** Quantity expression evaluator (C4) *)

Lemma next_location_from_results (rest : list string) (c : Counting) (m : Manager) :
  results (next_location_from rest c m).2 = results c.
Proof.
  revert c. induction rest as [|l rest IH]; intros c; simpl.
  - by rewrite finish_counting_state.
  - destruct (decide (location_inventory l m = ∅)); [by rewrite IH | done].
Qed.

Lemma next_location_from_index (rest : list string) (c : Counting) (m : Manager) :
  (current_location_index c
   < current_location_index (next_location_from rest c m).2)%nat.
Proof.
  revert c. induction rest as [|l rest IH]; intros c; simpl.
  - rewrite finish_counting_state. simpl. lia.
  - destruct (decide (location_inventory l m = ∅)); [|simpl; lia].
    etransitivity; [|apply IH]. simpl. lia.
Qed.

(** A count that passes the test is recorded for the item asked about,
    whatever happens next. *)
Lemma handle_counting_quantity_records (eval : pystr → Raised pynum)
    (expression : pystr) (c : Counting) (m : Manager) (cur : Cursor)
    (item_name : string) (z : Z) (l n : string) :
  calculate_expression eval expression = Some z → 0 ≤ z →
  cursor c = Some cur →
  current_items cur !! current_item_index cur = Some item_name →
  recorded (handle_counting_quantity eval expression c m).2 l n
  = if decide (current_location cur = l ∧ item_name = n) then Some z
    else recorded c l n.
Proof.
  intros Hcalc Hz Hcur Hitem. unfold handle_counting_quantity.
  rewrite Hcalc. destruct (Z.ltb_spec z 0) as [?|_]; [lia|].
  rewrite Hcur, Hitem.
  rewrite <- (recorded_record_result c (current_location_index c)
                (Some (mkCursor (current_items cur) (S (current_item_index cur))
                         (current_location cur)))).
  set (c' := mkCounting _ _ _).
  destruct (current_items cur !! S (current_item_index cur)) as [next|].
  - by destruct (location_inventory (current_location cur) m !! next).
  - unfold next_counting_location, recorded.
    by rewrite next_location_from_results.
Qed.

(** A count that passes the test moves the session on: the handler does not
    come back with the session as it was. *)
Lemma handle_counting_quantity_moves (eval : pystr → Raised pynum)
    (expression : pystr) (c : Counting) (m : Manager) (z : Z) :
  calculate_expression eval expression = Some z → 0 ≤ z →
  handle_counting_quantity eval expression c m ≠ (Returned COUNTING_ITEM, c).
Proof.
  intros Hcalc Hz. unfold handle_counting_quantity.
  rewrite Hcalc. destruct (Z.ltb_spec z 0) as [?|_]; [lia|].
  destruct (cursor c) as [cur|] eqn:Hcur; [|discriminate].
  destruct (current_items cur !! current_item_index cur) as [item|];
    [|discriminate].
  set (c' := mkCounting _ _ _).
  assert (Hc' : c' ≠ c).
  { intros Heq. apply (f_equal cursor) in Heq. rewrite Hcur in Heq.
    injection Heq as Heq. apply (f_equal current_item_index) in Heq.
    simpl in Heq. lia. }
  destruct (current_items cur !! S (current_item_index cur)) as [next|].
  - destruct (location_inventory (current_location cur) m !! next);
      intros [= _ Heq]; by apply Hc'.
  - intros Heq. unfold next_counting_location in Heq.
    pose proof (next_location_from_index
                  (drop (S (current_location_index c')) counting_locations) c' m)
      as Hlt.
    rewrite Heq in Hlt. simpl in Hlt. lia.
Qed.

(** C4, as the code has it.  Whatever [eval] does, [calculate_expression]
    returns [None] exactly when [eval] or [int] raised on the cleaned
    expression, and otherwise the integer [int] gave, of either sign.  The
    sign is tested by the stocktake handler, whose test [counting_accepts]
    lets a result through exactly when it is an integer that is not
    negative: the handler comes back to [COUNTING_ITEM] with the session as
    it was exactly when the test fails, and when the test passes it records
    the integer for the item it asked about and leaves the other counts as
    they were.  So a session records no negative quantity. *)
Theorem evaluator_contract (eval : pystr → Raised pynum) (expression : pystr) :
  let cleaned :=
    re_sub_strip (replace chr_kha chr_star (replace chr_x chr_star expression)) in
  (calculate_expression eval expression = None
   ↔ (∃ e, eval cleaned = Raise e)
     ∨ (∃ v e, eval cleaned = Returned v ∧ int v = Raise e))
  ∧ (∀ z, calculate_expression eval expression = Some z
          ↔ ∃ v, eval cleaned = Returned v ∧ int v = Returned z)
  ∧ (counting_accepts (calculate_expression eval expression) = true
     ↔ ∃ z, calculate_expression eval expression = Some z ∧ 0 ≤ z)
  ∧ (∀ c m, handle_counting_quantity eval expression c m = (Returned COUNTING_ITEM, c)
            ↔ counting_accepts (calculate_expression eval expression) = false)
  ∧ (∀ c m cur item_name z,
       calculate_expression eval expression = Some z → 0 ≤ z →
       cursor c = Some cur →
       current_items cur !! current_item_index cur = Some item_name →
       ∀ l n, recorded (handle_counting_quantity eval expression c m).2 l n
              = if decide (current_location cur = l ∧ item_name = n) then Some z
                else recorded c l n)
  ∧ (∀ m texts l n q,
       recorded (feed eval texts (start_counting m) m).2 l n = Some q → 0 ≤ q).
Proof.
  intros cleaned.
  assert (Hsession : ∀ m texts l n q,
            recorded (feed eval texts (start_counting m) m).2 l n = Some q → 0 ≤ q).
  { intros m texts l n q Hq. by destruct (session_records eval m texts l n q Hq). }
  assert (Hrecords : ∀ c m cur item_name z,
            calculate_expression eval expression = Some z → 0 ≤ z →
            cursor c = Some cur →
            current_items cur !! current_item_index cur = Some item_name →
            ∀ l n, recorded (handle_counting_quantity eval expression c m).2 l n
                   = if decide (current_location cur = l ∧ item_name = n) then Some z
                     else recorded c l n).
  { intros c m cur item_name z Hcalc Hz Hcur Hitem l n.
    by apply handle_counting_quantity_records. }
  assert (Hmoves : ∀ c m,
            handle_counting_quantity eval expression c m = (Returned COUNTING_ITEM, c) →
            counting_accepts (calculate_expression eval expression) = false).
  { intros c m Hback.
    destruct (calculate_expression eval expression) as [z|] eqn:Hcalc; [|done].
    simpl. destruct (Z.ltb_spec z 0) as [?|Hz]; [done|].
    by destruct (handle_counting_quantity_moves eval expression c m z Hcalc Hz). }
  split; [|split; [|split; [|split; [|split; [exact Hrecords | exact Hsession]]]]].
  - unfold calculate_expression. fold cleaned.
    destruct (eval cleaned) as [v|e]; [destruct (int v) as [z|e] eqn:Hv|].
    + split; [done|]. intros [[e ?]|(v' & e & [= <-] & ?)]; congruence.
    + split; [|done]. intros _. right. eauto.
    + split; [|done]. intros _. left. eauto.
  - intros z. unfold calculate_expression. fold cleaned.
    destruct (eval cleaned) as [v|e]; [destruct (int v) as [z'|e] eqn:Hv|].
    + split; [intros [= <-]; eauto | intros (v' & [= <-] & ?); congruence].
    + split; [done | intros (v' & [= <-] & ?); congruence].
    + split; [done | intros (v' & ? & _); done].
  - destruct (calculate_expression eval expression) as [z|]; simpl.
    + destruct (Z.ltb_spec z 0); simpl; split;
        [done | intros (z' & [= <-] & ?); lia | eauto | done].
    + split; [done | intros (z' & ? & _); done].
  - intros c m. split; [apply Hmoves|].
    unfold handle_counting_quantity.
    destruct (calculate_expression eval expression) as [z|]; simpl; [|done].
    by destruct (z <? 0).
Qed.

Lemma evaluator_contract_witness :
  counting_accepts (calculate_expression eval_integers (of_ascii "-5")) = false
  ∧ (∀ c m, handle_counting_quantity eval_integers (of_ascii "-5") c m
            = (Returned COUNTING_ITEM, c))
  ∧ calculate_expression eval_integers (of_ascii "4x2") = Some 8
  ∧ recorded (handle_counting_quantity eval_integers (of_ascii "4x2")
                (start_counting (manager_of (cola_store 5))).2
                (manager_of (cola_store 5))).2 "refrigerator_1" "Cola"
    = Some 8.
Proof.
  assert (H : counting_accepts (calculate_expression eval_integers (of_ascii "-5"))
              = false) by (vm_compute; reflexivity).
  assert (H8 : calculate_expression eval_integers (of_ascii "4x2") = Some 8)
    by (vm_compute; reflexivity).
  split; [exact H|]. split.
  { intros c m. by apply (evaluator_contract eval_integers (of_ascii "-5")). }
  split; [exact H8|].
  destruct (evaluator_contract eval_integers (of_ascii "4x2"))
    as (_ & _ & _ & _ & Hrecords & _).
  rewrite (Hrecords (start_counting (manager_of (cola_store 5))).2
             (manager_of (cola_store 5))
             (mkCursor ["Cola"] 0 "refrigerator_1") "Cola" 8 H8);
    [reflexivity | lia | vm_compute; reflexivity | reflexivity].
Defined.

(** What the evaluator gives on the examples of the prompt and on errors,
    whatever [eval] does outside integer arithmetic. *)
Lemma evaluator_examples (other : pystr → Raised pynum) :
  calculate_expression (eval_with other) (of_ascii "1+1") = Some 2
  ∧ calculate_expression (eval_with other) (of_ascii "4x8+4x7") = Some 60
  ∧ calculate_expression (eval_with other) [52; chr_kha; 56]%N = Some 32
  ∧ calculate_expression (eval_with other) (of_ascii "abc") = None
  ∧ calculate_expression (eval_with other) (of_ascii "") = None
  ∧ calculate_expression (eval_with other) (of_ascii "7/0") = None
  ∧ calculate_expression (eval_with other) (of_ascii "2+") = None
  ∧ calculate_expression (eval_with other) (of_ascii "-5") = Some (-5).
Proof. repeat split; vm_compute; reflexivity. Qed.

(** On "-5" the evaluator returns -5: a returned value can be negative. *)
Lemma evaluator_returns_negative :
  calculate_expression eval_integers (of_ascii "-5") = Some (-5)
  ∧ ¬ (∀ expression z,
         calculate_expression eval_integers expression = Some z → 0 ≤ z).
Proof.
  assert (H : calculate_expression eval_integers (of_ascii "-5") = Some (-5))
    by (vm_compute; reflexivity).
  split; [exact H|]. intros Hall. specialize (Hall _ _ H). lia.
Qed.

Lemma receive_batch_witness :
  (add_to_cupboard [("Water", 10); ("Juice", 4); ("Water", 1)]
     (manager_of sample_store)).1 = true
  ∧ record_at (data (add_to_cupboard [("Water", 10); ("Juice", 4); ("Water", 1)]
                       (manager_of sample_store)).2) "cupboard" "Water"
    = Some (mkItem 17 (Some "still"))
  ∧ record_at (data (add_to_cupboard [("Water", 10); ("Juice", 4); ("Water", 1)]
                       (manager_of sample_store)).2) "cupboard" "Juice"
    = Some (mkItem 4 None)
  ∧ data (add_to_cupboard [("Water", 10); ("Juice", 4); ("Water", 1)]
            (manager_of sample_store)).2 !! "refrigerator_1"
    = data (manager_of sample_store) !! "refrigerator_1".
Proof.
  destruct (receive_batch [("Water", 10); ("Juice", 4); ("Water", 1)]
              (manager_of sample_store)) as (Hok & _ & Hcupboard & Hother & _).
  split; [exact Hok|].
  split; [rewrite Hcupboard; vm_compute; reflexivity|].
  split; [rewrite Hcupboard; vm_compute; reflexivity|].
  apply Hother. discriminate.
Defined.

(** * Properties of the rest of the code *)

(** ** Store operations *)

Lemma set_record_same (d : Store) (l n : string) (r : Item) :
  record_at d l n = Some r → set_record l n r d = d.
Proof.
  unfold record_at, set_record, items_at. intros H.
  destruct (d !! l) as [items|] eqn:Hl; [|done]. simpl in *.
  by rewrite (insert_id items), insert_id.
Qed.

Lemma del_set_record (d : Store) (l n : string) (r : Item) (items : Inventory) :
  d !! l = Some items → items !! n = None →
  del_record l n (set_record l n r d) = d.
Proof.
  intros Hl Hn. unfold del_record, set_record, items_at.
  rewrite lookup_insert_eq, insert_insert_eq. simpl.
  rewrite Hl. simpl. rewrite delete_insert_id by done. by apply insert_id.
Qed.

Lemma set_del_record (d : Store) (l n : string) (r : Item) :
  record_at d l n = Some r → set_record l n r (del_record l n d) = d.
Proof.
  unfold record_at, del_record, set_record, items_at. intros H.
  destruct (d !! l) as [items|] eqn:Hl; [|done]. simpl in *.
  rewrite lookup_insert_eq, insert_insert_eq. simpl.
  rewrite insert_delete_id by done. by apply insert_id.
Qed.

Lemma set_record_keys (d : Store) (l n l' : string) (r : Item) :
  is_Some (d !! l) → (is_Some (set_record l n r d !! l') ↔ is_Some (d !! l')).
Proof.
  intros Hl. unfold set_record.
  destruct (decide (l = l')) as [<-|?];
    [rewrite lookup_insert_eq | by rewrite lookup_insert_ne]. split; eauto.
Qed.

(** X1.  [add_item] returns [False] and leaves the manager as it was when
    the location is unknown or already holds the name; otherwise it makes one
    write attempt and returns its outcome, the new record is there, every
    other record is as before and no location appears or disappears. *)
Theorem add_item_effect (m : Manager) (l n : string) (q : Z) (cat : option string) :
  (data m !! l = None ∨ is_Some (record_at (data m) l n) →
   add_item l n q cat m = (false, m))
  ∧ (is_Some (data m !! l) → record_at (data m) l n = None →
     (add_item l n q cat m).1 = disk_ok m (length (written m))
     ∧ written (add_item l n q cat m).2
       = written m ++ [data (add_item l n q cat m).2]
     ∧ (∀ l' n', record_at (data (add_item l n q cat m).2) l' n'
                 = if decide (l = l' ∧ n = n') then Some (mkItem q cat)
                   else record_at (data m) l' n')
     ∧ (∀ l', is_Some (data (add_item l n q cat m).2 !! l')
              ↔ is_Some (data m !! l'))).
Proof.
  unfold add_item, record_at. split.
  - intros [H|[r H]].
    + by rewrite H.
    + destruct (data m !! l) as [items|]; [|done]. simpl in H. by rewrite H.
  - intros [items Hl] Hn. rewrite Hl in *. simpl in Hn. rewrite Hn. simpl.
    split; [done|]. split; [done|]. split.
    + intros l' n'. apply record_at_set_record.
    + intros l'. apply set_record_keys. eauto.
Qed.

(** X2.  [remove_item] returns [False] and leaves the manager as it was
    when the location does not hold the name; otherwise it makes one write
    attempt and returns its outcome, that record is gone, every other record
    is as before and the location itself stays, even when emptied. *)
Theorem remove_item_effect (m : Manager) (l n : string) :
  (record_at (data m) l n = None → remove_item l n m = (false, m))
  ∧ (is_Some (record_at (data m) l n) →
     (remove_item l n m).1 = disk_ok m (length (written m))
     ∧ written (remove_item l n m).2 = written m ++ [data (remove_item l n m).2]
     ∧ (∀ l' n', record_at (data (remove_item l n m).2) l' n'
                 = if decide (l = l' ∧ n = n') then None
                   else record_at (data m) l' n')
     ∧ (∀ l', is_Some (data (remove_item l n m).2 !! l') ↔ is_Some (data m !! l'))).
Proof.
  unfold remove_item. split.
  - intros H. by rewrite H.
  - intros [r H]. rewrite H. simpl. split; [done|]. split; [done|]. split.
    + intros l' n'. apply record_at_del_record.
    + intros l'. unfold del_record.
      destruct (decide (l = l')) as [<-|?];
        [rewrite lookup_insert_eq | by rewrite lookup_insert_ne].
      apply record_at_Some_location in H. split; eauto.
Qed.

(** X3.  Removing an item that was just added gives back the store as it
    was, and so does adding back, with its quantity and category, an item
    that was just removed. *)
Theorem add_remove_round_trip (m : Manager) (l n : string) (q : Z) (cat : option string) :
  (is_Some (data m !! l) → record_at (data m) l n = None →
   data (remove_item l n (add_item l n q cat m).2).2 = data m)
  ∧ (∀ r, record_at (data m) l n = Some r →
     data (add_item l n (quantity r) (category r) (remove_item l n m).2).2 = data m).
Proof.
  split.
  - intros [items Hl] Hn. unfold add_item. rewrite Hl.
    pose proof Hn as Hn'. unfold record_at in Hn'. rewrite Hl in Hn'. simpl in Hn'.
    rewrite Hn'. unfold remove_item. simpl.
    rewrite record_at_set_record, decide_True by done. simpl.
    by apply (del_set_record _ _ _ _ items).
  - intros r Hr. unfold remove_item. rewrite Hr. unfold add_item. simpl.
    assert (Hl : is_Some (del_record l n (data m) !! l)).
    { unfold del_record. rewrite lookup_insert_eq. eauto. }
    destruct Hl as [items' Hl]. rewrite Hl.
    assert (Hn : items' !! n = None).
    { pose proof (record_at_del_record (data m) l n l n) as H.
      rewrite decide_True in H by done. unfold record_at in H.
      rewrite Hl in H. exact H. }
    rewrite Hn. simpl. destruct r as [q0 c0]. simpl.
    by apply set_del_record.
Qed.

(** X4.  [edit_item] returns [False] and leaves the manager as it was when
    the location does not hold the name.  Otherwise it makes one write
    attempt and returns its outcome; the record takes the new quantity and
    the new category where one is given and keeps the old where it is not (so
    a category cannot be taken away), other records are untouched, an edit
    with neither leaves the store as it was, and the same edit a second time
    changes nothing more. *)
Theorem edit_item_effect (m : Manager) (l n : string) (nq : option Z) (nc : option string) :
  (record_at (data m) l n = None → edit_item l n nq nc m = (false, m))
  ∧ (∀ r, record_at (data m) l n = Some r →
     (edit_item l n nq nc m).1 = disk_ok m (length (written m))
     ∧ written (edit_item l n nq nc m).2
       = written m ++ [data (edit_item l n nq nc m).2]
     ∧ record_at (data (edit_item l n nq nc m).2) l n
       = Some (mkItem (default (quantity r) nq)
                 (match nc with Some c => Some c | None => category r end))
     ∧ (∀ l' n', ¬ (l = l' ∧ n = n') →
          record_at (data (edit_item l n nq nc m).2) l' n' = record_at (data m) l' n')
     ∧ (nq = None → nc = None → data (edit_item l n nq nc m).2 = data m)
     ∧ data (edit_item l n nq nc (edit_item l n nq nc m).2).2
       = data (edit_item l n nq nc m).2).
Proof.
  split.
  - intros H. unfold edit_item. by rewrite H.
  - intros r Hr.
    assert (Hdata : data (edit_item l n nq nc m).2
              = set_record l n (mkItem (default (quantity r) nq)
                  (match nc with Some c => Some c | None => category r end)) (data m)).
    { unfold edit_item. rewrite Hr. simpl. by destruct r, nq, nc. }
    split; [unfold edit_item; by rewrite Hr|].
    split; [unfold edit_item; by rewrite Hr|].
    split; [by rewrite Hdata, record_at_set_record, decide_True|].
    split; [intros l' n' Hne; by rewrite Hdata, record_at_set_record, decide_False|].
    split.
    + intros -> ->. rewrite Hdata. simpl. apply set_record_same.
      by destruct r.
    + set (m1 := (edit_item l n nq nc m).2).
      assert (Hr1 : record_at (data m1) l n
                = Some (mkItem (default (quantity r) nq)
                          (match nc with Some c => Some c | None => category r end))).
      { unfold m1. by rewrite Hdata, record_at_set_record, decide_True. }
      unfold edit_item at 1. rewrite Hr1. simpl.
      apply set_record_same. rewrite Hr1. by destruct nq, nc.
Qed.

(** ** Search *)

Lemma search_fold (name : string) (d : Store) (l : string) :
  map_fold (λ location items results,
              match items !! name with
              | Some r => <[location := r]> results
              | None => results
              end) (∅ : gmap string Item) d !! l
  = record_at d l name.
Proof.
  revert l.
  apply (map_fold_weak_ind
           (λ (acc : gmap string Item) (d : Store), ∀ l, acc !! l = record_at d l name)).
  - intros l. unfold record_at. by rewrite !lookup_empty.
  - intros loc items d' acc Hloc IH l. unfold record_at.
    destruct (decide (loc = l)) as [<-|Hne].
    + rewrite lookup_insert_eq. simpl.
      destruct (items !! name) eqn:E; [by rewrite lookup_insert_eq|].
      rewrite IH. unfold record_at. by rewrite Hloc.
    + rewrite (lookup_insert_ne d') by done.
      destruct (items !! name); [rewrite lookup_insert_ne by done|]; apply IH.
Qed.

(** X5.  [search_item] returns [None] exactly when no location holds the
    name; otherwise the mapping it returns has, for every location, the
    record of that name there (and no entry where there is none), and at
    least one entry.  The manager is not changed. *)
Theorem search_item_finds (m : Manager) (name : string) :
  ((search_item name m).1 = None ↔ ∀ l, record_at (data m) l name = None)
  ∧ (∀ results, (search_item name m).1 = Some results →
       (∀ l, results !! l = record_at (data m) l name)
       ∧ ∃ l, is_Some (record_at (data m) l name))
  ∧ (search_item name m).2 = m.
Proof.
  unfold search_item. simpl. set (res := map_fold _ _ _).
  assert (Hres : ∀ l, res !! l = record_at (data m) l name)
    by (intros l; apply search_fold).
  split; [|split; [|done]].
  - destruct (decide (res = ∅)) as [He|Hne].
    + split; [|done]. intros _ l. by rewrite <- Hres, He, lookup_empty.
    + split; [done|]. intros Hall. destruct Hne. apply map_eq. intros l.
      by rewrite Hres, Hall, lookup_empty.
  - intros results. destruct (decide (res = ∅)) as [He|Hne]; [done|].
    intros [= <-]. split; [done|].
    destruct (map_choose res Hne) as (l & r & Hl). exists l.
    rewrite <- Hres, Hl. eauto.
Qed.

(** ** Writes follow the store in memory *)

Lemma tracked_refl (m : Manager) : tracked m m.
Proof. split; [done | by left]. Qed.

Lemma tracked_save (m : Manager) (d : Store) :
  tracked m (save_data (with_data d m)).2.
Proof. split; [done|]. right. exists []. done. Qed.

Lemma tracked_trans (m1 m2 m3 : Manager) :
  tracked m1 m2 → tracked m2 m3 → tracked m1 m3.
Proof.
  intros [Hd1 H1] [Hd2 H2]. split; [congruence|].
  destruct H2 as [->|[s2 H2]]; [done|].
  destruct H1 as [->|[s1 H1]]; [right; eauto|].
  right. exists (s1 ++ [data m2] ++ s2). rewrite H2, H1.
  by rewrite <- !app_assoc.
Qed.

Lemma add_item_tracked m l n q cat : tracked m (add_item l n q cat m).2.
Proof.
  unfold add_item. destruct (data m !! l); [|apply tracked_refl].
  destruct (_ !! n); [apply tracked_refl | apply tracked_save].
Qed.

Lemma edit_item_tracked m l n nq nc : tracked m (edit_item l n nq nc m).2.
Proof.
  unfold edit_item. destruct (record_at _ _ _); [apply tracked_save | apply tracked_refl].
Qed.

Lemma remove_item_tracked m l n : tracked m (remove_item l n m).2.
Proof.
  unfold remove_item. destruct (record_at _ _ _); [apply tracked_save | apply tracked_refl].
Qed.

Lemma add_to_cupboard_tracked goods m : tracked m (add_to_cupboard goods m).2.
Proof. apply tracked_save. Qed.

Lemma move_from_cupboard_tracked item q m : tracked m (move_from_cupboard item q m).2.
Proof.
  destruct (record_at (data m) "cupboard" item) as [r|] eqn:Hr.
  2:{ rewrite (move_from_cupboard_not_found m item q Hr). apply tracked_refl. }
  destruct (Z.lt_ge_cases (quantity r) q) as [Hlt|Hge].
  { rewrite (move_from_cupboard_insufficient m item q r Hr Hlt). apply tracked_refl. }
  destruct (first_stocking fridges item (data m)) as [found|e] eqn:Hfound.
  2:{ rewrite (move_from_cupboard_raise m item q r e Hr Hge Hfound). apply tracked_refl. }
  destruct (move_from_cupboard_run m item q r found Hr Hge Hfound)
    as (m1 & -> & Hw & Hd & _).
  split; [done|]. right. exists []. done.
Qed.

Lemma apply_results_tracked res m : tracked m (apply_results res m).
Proof.
  unfold apply_results.
  apply (map_fold_weak_ind (λ m1 _, tracked m m1)); [apply tracked_refl|].
  intros l items _ m1 _ IH.
  apply (map_fold_weak_ind (λ m2 _, tracked m m2)); [exact IH|].
  intros n q _ m2 _ IH2.
  eapply tracked_trans; [exact IH2 | apply edit_item_tracked].
Qed.

Lemma tracked_synced (m m' : Manager) : tracked m m' → synced m → synced m'.
Proof.
  intros [_ [->|[s H]]] Hs; [done|]. unfold synced. rewrite H.
  by rewrite !app_assoc, last_snoc.
Qed.

(** X6.  Each operation of the manager, and confirming or declining a
    stocktake, either returns the manager as it was or ends with a write
    attempt of the store as it is in memory; so if the last snapshot handed
    to the writer was the store in memory before, it is so after. *)
Theorem mutations_are_written (m : Manager) :
  (∀ l n q cat, tracked m (add_item l n q cat m).2)
  ∧ (∀ l n nq nc, tracked m (edit_item l n nq nc m).2)
  ∧ (∀ l n, tracked m (remove_item l n m).2)
  ∧ (∀ item q, tracked m (move_from_cupboard item q m).2)
  ∧ (∀ goods_list, tracked m (add_to_cupboard goods_list m).2)
  ∧ (∀ said_yes c, tracked m (confirm_counting said_yes c m).2)
  ∧ (∀ m', tracked m m' → synced m → synced m').
Proof.
  split; [intros; apply add_item_tracked|].
  split; [intros; apply edit_item_tracked|].
  split; [intros; apply remove_item_tracked|].
  split; [intros; apply move_from_cupboard_tracked|].
  split; [intros; apply add_to_cupboard_tracked|].
  split; [|apply tracked_synced].
  intros [] c; simpl; [apply apply_results_tracked | apply tracked_refl].
Qed.

(** ** Transfer: where it goes and what it leaves alone *)

Lemma first_stocking_home (d : Store) (item : string) :
  has_fridges d →
  ∃ found, first_stocking fridges item d = Returned found
           ∧ target_of found = home_location d item.
Proof.
  unfold has_fridges, fridges. rewrite !Forall_cons.
  intros ([i1 H1] & [i2 H2] & [i3 H3] & _).
  unfold home_location, first_stocking.
  rewrite H1, H2, H3.
  rewrite !(record_at_lookup d _ item _ H1), !(record_at_lookup d _ item _ H2),
    !(record_at_lookup d _ item _ H3).
  destruct (i1 !! item) eqn:E1.
  { eexists. split; [done|]. by rewrite decide_True by eauto. }
  rewrite (decide_False (P := is_Some None)) by (by intros [? ?]).
  destruct (i2 !! item) eqn:E2.
  { eexists. split; [done|]. by rewrite decide_True by eauto. }
  rewrite (decide_False (P := is_Some None)) by (by intros [? ?]).
  destruct (i3 !! item) eqn:E3.
  { eexists. split; [done|]. by rewrite decide_True by eauto. }
  rewrite (decide_False (P := is_Some None)) by (by intros [? ?]).
  eexists. split; done.
Qed.

(** X7.  With the three refrigerators in the store, a transfer that passes
    the two checks goes to the first refrigerator that stocks the item, or to
    refrigerator 1 when none does.  A record already at the target keeps its
    category; records of other items, and the item's records elsewhere, are
    untouched.  When the write fails the transfer reports the save error, yet
    the change stays in memory: the cupboard quantity is lowered all the
    same. *)
Theorem transfer_target_and_frame (m : Manager) (item : string) (q : Z) (r : Item) :
  record_at (data m) "cupboard" item = Some r →
  q ≤ quantity r →
  has_fridges (data m) →
  let target := home_location (data m) item in
  let m' := (move_from_cupboard item q m).2 in
  (move_from_cupboard item q m).1
    = Returned (if disk_ok m (length (written m))
                then (true, target) else (false, msg_save_error))
  ∧ (∀ t, record_at (data m) target item = Some t →
       record_at (data m') target item = Some (mkItem (quantity t + q) (category t)))
  ∧ (∀ l n, n ≠ item → record_at (data m') l n = record_at (data m) l n)
  ∧ (∀ l, l ≠ "cupboard" → l ≠ target →
       record_at (data m') l item = record_at (data m) l item)
  ∧ qty_at (data m') "cupboard" item = quantity r - q
  ∧ written m' = written m ++ [data m'].
Proof.
  intros Hr Hq Hf target m'.
  destruct (first_stocking_home (data m) item Hf) as (found & Hfound & Htarget).
  destruct (move_from_cupboard_run m item q r found Hr Hq Hfound)
    as (m1 & Heq & Hw & _ & Hrec).
  destruct (target_is_fridge _ _ _ Hfound) as [Hin _].
  pose proof (fridge_not_cupboard _ Hin) as Hne.
  unfold m', target. rewrite Heq, <- Htarget. simpl.
  split; [done|]. split.
  { intros t Ht. by rewrite Hrec, decide_True, Ht. }
  split.
  { intros l n Hn. rewrite Hrec.
    rewrite decide_False by (intros [_ ?]; done).
    by rewrite decide_False by (intros [_ ?]; done). }
  split.
  { intros l Hl1 Hl2. rewrite Hrec.
    rewrite decide_False by (intros [? _]; done).
    by rewrite decide_False by (intros [? _]; done). }
  split; [|done].
  unfold qty_at. rewrite Hrec.
  rewrite decide_False by (intros [? _]; done).
  rewrite decide_True by done.
  destruct (Z.eqb_spec (quantity r - q) 0) as [E|E]; simpl; lia.
Qed.

(** ** Receiving: order and splitting of a batch *)

Lemma receive_fold_cupboard (goods_list : list (string * Z)) (d : Store) :
  is_Some (d !! "cupboard") → is_Some (foldl receive_one d goods_list !! "cupboard").
Proof.
  revert d. induction goods_list as [|[n q] rest IH]; intros d Hd; [done|].
  change (is_Some (foldl receive_one (receive_one d (n, q)) rest !! "cupboard")).
  apply IH. unfold receive_one, set_record.
  destruct (record_at d "cupboard" n); rewrite lookup_insert_eq; eauto.
Qed.

Lemma add_to_cupboard_has_cupboard (goods_list : list (string * Z)) (m : Manager) :
  is_Some (data (add_to_cupboard goods_list m).2 !! "cupboard").
Proof.
  unfold add_to_cupboard. simpl. apply receive_fold_cupboard.
  destruct (data m !! "cupboard") eqn:E; [by rewrite E; eauto|].
  rewrite lookup_insert_eq. eauto.
Qed.

Lemma received_Permutation (l1 l2 : list (string * Z)) (name : string) :
  l1 ≡ₚ l2 → received l1 name = received l2 name.
Proof.
  induction 1 as [|[n q] l1 l2 _ IH|[n1 q1] [n2 q2] l|l1 l2 l3 _ IH1 _ IH2].
  - done.
  - change (received ((n, q) :: l1) name)
      with (if decide (n = name) then q + received l1 name else received l1 name).
    change (received ((n, q) :: l2) name)
      with (if decide (n = name) then q + received l2 name else received l2 name).
    by rewrite IH.
  - change (received ((n1, q1) :: (n2, q2) :: l) name)
      with (if decide (n1 = name)
            then q1 + (if decide (n2 = name) then q2 + received l name else received l name)
            else (if decide (n2 = name) then q2 + received l name else received l name)).
    change (received ((n2, q2) :: (n1, q1) :: l) name)
      with (if decide (n2 = name)
            then q2 + (if decide (n1 = name) then q1 + received l name else received l name)
            else (if decide (n1 = name) then q1 + received l name else received l name)).
    repeat case_decide; lia.
  - congruence.
Qed.

Lemma receive_spec_Permutation (l1 l2 : list (string * Z)) (name : string) (o : option Item) :
  l1 ≡ₚ l2 → receive_spec l1 name o = receive_spec l2 name o.
Proof.
  intros HP. unfold receive_spec. rewrite (received_Permutation l1 l2 name HP).
  destruct o; [done|].
  assert (Hin : name ∈ l1.*1 ↔ name ∈ l2.*1) by by rewrite HP.
  destruct (decide (name ∈ l1.*1)) as [H1|H1].
  - by rewrite decide_True by by apply Hin.
  - by rewrite decide_False by (by rewrite <- Hin).
Qed.

Lemma store_eq_by_records (d1 d2 : Store) :
  (∀ l, is_Some (d1 !! l) ↔ is_Some (d2 !! l)) →
  (∀ l n, record_at d1 l n = record_at d2 l n) →
  d1 = d2.
Proof.
  intros Hk Hr. apply map_eq. intros l.
  specialize (Hk l). pose proof (Hr l) as Hl. unfold record_at in Hl.
  destruct (d1 !! l) as [i1|], (d2 !! l) as [i2|]; simpl in *.
  - f_equal. by apply map_eq.
  - destruct Hk as [Hk _]. destruct Hk; [eauto|done].
  - destruct Hk as [_ Hk]. destruct Hk; [eauto|done].
  - done.
Qed.

Lemma add_to_cupboard_keys (goods_list : list (string * Z)) (m : Manager) (l : string) :
  is_Some (data (add_to_cupboard goods_list m).2 !! l)
  ↔ l = "cupboard" ∨ is_Some (data m !! l).
Proof.
  destruct (decide (l = "cupboard")) as [->|Hl].
  - split; [by left|]. intros _. apply add_to_cupboard_has_cupboard.
  - rewrite add_to_cupboard_elsewhere by done. split; [by right|]. by intros [?|?].
Qed.

Lemma add_to_cupboard_elsewhere_record (goods_list : list (string * Z)) (m : Manager)
    (l n : string) :
  l ≠ "cupboard" →
  record_at (data (add_to_cupboard goods_list m).2) l n = record_at (data m) l n.
Proof. intros Hl. unfold record_at. by rewrite add_to_cupboard_elsewhere. Qed.

(** X8.  The store after [add_to_cupboard] does not depend on the order of
    the lines, receiving a batch in one call or in two gives the same store,
    and an empty batch leaves a store that has a cupboard as it was while
    still making a write attempt. *)
Theorem receive_order_and_split (l1 l2 : list (string * Z)) (m : Manager) :
  (l1 ≡ₚ l2 → data (add_to_cupboard l1 m).2 = data (add_to_cupboard l2 m).2)
  ∧ data (add_to_cupboard (l1 ++ l2) m).2
    = data (add_to_cupboard l2 (add_to_cupboard l1 m).2).2
  ∧ (is_Some (data m !! "cupboard") → data (add_to_cupboard [] m).2 = data m)
  ∧ length (written (add_to_cupboard [] m).2) = S (length (written m)).
Proof.
  split; [|split; [|split]].
  - intros HP. apply store_eq_by_records.
    + intros l. by rewrite !add_to_cupboard_keys.
    + intros l n. destruct (decide (l = "cupboard")) as [->|Hl].
      * rewrite !add_to_cupboard_record. by apply receive_spec_Permutation.
      * by rewrite !add_to_cupboard_elsewhere_record.
  - assert (H : ∀ l m0, data (add_to_cupboard l m0).2
               = foldl receive_one
                   (match data m0 !! "cupboard" with
                    | None => <["cupboard" := ∅]> (data m0)
                    | Some _ => data m0
                    end) l) by done.
    destruct (add_to_cupboard_has_cupboard l1 m) as [inv Hinv].
    rewrite (H (l1 ++ l2) m), (H l2), Hinv, (H l1 m). by rewrite foldl_app.
  - intros [inv Hinv]. unfold add_to_cupboard. simpl. by rewrite Hinv.
  - unfold add_to_cupboard. simpl. rewrite length_app. simpl. lia.
Qed.

(** ** Reorder advisor: what it returns and when it raises *)

Lemma float_of_int_fits (z : Z) : Z.abs z < 2 ^ 1023 → is_Some (float_of_int z).
Proof.
  intros Hz. unfold float_of_int.
  set (a := Z.abs z) in *. set (n := Z.log2 a + 1).
  destruct (Z.leb_spec n 53) as [?|Hn]; [eauto|].
  set (shift := n - 53).
  assert (Ha : 0 < a).
  { destruct (decide (a = 0)) as [E|?]; [|lia].
    unfold n in Hn. rewrite E in Hn. simpl in Hn. lia. }
  assert (Hlog : a < 2 ^ n).
  { unfold n. pose proof (Z.log2_spec a Ha). rewrite <- Z.add_1_r in H. lia. }
  assert (Hn' : n ≤ 1023).
  { unfold n. assert (Z.log2 a < 1023); [|lia]. apply Z.log2_lt_pow2; lia. }
  assert (Hshift : 0 < shift) by (unfold shift; lia).
  assert (Hpow : 2 ^ n = 2 ^ 53 * 2 ^ shift).
  { rewrite <- Z.pow_add_r by lia. f_equal. unfold shift. lia. }
  assert (Hq : Z.shiftr a shift < 2 ^ 53).
  { rewrite Z.shiftr_div_pow2 by lia.
    apply Z.div_lt_upper_bound; [apply Z.pow_pos_nonneg; lia|]. lia. }
  set (q' := if (_ || _) then _ else _).
  assert (Hq' : q' ≤ 2 ^ 53) by (unfold q'; destruct (_ || _); lia).
  assert (Hv : q' * 2 ^ shift < 2 ^ 1024).
  { assert (0 < 2 ^ shift) by (apply Z.pow_pos_nonneg; lia).
    assert (q' * 2 ^ shift ≤ 2 ^ n) by (rewrite Hpow; nia).
    assert (2 ^ n ≤ 2 ^ 1023) by (apply Z.pow_le_mono_r; lia).
    assert (2 ^ 1023 < 2 ^ 1024) by (apply Z.pow_lt_mono_r; lia).
    lia. }
  destruct (Z.leb_spec (2 ^ 1024) (q' * 2 ^ shift)); [lia | eauto].
Qed.

Lemma ceil_half_fits (z : Z) : Z.abs z < 2 ^ 1023 → is_Some (ceil_half z).
Proof.
  intros Hz. unfold ceil_half.
  destruct (float_of_int_fits z Hz) as [x ->]. simpl. eauto.
Qed.

Lemma check_fold_outcome (d : Store) (threshold : Z) :
  ∀ X : gset string,
  match set_fold (check_item d threshold) (Returned ∅) X with
  | Returned to_order =>
      ∀ item, to_order !! item
              = if decide (item ∈ X)
                then (if qty_at d "cupboard" item <? threshold
                      then c ← ceil_half (total_in_fridges d item);
                           Some (mkRecommendation (qty_at d "cupboard" item) (Z.max 10 c))
                      else None)
                else None
  | Raise e => e = OverflowError
  end
  ∧ ((∃ e, set_fold (check_item d threshold) (Returned ∅) X = Raise e)
     ↔ ∃ item, item ∈ X ∧ qty_at d "cupboard" item < threshold
               ∧ ceil_half (total_in_fridges d item) = None).
Proof.
  apply (set_fold_ind_L
    (λ r (X : gset string),
       match r with
       | Returned to_order =>
           ∀ item, to_order !! item
                   = if decide (item ∈ X)
                     then (if qty_at d "cupboard" item <? threshold
                           then c ← ceil_half (total_in_fridges d item);
                                Some (mkRecommendation (qty_at d "cupboard" item)
                                        (Z.max 10 c))
                           else None)
                     else None
       | Raise e => e = OverflowError
       end
       ∧ ((∃ e, r = Raise e)
          ↔ ∃ item, item ∈ X ∧ qty_at d "cupboard" item < threshold
                    ∧ ceil_half (total_in_fridges d item) = None))).
  - split.
    + intros item. rewrite lookup_empty.
      by rewrite decide_False by apply not_elem_of_empty.
    + split; [by intros [? ?]|]. intros (item & Hin & _).
      by apply not_elem_of_empty in Hin.
  - intros x X r Hx [Hr Hraise].
    assert (Hhere : x ∈ {[x]} ∪ X).
    { apply elem_of_union. left. by apply elem_of_singleton. }
    assert (Hin : ∀ item, item ∈ {[x]} ∪ X ↔ item = x ∨ item ∈ X).
    { intros item. by rewrite elem_of_union, elem_of_singleton. }
    destruct r as [t|e].
    + (* nothing raised so far *)
      assert (Hnone : ¬ ∃ item, item ∈ X ∧ qty_at d "cupboard" item < threshold
                                ∧ ceil_half (total_in_fridges d item) = None).
      { intros H. apply Hraise in H as [? ?]. done. }
      unfold check_item.
      destruct (Z.ltb_spec (qty_at d "cupboard" x) threshold) as [Hlow|Hhigh].
      * destruct (ceil_half (total_in_fridges d x)) as [c|] eqn:Hc.
        -- split.
           ++ intros item. destruct (decide (item = x)) as [->|Hne].
              ** rewrite lookup_insert_eq, decide_True by done.
                 destruct (Z.ltb_spec (qty_at d "cupboard" x) threshold); [|lia].
                 by rewrite Hc.
              ** rewrite lookup_insert_ne, Hr by done.
                 destruct (decide (item ∈ X)) as [Hi|Hi].
                 --- by rewrite decide_True by (apply Hin; by right).
                 --- by rewrite decide_False by (rewrite Hin; tauto).
           ++ split; [by intros [? ?]|]. intros (item & Hi & Hl & Hn).
              apply Hin in Hi as [->|Hi]; [congruence|].
              destruct Hnone. eauto.
        -- split; [done|]. split; [|eauto]. intros _. exists x. done.
      * split.
        -- intros item. rewrite Hr. destruct (decide (item = x)) as [->|Hne].
           ++ rewrite decide_False, decide_True by done.
              by destruct (Z.ltb_spec (qty_at d "cupboard" x) threshold); [lia|].
           ++ destruct (decide (item ∈ X)) as [Hi|Hi].
              ** by rewrite decide_True by (apply Hin; by right).
              ** by rewrite decide_False by (rewrite Hin; tauto).
        -- split; [by intros [? ?]|]. intros (item & Hi & Hl & Hn).
           apply Hin in Hi as [->|Hi]; [lia|].
           destruct Hnone. eauto.
    + simpl. split; [done|]. split; [|eauto]. intros _.
      destruct Hraise as [Hraise _]. destruct Hraise as (item & Hi & ?); [eauto|].
      exists item. split; [apply Hin; by right | done].
Qed.

(** X9.  [check_stock_levels] never changes the manager.  When it returns,
    every entry is for an item stocked in a refrigerator, has the cupboard
    quantity as [current], below the threshold, and a [recommended] of at
    least 10, and every refrigerator item whose cupboard quantity is below
    the threshold has an entry.  The only exception it raises is
    [OverflowError], and only when such an item's total over the
    refrigerators is at least 2^1023 in absolute value: with all totals below
    that it returns. *)
Theorem reorder_outcome (threshold : Z) (m : Manager) :
  (check_stock_levels threshold m).2 = m
  ∧ (∀ to_order, (check_stock_levels threshold m).1 = Returned to_order →
       ∀ item rec, to_order !! item = Some rec →
         stocked_in_fridge (data m) item
         ∧ current rec = qty_at (data m) "cupboard" item
         ∧ current rec < threshold
         ∧ 10 ≤ recommended rec)
  ∧ (∀ to_order, (check_stock_levels threshold m).1 = Returned to_order →
       ∀ item, stocked_in_fridge (data m) item →
               qty_at (data m) "cupboard" item < threshold →
               is_Some (to_order !! item))
  ∧ (∀ e, (check_stock_levels threshold m).1 = Raise e →
       e = OverflowError
       ∧ ∃ item, stocked_in_fridge (data m) item
                 ∧ qty_at (data m) "cupboard" item < threshold
                 ∧ 2 ^ 1023 ≤ Z.abs (fridge_total (data m) item))
  ∧ ((∀ item, Z.abs (fridge_total (data m) item) < 2 ^ 1023) →
     ∃ to_order, (check_stock_levels threshold m).1 = Returned to_order).
Proof.
  unfold check_stock_levels. simpl.
  destruct (check_fold_outcome (data m) threshold (fridge_items (data m)))
    as [Hout Hraise].
  assert (Hover : ∀ e, set_fold (check_item (data m) threshold) (Returned ∅)
                         (fridge_items (data m)) = Raise e →
            e = OverflowError
            ∧ ∃ item, stocked_in_fridge (data m) item
                      ∧ qty_at (data m) "cupboard" item < threshold
                      ∧ 2 ^ 1023 ≤ Z.abs (fridge_total (data m) item)).
  { intros e He. rewrite He in Hout. split; [done|].
    destruct Hraise as [Hraise _]. destruct Hraise as (item & Hi & Hl & Hn); [eauto|].
    exists item. split; [by apply elem_of_fridge_items|]. split; [done|].
    rewrite <- total_in_fridges_sum.
    destruct (Z.lt_ge_cases (Z.abs (total_in_fridges (data m) item)) (2 ^ 1023))
      as [Hlt|?]; [|lia].
    apply ceil_half_fits in Hlt as [? ?]. congruence. }
  split; [done|]. split; [|split; [|split; [exact Hover|]]].
  - intros to_order Ht item rec Hrec. rewrite Ht in Hout.
    rewrite Hout in Hrec.
    destruct (decide (item ∈ fridge_items (data m))) as [Hi|]; [|done].
    destruct (Z.ltb_spec (qty_at (data m) "cupboard" item) threshold); [|done].
    destruct (ceil_half _) as [c|]; [|done]. injection Hrec as <-. simpl.
    split; [by apply elem_of_fridge_items|]. repeat split; [done|lia].
  - intros to_order Ht item Hst Hlow. rewrite Ht in Hout. rewrite Hout.
    rewrite decide_True by by apply elem_of_fridge_items.
    destruct (Z.ltb_spec (qty_at (data m) "cupboard" item) threshold); [|lia].
    destruct (ceil_half (total_in_fridges (data m) item)) as [c|] eqn:Hc; [eauto|].
    assert (∃ e, set_fold (check_item (data m) threshold) (Returned ∅)
                   (fridge_items (data m)) = Raise e) as [e He].
    { apply Hraise. exists item. split; [by apply elem_of_fridge_items | done]. }
    congruence.
  - intros Hfit.
    destruct (set_fold _ _ _) as [t|e] eqn:E; [eauto|].
    destruct (Hover e eq_refl) as (_ & item & _ & _ & Hbig).
    specialize (Hfit item). lia.
Qed.

(** ** Evaluator: what the cleaning throws away *)

Lemma clean_app (s1 s2 : pystr) : clean (s1 ++ s2) = clean s1 ++ clean s2.
Proof.
  unfold clean, re_sub_strip, replace.
  by rewrite !map_app, List.filter_app.
Qed.

Lemma calculate_expression_clean (eval : pystr → Raised pynum) (s1 s2 : pystr) :
  clean s1 = clean s2 →
  calculate_expression eval s1 = calculate_expression eval s2.
Proof.
  intros H. unfold calculate_expression. fold (clean s1). fold (clean s2).
  by rewrite H.
Qed.

Lemma clean_cons (c : N) (s : pystr) :
  clean (c :: s)
  = (if (c =? chr_x)%N || (c =? chr_kha)%N then [chr_star]
     else if kept c then [c] else []) ++ clean s.
Proof.
  unfold clean, re_sub_strip, replace. simpl.
  destruct (N.eqb_spec c chr_x) as [->|Hx]; [done|].
  destruct (N.eqb_spec c chr_kha) as [->|Hk]; [done|]. simpl.
  by destruct (kept c).
Qed.

Lemma clean_kept (s : pystr) : Forall (λ c, kept c = true) (clean s).
Proof.
  unfold clean, re_sub_strip. apply Forall_forall. intros c Hc.
  apply list_elem_of_In in Hc. by apply List.filter_In in Hc as [_ ?].
Qed.

Lemma clean_idempotent (s : pystr) : clean (clean s) = clean s.
Proof.
  pose proof (clean_kept s) as H. induction H as [|c l Hc _ IH]; [done|].
  rewrite clean_cons, IH.
  destruct (N.eqb_spec c chr_x) as [->|Hx]; [done|].
  destruct (N.eqb_spec c chr_kha) as [->|Hk]; [done|]. simpl.
  by rewrite Hc.
Qed.

(** X10.  A character that is neither a digit, [* + - /], whitespace nor
    one of the two letters read as a multiplication sign has no effect on the
    result of [calculate_expression], wherever it stands (so ["2.5"] reads as
    ["25"] and brackets are lost); the Latin [x] and the Cyrillic [х] give
    what [*] gives; and cleaning twice is cleaning once. *)
Theorem evaluator_cleaning (eval : pystr → Raised pynum) (s1 s2 : pystr) (c : N) :
  (kept c = false → c ≠ chr_x → c ≠ chr_kha →
   calculate_expression eval (s1 ++ c :: s2) = calculate_expression eval (s1 ++ s2))
  ∧ calculate_expression eval (s1 ++ chr_x :: s2)
    = calculate_expression eval (s1 ++ chr_star :: s2)
  ∧ calculate_expression eval (s1 ++ chr_kha :: s2)
    = calculate_expression eval (s1 ++ chr_star :: s2)
  ∧ calculate_expression eval (clean s1) = calculate_expression eval s1.
Proof.
  split; [|split; [|split]].
  - intros Hk Hx Hkha. apply calculate_expression_clean.
    rewrite !clean_app, clean_cons.
    destruct (N.eqb_spec c chr_x) as [?|_]; [done|].
    destruct (N.eqb_spec c chr_kha) as [?|_]; [done|]. simpl.
    by rewrite Hk.
  - apply calculate_expression_clean. by rewrite !clean_app, !clean_cons.
  - apply calculate_expression_clean. by rewrite !clean_app, !clean_cons.
  - apply calculate_expression_clean, clean_idempotent.
Qed.

(** ** Stocktake: the walk over the locations *)

Lemma elem_of_keys_2 (items : Inventory) (n : string) :
  is_Some (items !! n) → n ∈ keys items.
Proof.
  intros [r Hr]. unfold keys. apply list_elem_of_fmap. exists (n, r).
  split; [done|]. by apply elem_of_map_to_list.
Qed.

Lemma keys_nonempty (items : Inventory) : items ≠ ∅ → (0 < length (keys items))%nat.
Proof.
  intros Hne. unfold keys. rewrite length_fmap.
  destruct (map_to_list items) eqn:E; [|simpl; lia].
  by apply map_to_list_empty_iff in E.
Qed.

Lemma ask_cases (q : Z) :
  ask q = (if printable q then Returned COUNTING_ITEM else Raise ValueError).
Proof. unfold ask, format_int. by destruct (printable q). Qed.

Lemma report_line_cases (old_quantity new_quantity : Z) :
  report_line old_quantity new_quantity = Returned (new_quantity - old_quantity)
  ∨ report_line old_quantity new_quantity = Raise ValueError
    ∧ (printable old_quantity = false ∨ printable new_quantity = false
       ∨ printable (new_quantity - old_quantity) = false).
Proof.
  unfold report_line, format_int.
  destruct (printable old_quantity); [|by auto].
  destruct (printable new_quantity); [|by auto].
  destruct (printable (new_quantity - old_quantity)); by auto.
Qed.

(** The first question of a location with items is about one of its items. *)
Lemma first_question_asks (items : Inventory) :
  items ≠ ∅ →
  ∃ item_name r, head (keys items) = Some item_name ∧ items !! item_name = Some r
                 ∧ first_question items = ask (quantity r).
Proof.
  intros Hne. pose proof (keys_nonempty _ Hne) as Hlen. unfold first_question.
  destruct (keys items) as [|n ks] eqn:Hk; [simpl in Hlen; lia|].
  assert (Hin : n ∈ keys items) by (rewrite Hk; left).
  destruct (elem_of_keys _ _ Hin) as [r Hr]. rewrite Hr. by exists n, r.
Qed.

Section Walk.

Context (eval : pystr → Raised pynum) (m : Manager).

(** With every counted item in the store, the loops of the report give the
    total or stop at a line that does not print. *)
Lemma report_difference_outcome (c : Counting) :
  (∀ l n q, recorded c l n = Some q → is_Some (location_inventory l m !! n)) →
  (∃ total, report_difference c m = Returned total)
  ∨ (report_difference c m = Raise ValueError
     ∧ ∃ l n q r, recorded c l n = Some q ∧ location_inventory l m !! n = Some r
         ∧ (printable (quantity r) = false ∨ printable q = false
            ∨ printable (q - quantity r) = false)).
Proof.
  unfold report_difference, recorded.
  apply (map_fold_weak_ind
    (λ (acc : Raised Z) (res : gmap string (gmap string Z)),
       (∀ l n q, res !! l ≫= (.!! n) = Some q →
                 is_Some (location_inventory l m !! n)) →
       (∃ total, acc = Returned total)
       ∨ (acc = Raise ValueError
          ∧ ∃ l n q r, res !! l ≫= (.!! n) = Some q
              ∧ location_inventory l m !! n = Some r
              ∧ (printable (quantity r) = false ∨ printable q = false
                 ∨ printable (q - quantity r) = false)))).
  - left. eauto.
  - intros l items res acc Hl IH Hall.
    assert (Hlift : ∀ l' n q, res !! l' ≫= (.!! n) = Some q →
                              <[l:=items]> res !! l' ≫= (.!! n) = Some q).
    { intros l' n q Hq. destruct (decide (l = l')) as [<-|?];
        [by rewrite Hl in Hq | by rewrite lookup_insert_ne]. }
    assert (Hhere : ∀ n q, items !! n = Some q →
                           <[l:=items]> res !! l ≫= (.!! n) = Some q).
    { intros n q Hq. by rewrite lookup_insert_eq. }
    specialize (IH (λ l' n q Hq, Hall l' n q (Hlift l' n q Hq))).
    assert (Hitems : ∀ n q, items !! n = Some q →
                            is_Some (location_inventory l m !! n)).
    { intros n q Hq. apply (Hall l n q). by apply Hhere. }
    assert (Hinner :
      (∃ total, map_fold (λ item new_quantity acc,
          match acc with
          | Raise e => Raise e
          | Returned total_difference =>
              match location_inventory l m !! item with
              | None => Raise (KeyError item)
              | Some r =>
                  match report_line (quantity r) new_quantity with
                  | Raise e => Raise e
                  | Returned difference => Returned (total_difference + difference)
                  end
              end
          end) acc items = Returned total)
      ∨ (map_fold (λ item new_quantity acc,
          match acc with
          | Raise e => Raise e
          | Returned total_difference =>
              match location_inventory l m !! item with
              | None => Raise (KeyError item)
              | Some r =>
                  match report_line (quantity r) new_quantity with
                  | Raise e => Raise e
                  | Returned difference => Returned (total_difference + difference)
                  end
              end
          end) acc items = Raise ValueError
         ∧ ((∃ l' n q r, res !! l' ≫= (.!! n) = Some q
               ∧ location_inventory l' m !! n = Some r
               ∧ (printable (quantity r) = false ∨ printable q = false
                  ∨ printable (q - quantity r) = false))
            ∨ (∃ n q r, items !! n = Some q
                 ∧ location_inventory l m !! n = Some r
                 ∧ (printable (quantity r) = false ∨ printable q = false
                    ∨ printable (q - quantity r) = false))))).
    { revert Hitems.
      apply (map_fold_weak_ind
        (λ (acc' : Raised Z) (its : gmap string Z),
           (∀ n q, its !! n = Some q → is_Some (location_inventory l m !! n)) →
           (∃ total, acc' = Returned total)
           ∨ (acc' = Raise ValueError
              ∧ ((∃ l' n q r, res !! l' ≫= (.!! n) = Some q
                    ∧ location_inventory l' m !! n = Some r
                    ∧ (printable (quantity r) = false ∨ printable q = false
                       ∨ printable (q - quantity r) = false))
                 ∨ (∃ n q r, its !! n = Some q
                      ∧ location_inventory l m !! n = Some r
                      ∧ (printable (quantity r) = false ∨ printable q = false
                         ∨ printable (q - quantity r) = false)))))).
      - intros _. destruct IH as [?|[-> Hcause]]; [by left|]. right. by auto.
      - intros n q its acc' Hn IH' Hits.
        assert (Hup : ∀ n' q', its !! n' = Some q' → <[n:=q]> its !! n' = Some q').
        { intros n' q' Hq'. destruct (decide (n = n')) as [<-|?];
            [congruence | by rewrite lookup_insert_ne]. }
        specialize (IH' (λ n' q' Hq', Hits n' q' (Hup n' q' Hq'))).
        destruct IH' as [[total ->]|[-> Hcause]].
        + destruct (Hits n q) as [r Hr]; [by rewrite lookup_insert_eq|].
          rewrite Hr.
          destruct (report_line_cases (quantity r) q) as [->|[-> Hline]];
            [left; eauto|].
          right. split; [done|]. right. exists n, q, r.
          by rewrite lookup_insert_eq.
        + right. split; [done|].
          destruct Hcause as [?|(n' & q' & r & Hq' & Hr & Hline)]; [by left|].
          right. exists n', q', r. split; [by apply Hup | done]. }
    destruct Hinner as [?|[Hraise Hcause]]; [by left|].
    right. split; [exact Hraise|].
    destruct Hcause as [(l' & n & q & r & Hq & Hr & Hline)
                       |(n & q & r & Hq & Hr & Hline)].
    + exists l', n, q, r. split; [by apply Hlift | done].
    + exists l, n, q, r. split; [by apply Hhere | done].
Qed.

Lemma entered_walk (c : Counting) (location : string) (before after : list string) :
  counting_locations = before ++ location :: after →
  length before = current_location_index c →
  location_inventory location m ≠ ∅ →
  (∀ l, l ∈ before → counted m c l) →
  (∀ l n q, recorded c l n = Some q →
     l ∈ counting_locations ∧ is_Some (location_inventory l m !! n)) →
  walk_inv m
    (first_question (location_inventory location m),
     mkCounting (current_location_index c) (results c)
       (Some (mkCursor (keys (location_inventory location m)) 0 location))).
Proof.
  intros Hlocs Hlen Hne Hdone Hrec. split; [exact Hrec|]. simpl.
  destruct (first_question_asks _ Hne) as (n & r & _ & Hr & ->).
  rewrite ask_cases. destruct (printable (quantity r)) eqn:Hp.
  - eexists _, before, after. simpl.
    split; [done|]. split; [done|]. split; [done|]. split; [done|].
    split; [by apply keys_nonempty|]. split; [exact Hdone|].
    intros i n' Hi. simpl in Hi. lia.
  - left. exists location, n, r.
    split; [rewrite Hlocs; apply elem_of_app; right; left|].
    split; [by apply location_inventory_lookup | done].
Qed.

Lemma next_location_from_walk (rest : list string) :
  ∀ (c : Counting) (before : list string),
    counting_locations = before ++ rest →
    length before = S (current_location_index c) →
    (∀ l, l ∈ before → counted m c l) →
    (∀ l n q, recorded c l n = Some q →
       l ∈ counting_locations ∧ is_Some (location_inventory l m !! n)) →
    walk_inv m (next_location_from rest c m).
Proof.
  induction rest as [|l rest IH]; intros c before Hlocs Hlen Hdone Hrec.
  - simpl. unfold finish_counting.
    set (c1 := mkCounting _ _ _).
    assert (Hall : ∀ l, l ∈ counting_locations → counted m c1 l).
    { intros l Hl. rewrite Hlocs, app_nil_r in Hl. by apply Hdone. }
    destruct (report_difference_outcome c1 (λ l n q Hq, proj2 (Hrec l n q Hq)))
      as [[total Htotal]|[Hraise (l & n & q & r & Hq & Hr & Hline)]].
    + rewrite Htotal. unfold format_int.
      destruct (printable total) eqn:Hp; (split; [exact Hrec|]); simpl.
      * exact Hall.
      * right. split; [exact Hall|]. right. by exists total.
    + rewrite Hraise. split; [exact Hrec|]. simpl.
      apply location_inventory_lookup in Hr.
      destruct Hline as [Hold|Hline].
      * left. exists l, n, r. split; [by apply (Hrec l n q) | done].
      * right. split; [exact Hall|]. left. by exists l, n, q, r.
  - simpl. destruct (decide (location_inventory l m = ∅)) as [He|Hne].
    + apply (IH _ (before ++ [l])).
      * by rewrite <- app_assoc.
      * rewrite length_app. simpl. lia.
      * intros l' Hl'. apply elem_of_app in Hl' as [?|Hl']; [by apply Hdone|].
        apply list_elem_of_singleton in Hl' as ->.
        intros n [r Hr]. by rewrite He, lookup_empty in Hr.
      * exact Hrec.
    + by apply (entered_walk
                  (mkCounting (S (current_location_index c)) (results c) (cursor c))
                  l before rest).
Qed.

Lemma start_counting_walk : walk_inv m (start_counting m).
Proof.
  assert (H0 : ∀ l n q, recorded (mkCounting 0 ∅ None) l n = Some q →
                        l ∈ counting_locations
                        ∧ is_Some (location_inventory l m !! n)).
  { intros l n q. unfold recorded. simpl. by rewrite lookup_empty. }
  unfold start_counting, counting_locations.
  destruct (decide (location_inventory "refrigerator_1" m = ∅)) as [He|Hne].
  - apply (next_location_from_walk _ _ ["refrigerator_1"]); [done|done| |done].
    intros l Hl. apply list_elem_of_singleton in Hl as ->.
    intros n [r Hr]. by rewrite He, lookup_empty in Hr.
  - apply (entered_walk (mkCounting 0 ∅ None) "refrigerator_1" []
             ["refrigerator_2"; "refrigerator_3"; "cupboard"]);
      [done | done | done | by intros l ?%elem_of_nil | exact H0].
Qed.

Lemma handle_counting_quantity_walk (text : pystr) (c : Counting) :
  walk_inv m (Returned COUNTING_ITEM, c) →
  walk_inv m (handle_counting_quantity eval text c m).
Proof.
  intros [Hrec Hst]. simpl in Hst.
  destruct Hst as (cur & before & after & Hcur & Hlocs & Hlen & Hitems & Hk & Hdone & Hprog).
  unfold handle_counting_quantity.
  destruct (calculate_expression eval text) as [q|].
  2:{ split; [done|]. simpl. eauto 12. }
  destruct (Z.ltb_spec q 0) as [?|Hq].
  { split; [done|]. simpl. eauto 12. }
  rewrite Hcur.
  destruct (lookup_lt_is_Some_2 _ _ Hk) as [item Hitem]. rewrite Hitem.
  set (loc := current_location cur) in *.
  set (c' := mkCounting _ _ _).
  assert (Hloc : loc ∈ counting_locations)
    by (rewrite Hlocs; apply elem_of_app; right; left).
  assert (Hkeep : ∀ l n, is_Some (recorded c l n) → is_Some (recorded c' l n)).
  { intros l n [q0 Hq0]. unfold c'. rewrite recorded_record_result.
    case_decide; eauto. }
  assert (Hnew : is_Some (recorded c' loc item)).
  { unfold c'. rewrite recorded_record_result, decide_True by done. eauto. }
  assert (Hrec' : ∀ l n q0, recorded c' l n = Some q0 →
                            l ∈ counting_locations
                            ∧ is_Some (location_inventory l m !! n)).
  { intros l n q0. unfold c'. rewrite recorded_record_result.
    case_decide as Hc; [|apply Hrec]. destruct Hc as [<- <-]. intros _.
    split; [done|].
    apply elem_of_keys. rewrite <- Hitems. by eapply list_elem_of_lookup_2. }
  assert (Hdone' : ∀ l, l ∈ before → counted m c' l).
  { intros l Hl n Hn. apply Hkeep. by apply Hdone. }
  assert (Hprog' : ∀ i n, (i < S (current_item_index cur))%nat →
                          current_items cur !! i = Some n →
                          is_Some (recorded c' loc n)).
  { intros i n Hi Hn.
    destruct (decide (i = current_item_index cur)) as [->|?].
    - rewrite Hitem in Hn. by injection Hn as <-.
    - apply Hkeep. apply (Hprog i); [lia | done]. }
  destruct (current_items cur !! S (current_item_index cur)) as [next|] eqn:Hnext.
  - assert (Hin : is_Some (location_inventory loc m !! next)).
    { apply elem_of_keys. rewrite <- Hitems. by eapply list_elem_of_lookup_2. }
    destruct Hin as [r Hr]. rewrite Hr.
    split; [exact Hrec'|]. simpl. rewrite ask_cases.
    destruct (printable (quantity r)) eqn:Hp.
    + eexists _, before, after. simpl.
      split; [done|]. split; [done|]. split; [done|]. split; [done|].
      split; [by apply lookup_lt_is_Some_1; eauto|]. split; done.
    + left. exists loc, next, r. split; [done|].
      split; [by apply location_inventory_lookup | done].
  - unfold next_counting_location.
    change (current_location_index c') with (current_location_index c).
    rewrite Hlocs, <- Hlen, (cons_middle loc), app_assoc.
    rewrite (drop_app_length' (before ++ [loc]) after)
      by (rewrite length_app; simpl; lia).
    apply (next_location_from_walk _ _ (before ++ [loc])).
    + by rewrite Hlocs, (cons_middle loc), app_assoc.
    + rewrite length_app. simpl. unfold c'. simpl. lia.
    + intros l Hl. apply elem_of_app in Hl as [?|Hl]; [by apply Hdone'|].
      apply list_elem_of_singleton in Hl as ->.
      intros n Hn. apply elem_of_keys_2 in Hn. fold loc in Hitems.
      rewrite <- Hitems in Hn.
      apply list_elem_of_lookup_1 in Hn as [i Hi].
      apply (Hprog' i); [|done].
      apply lookup_ge_None in Hnext.
      assert (i < length (current_items cur))%nat
        by (apply lookup_lt_is_Some_1; eauto).
      lia.
    + exact Hrec'.
Qed.

Lemma feed_walk (texts : list pystr) (st : Raised ConvState * Counting) :
  walk_inv m st → walk_inv m (feed eval texts st m).
Proof.
  revert st. induction texts as [|text texts IH]; intros [[s|e] c] Hinv; simpl;
    try done.
  destruct s; try done. apply IH. by apply handle_counting_quantity_walk.
Qed.

(** X11.  A session run from [start_counting] against a store that no
    other operation changes never ends by itself and raises nothing but the
    [ValueError] of a number that does not print: after any messages it is
    asking for a count, waiting for the confirmation, or stopped by that
    error.  When it waits for the confirmation, every item of the four
    locations has a recorded count.  When it has stopped, a quantity stored
    in one of the four locations does not print; or every item has a
    recorded count and the report fails at a count, at the difference of a
    count to the stored quantity, or at the total. *)
Theorem session_walk (texts : list pystr) :
  let st := feed eval texts (start_counting m) m in
  (st.1 = Returned COUNTING_ITEM ∨ st.1 = Returned COUNTING_CONFIRM
   ∨ st.1 = Raise ValueError)
  ∧ (st.1 = Returned COUNTING_CONFIRM →
     ∀ l n, l ∈ counting_locations → is_Some (record_at (data m) l n) →
            is_Some (recorded st.2 l n))
  ∧ (st.1 = Raise ValueError → unprintable m st.2).
Proof.
  intros st.
  pose proof (feed_walk texts _ start_counting_walk) as [Hrec Hst].
  fold st in Hrec, Hst. split; [|split].
  - destruct st.1 as [[]|[]]; simpl in *; tauto.
  - intros Hc l n Hl [r Hr]. rewrite Hc in Hst. apply (Hst l Hl).
    exists r. unfold location_inventory, get_inventory, truthy.
    unfold record_at in Hr.
    assert (Hne : String.eqb l "" = false).
    { unfold counting_locations in Hl. rewrite !elem_of_cons, elem_of_nil in Hl.
      destruct Hl as [->|[->|[->|[->|[]]]]]; reflexivity. }
    rewrite Hne. simpl. destruct (data m !! l); [done|discriminate].
  - intros Hc. by rewrite Hc in Hst.
Qed.

End Walk.

Section Skip.
Context (m : Manager).

Lemma report_difference_nothing (idx : nat) (cur : option Cursor) :
  report_difference (mkCounting idx ∅ cur) m = Returned 0.
Proof. unfold report_difference. simpl. by rewrite map_fold_empty. Qed.

Lemma next_location_from_skips (before : list string) :
  ∀ (c : Counting) (location : string) (after : list string),
    Forall (λ l, location_inventory l m = ∅) before →
    location_inventory location m ≠ ∅ →
    next_location_from (before ++ location :: after) c m
    = (first_question (location_inventory location m),
       mkCounting (S (length before) + current_location_index c) (results c)
         (Some (mkCursor (keys (location_inventory location m)) 0 location))).
Proof.
  induction before as [|l before IH]; intros c location after Hempty Hne; simpl.
  - by rewrite decide_False by done.
  - inversion Hempty as [|? ? Hl Hrest]; subst.
    rewrite decide_True by done. rewrite IH by done. simpl.
    do 2 f_equal. lia.
Qed.

Lemma next_location_from_all_empty (rest : list string) :
  ∀ (idx : nat) (cur : option Cursor),
    Forall (λ l, location_inventory l m = ∅) rest →
    next_location_from rest (mkCounting idx ∅ cur) m
    = (Returned COUNTING_CONFIRM, mkCounting (S (length rest) + idx) ∅ cur).
Proof.
  induction rest as [|l rest IH]; intros idx cur Hempty; simpl.
  - unfold finish_counting. by rewrite report_difference_nothing.
  - inversion Hempty as [|? ? Hl Hrest]; subst.
    rewrite decide_True by done. rewrite IH by done. do 2 f_equal. lia.
Qed.

(** X12.  [start_counting] skips the locations without items: its first
    question is about the first item of the first location of the list that
    has items, it is asked when the stored quantity of that item prints, and
    [ValueError] is raised when it does not, the session being at that item
    in both cases; so the question is asked whenever the quantities of that
    location print.  When none of the four locations has items the handler
    goes straight to the confirmation with nothing recorded, after which
    confirming or declining leaves the manager as it was. *)
Theorem stocktake_start :
  (∀ before location after,
     counting_locations = before ++ location :: after →
     Forall (λ l, location_inventory l m = ∅) before →
     location_inventory location m ≠ ∅ →
     (∃ item_name r,
        head (keys (location_inventory location m)) = Some item_name
        ∧ location_inventory location m !! item_name = Some r
        ∧ start_counting m
          = (if printable (quantity r) then Returned COUNTING_ITEM
             else Raise ValueError,
             mkCounting (length before) ∅
               (Some (mkCursor (keys (location_inventory location m)) 0 location))))
     ∧ ((∀ n r, location_inventory location m !! n = Some r →
                printable (quantity r) = true) →
        start_counting m
        = (Returned COUNTING_ITEM,
           mkCounting (length before) ∅
             (Some (mkCursor (keys (location_inventory location m)) 0 location)))))
  ∧ (Forall (λ l, location_inventory l m = ∅) counting_locations →
     start_counting m = (Returned COUNTING_CONFIRM, mkCounting 4 ∅ None)
     ∧ ∀ said_yes, confirm_counting said_yes (start_counting m).2 m
                   = (CONVERSATION_END, m)).
Proof.
  split.
  - intros before location after Hlocs Hempty Hne.
    destruct (first_question_asks _ Hne) as (item_name & r & Hhead & Hr & Hask).
    assert (Hstart : start_counting m
              = (if printable (quantity r) then Returned COUNTING_ITEM
                 else Raise ValueError,
                 mkCounting (length before) ∅
                   (Some (mkCursor (keys (location_inventory location m)) 0
                            location)))).
    { rewrite <- ask_cases, <- Hask.
      unfold start_counting, next_counting_location.
      unfold counting_locations in *.
      destruct before as [|l before]; simpl in Hlocs.
      + injection Hlocs as <- <-. by rewrite decide_False by done.
      + injection Hlocs as <- Hrest.
        inversion Hempty as [|? ? Hl Hbefore]; subst.
        rewrite decide_True by done. simpl drop.
        rewrite Hrest. rewrite next_location_from_skips by done. simpl.
        do 2 f_equal. lia. }
    split; [by exists item_name, r|].
    intros Hprint. by rewrite Hstart, (Hprint item_name r Hr).
  - intros Hempty. unfold counting_locations in Hempty.
    inversion Hempty as [|? ? H1 Hrest]; subst.
    assert (Hstart : start_counting m
                     = (Returned COUNTING_CONFIRM, mkCounting 4 ∅ None)).
    { unfold start_counting, counting_locations. rewrite decide_True by done.
      unfold next_counting_location, counting_locations. simpl drop.
      by rewrite next_location_from_all_empty. }
    split; [done|]. intros said_yes. rewrite Hstart.
    unfold confirm_counting, apply_results. simpl.
    rewrite map_fold_empty. by destruct said_yes.
Qed.

End Skip.

(** ** Chat handlers: adding, editing, removing *)

Lemma location_map_range (user_input location : string) :
  location_map user_input = Some location → location ∈ counting_locations.
Proof.
  unfold location_map, counting_locations.
  repeat (destruct (String.eqb user_input _); [intros [= <-]; set_solver|]).
  discriminate.
Qed.

Lemma location_inventory_record (l n : string) (m : Manager) :
  l ∈ counting_locations → location_inventory l m !! n = record_at (data m) l n.
Proof.
  intros Hl. unfold location_inventory, get_inventory, truthy, record_at.
  assert (Hne : String.eqb l "" = false).
  { unfold counting_locations in Hl. rewrite !elem_of_cons, elem_of_nil in Hl.
    destruct Hl as [->|[->|[->|[->|[]]]]]; reflexivity. }
  rewrite Hne. simpl. destruct (data m !! l); [done | apply lookup_empty].
Qed.

(** X13.  When the add conversation gets from the location to the
    category, [add_item] is called with one of the four location keys, the
    name as typed and a positive quantity, the category being absent exactly
    when the text is ["-"]; its result decides the reply, and where the
    location exists and does not hold the name that result is the outcome of
    the write. *)
Theorem add_conversation (user_input name cat_text : string) (parsed : option Z)
    (ud ud1 ud3 : UserData) (m : Manager) :
  add_item_location user_input ud = (ADD_NAME, ud1) →
  add_item_quantity parsed (add_item_name name ud1).2 = (ADD_CATEGORY, ud3) →
  ∃ location qty,
    location_map user_input = Some location
    ∧ location ∈ counting_locations
    ∧ parsed = Some qty ∧ 0 < qty
    ∧ add_item_category cat_text ud3 m
      = (Returned ((add_item location name qty (unless_dash cat_text) m).1, END),
         (add_item location name qty (unless_dash cat_text) m).2)
    ∧ (unless_dash cat_text = None ↔ cat_text = "-")
    ∧ (is_Some (data m !! location) → record_at (data m) location name = None →
       (add_item location name qty (unless_dash cat_text) m).1
       = disk_ok m (length (written m))).
Proof.
  unfold add_item_location, add_item_quantity, add_item_name. simpl.
  destruct (location_map user_input) as [location|] eqn:Hloc; [|discriminate].
  intros [= <-].
  destruct parsed as [qty|]; [|discriminate].
  destruct (Z.leb_spec qty 0) as [?|Hq]; [discriminate|].
  intros [= <-].
  exists location, qty. split; [done|].
  split; [by eapply location_map_range|]. split; [done|]. split; [done|].
  split.
  { unfold add_item_category. simpl.
    by destruct (add_item location name qty (unless_dash cat_text) m). }
  split.
  { unfold unless_dash. destruct (String.eqb_spec cat_text "-"); split; done. }
  intros [items Hl] Hn. unfold add_item. rewrite Hl.
  unfold record_at in Hn. rewrite Hl in Hn. simpl in Hn. by rewrite Hn.
Qed.

(** X14.  When the edit conversation gets from the location to the
    category against one store, the item exists, the quantity written is the
    positive number typed or, for ["-"], the old one, and the category is the
    text typed or, for ["-"], the old one; other records are untouched and
    the reply depends on the write alone. *)
Theorem edit_conversation (user_input name qty_text cat_text : string)
    (parsed : option Z) (ud ud1 ud2 ud3 : UserData) (m : Manager) :
  edit_item_location user_input ud m = (EDIT_NAME, ud1) →
  edit_item_name name ud1 m = (Returned EDIT_QUANTITY, ud2) →
  edit_item_quantity qty_text parsed ud2 = (EDIT_CATEGORY, ud3) →
  ∃ location r new_quantity,
    location_map user_input = Some location
    ∧ record_at (data m) location name = Some r
    ∧ (qty_text = "-" ∧ new_quantity = None
       ∨ qty_text ≠ "-" ∧ ∃ qty, parsed = Some qty ∧ 0 < qty ∧ new_quantity = Some qty)
    ∧ (edit_item_category cat_text ud3 m).1
      = Returned (disk_ok m (length (written m)), END)
    ∧ record_at (data (edit_item_category cat_text ud3 m).2) location name
      = Some (mkItem (default (quantity r) new_quantity)
                (if String.eqb cat_text "-" then category r else Some cat_text))
    ∧ (∀ l n, ¬ (location = l ∧ name = n) →
         record_at (data (edit_item_category cat_text ud3 m).2) l n
         = record_at (data m) l n).
Proof.
  unfold edit_item_location, edit_item_name, edit_item_quantity.
  destruct (location_map user_input) as [location|] eqn:Hloc; [|discriminate].
  destruct (decide (location_inventory location m = ∅)) as [|Hinv]; [discriminate|].
  intros [= <-]. simpl.
  destruct (location_inventory location m !! name) as [r|] eqn:Hr; [|discriminate].
  destruct (format_int (quantity r)); [|discriminate].
  intros [= <-].
  rewrite (location_inventory_record _ _ _ (location_map_range _ _ Hloc)) in Hr.
  intros Hq.
  assert (Hnq : ∃ new_quantity,
            ud3 = set_new_quantity new_quantity (set_name name (set_location location ud))
            ∧ (qty_text = "-" ∧ new_quantity = None
               ∨ qty_text ≠ "-" ∧ ∃ qty, parsed = Some qty ∧ 0 < qty
                                        ∧ new_quantity = Some qty)).
  { destruct (String.eqb_spec qty_text "-") as [->|Hne].
    - injection Hq as <-. exists None. split; [done|]. by left.
    - destruct parsed as [qty|]; [|discriminate].
      destruct (Z.leb_spec qty 0); [discriminate|]. injection Hq as <-.
      exists (Some qty). split; [done|]. right. split; [done|]. eauto. }
  destruct Hnq as (nq & -> & Hnq).
  exists location, r, nq. split; [done|]. split; [done|]. split; [done|].
  unfold edit_item_category. simpl.
  assert (Hres : edit_item location name nq (unless_dash cat_text) m
            = (disk_ok m (length (written m)),
               (edit_item location name nq (unless_dash cat_text) m).2)).
  { unfold edit_item. by rewrite Hr. }
  rewrite Hres. simpl. split; [done|]. split.
  - rewrite edit_item_record, decide_True, Hr by done. simpl.
    unfold unless_dash. by destruct (String.eqb cat_text "-").
  - intros l n Hne. by rewrite edit_item_record, decide_False.
Qed.

(** X15.  In the remove conversation, once a location with items is
    chosen: a name that the location does not hold ends the conversation with
    the manager as it was; a name it holds is removed, other records are
    untouched, and the reply is "removed" or "failed" as the write went. *)
Theorem remove_conversation (user_input name : string) (ud ud1 : UserData) (m : Manager) :
  remove_item_location user_input ud m = (REMOVE_ITEM, ud1) →
  ∃ location,
    location_map user_input = Some location
    ∧ (record_at (data m) location name = None →
       remove_item_name name ud1 m = (Returned (RemoveNotFound, END), m))
    ∧ (is_Some (record_at (data m) location name) →
       (remove_item_name name ud1 m).1
       = Returned (if disk_ok m (length (written m)) then Removed else RemoveFailed, END)
       ∧ (∀ l n, record_at (data (remove_item_name name ud1 m).2) l n
                 = if decide (location = l ∧ name = n) then None
                   else record_at (data m) l n)).
Proof.
  unfold remove_item_location, remove_item_name.
  destruct (location_map user_input) as [location|] eqn:Hloc; [|discriminate].
  destruct (decide (location_inventory location m = ∅)) as [|Hinv]; [discriminate|].
  intros [= <-]. simpl. exists location. split; [done|].
  rewrite (location_inventory_record _ _ _ (location_map_range _ _ Hloc)).
  split.
  - intros H. by rewrite H.
  - intros [r Hr]. rewrite Hr. unfold remove_item. rewrite Hr. simpl.
    split; [done|]. intros l n. apply record_at_del_record.
Qed.

(** ** Chat handlers: filling a refrigerator *)

Lemma cupboard_items_record (m : Manager) (n : string) :
  (get_cupboard_items m).1 !! n = record_at (data m) "cupboard" n.
Proof.
  unfold get_cupboard_items, record_at. simpl.
  destruct (data m !! "cupboard"); [done | apply lookup_empty].
Qed.

(** X16.  [handle_fill_quantity], with an item chosen and the three
    refrigerators in the store: a text that is not an integer and a quantity
    above the cupboard's ask again, an item no longer in the cupboard ends
    the conversation, all three with the manager as it was; any other
    quantity, zero and negative included, is transferred to the item's
    refrigerator.  The reply to a quantity above the cupboard's is the one
    for a text that is not an integer when the cupboard's quantity does not
    print.  The transfer's own "not found" and "insufficient" replies cannot
    occur here: the only error shown is the save error. *)
Theorem fill_outcomes (parsed : option Z) (ud : UserData) (item : string) (m : Manager) :
  ud_fill_item ud = Some item →
  has_fridges (data m) →
  match (handle_fill_quantity parsed ud m).1 with
  | Returned (FillNotANumber, st) =>
      (parsed = None
       ∨ ∃ qty, parsed = Some qty ∧ qty_at (data m) "cupboard" item < qty
                ∧ printable (qty_at (data m) "cupboard" item) = false)
      ∧ st = FILL_FRIDGE_QUANTITY ∧ (handle_fill_quantity parsed ud m).2 = m
  | Returned (FillGone, st) =>
      record_at (data m) "cupboard" item = None ∧ st = END
      ∧ (handle_fill_quantity parsed ud m).2 = m
  | Returned (FillTooMuch max_quantity, st) =>
      (∃ qty, parsed = Some qty ∧ max_quantity < qty)
      ∧ qty_at (data m) "cupboard" item = max_quantity
      ∧ st = FILL_FRIDGE_QUANTITY ∧ (handle_fill_quantity parsed ud m).2 = m
      ∧ printable max_quantity = true
  | Returned (FillMoved target, st) =>
      (∃ qty, parsed = Some qty ∧ qty ≤ qty_at (data m) "cupboard" item
              ∧ qty_at (data (handle_fill_quantity parsed ud m).2) "cupboard" item
                = qty_at (data m) "cupboard" item - qty)
      ∧ target = home_location (data m) item ∧ st = END
      ∧ disk_ok m (length (written m)) = true
  | Returned (FillError reason, st) =>
      reason = msg_save_error ∧ st = END ∧ disk_ok m (length (written m)) = false
  | Raise _ => False
  end.
Proof.
  intros Hitem Hf. unfold handle_fill_quantity.
  destruct parsed as [qty|]; [|by (split; [left|])].
  rewrite Hitem, cupboard_items_record.
  destruct (record_at (data m) "cupboard" item) as [r|] eqn:Hr; [|done].
  destruct (Z.ltb_spec (quantity r) qty) as [Hlt|Hge].
  { unfold format_int, qty_at. rewrite Hr. simpl.
    destruct (printable (quantity r)) eqn:Hp; simpl; [eauto 10|].
    split; [|done]. right. exists qty. eauto. }
  destruct (first_stocking_home (data m) item Hf) as (found & Hfound & Htarget).
  destruct (move_from_cupboard_run m item qty r found Hr Hge Hfound)
    as (m1 & -> & _ & _ & Hrec).
  destruct (target_is_fridge _ _ _ Hfound) as [Hin _].
  pose proof (fridge_not_cupboard _ Hin) as Hne.
  destruct (disk_ok m (length (written m))); simpl; [|done].
  split; [|done]. exists qty. split; [done|].
  unfold qty_at. rewrite Hrec, Hr. simpl. split; [done|].
  rewrite decide_False by (intros [? _]; done).
  rewrite decide_True by done.
  destruct (Z.eqb_spec (quantity r - qty) 0); simpl; lia.
Qed.

(** ** Chat handlers: receiving *)

Lemma split_on_nonempty (sep : N) (text : pystr) : split_on sep text ≠ [].
Proof.
  destruct text as [|c rest]; simpl; [done|].
  destruct (c =? sep)%N; [done|]. by destruct (split_on sep rest).
Qed.

Lemma split_on_app (sep : N) (t1 t2 : pystr) :
  split_on sep (t1 ++ sep :: t2) = split_on sep t1 ++ split_on sep t2.
Proof.
  induction t1 as [|c rest IH]; simpl.
  - by rewrite N.eqb_refl.
  - destruct (c =? sep)%N; [by rewrite IH|].
    rewrite IH. pose proof (split_on_nonempty sep rest).
    by destruct (split_on sep rest).
Qed.

Lemma rsplit_space_last (name tok : pystr) :
  chr_space ∉ tok → rsplit_space (name ++ chr_space :: tok) = Some (name, tok).
Proof.
  intros Htok.
  assert (Hnone : rsplit_space tok = None).
  { induction tok as [|c rest IH]; [done|]. simpl.
    apply not_elem_of_cons in Htok as [Hc Hrest]. rewrite (IH Hrest).
    by destruct (N.eqb_spec c chr_space) as [->|_]. }
  induction name as [|c rest IH]; simpl.
  - by rewrite Hnone.
  - by rewrite IH.
Qed.

Lemma rsplit_space_none (s : pystr) : chr_space ∉ s → rsplit_space s = None.
Proof.
  induction s as [|c rest IH]; [done|]. simpl. intros H.
  apply not_elem_of_cons in H as [Hc Hrest]. rewrite (IH Hrest).
  by destruct (N.eqb_spec c chr_space) as [->|_].
Qed.

Section ReceiveProperties.

Context (parse_int parse_float : pystr → option Z).

Lemma goods_errors_length (parsed : list ((string * Z) + LineError)) :
  (length (goods_of parsed) + length (errors_of parsed) = length parsed)%nat.
Proof.
  induction parsed as [|[g|e] rest IH]; simpl; [done| |];
    unfold goods_of, errors_of in *; simpl; lia.
Qed.

(** X17.  [handle_receive_goods] reads the message line by line: what a
    line gives does not depend on the other lines, and every line gives
    either one entry of the goods list or one error.  When no line gives an
    entry the manager is left as it was and the handler asks again;
    otherwise the entries are added in one [add_to_cupboard] call, errors or
    not, and the reply is as the write went. *)
Theorem receive_line_by_line (t1 t2 text : pystr) (m : Manager) :
  receive_lines parse_int parse_float (t1 ++ 10%N :: t2)
    = receive_lines parse_int parse_float t1 ++ receive_lines parse_int parse_float t2
  ∧ (length (goods_of (receive_lines parse_int parse_float text))
     + length (errors_of (receive_lines parse_int parse_float text))
     = length (split_on 10%N text))%nat
  ∧ (goods_of (receive_lines parse_int parse_float text) = [] →
     handle_receive_goods parse_int parse_float text m
     = ((NothingRecognised, RECEIVE_GOODS), m))
  ∧ (goods_of (receive_lines parse_int parse_float text) ≠ [] →
     handle_receive_goods parse_int parse_float text m
     = ((if disk_ok m (length (written m))
         then GoodsAdded (goods_of (receive_lines parse_int parse_float text))
                (errors_of (receive_lines parse_int parse_float text))
         else GoodsNotAdded, END),
        (add_to_cupboard (goods_of (receive_lines parse_int parse_float text)) m).2)).
Proof.
  split; [|split; [|split]].
  - unfold receive_lines. by rewrite split_on_app, fmap_app.
  - rewrite goods_errors_length. unfold receive_lines. by rewrite length_fmap.
  - intros H. unfold handle_receive_goods. by rewrite H.
  - intros H. unfold handle_receive_goods.
    destruct (goods_of _) as [|g gs]; [done|].
    unfold add_to_cupboard, save_data. simpl.
    by destruct (disk_ok m (length (written m))).
Qed.

(** X18.  In a received line the quantity is what stands after the last
    space of the stripped line and the name is everything before it, as it
    is (inner and trailing spaces included); the quantity is read with [int]
    and, failing that, with [float]; a line without a space after stripping
    is reported as a malformed line. *)
Theorem receive_line_reading (line name tok : pystr) :
  (strip line = name ++ chr_space :: tok → chr_space ∉ tok →
   receive_line parse_int parse_float line
   = match parse_int tok with
     | Some qty => inl (utf8 name, qty)
     | None => match parse_float tok with
               | Some qty => inl (utf8 name, qty)
               | None => inr (BadQuantity line)
               end
     end)
  ∧ (chr_space ∉ strip line →
     receive_line parse_int parse_float line = inr (BadLine line)).
Proof.
  unfold receive_line. split.
  - intros -> Htok. by rewrite rsplit_space_last.
  - intros H. by rewrite rsplit_space_none.
Qed.

End ReceiveProperties.

(** ** Instances *)

Lemma sample_has_cupboard : is_Some (data (manager_of sample_store) !! "cupboard").
Proof. vm_compute. eauto. Qed.

Lemma add_item_effect_witness :
  is_Some (data (manager_of sample_store) !! "cupboard")
  ∧ record_at (data (manager_of sample_store)) "cupboard" "Juice" = None
  ∧ record_at (data (add_item "cupboard" "Juice" 3 None (manager_of sample_store)).2)
      "cupboard" "Juice" = Some (mkItem 3 None).
Proof.
  split; [apply sample_has_cupboard|]. split; [reflexivity|].
  destruct (proj2 (add_item_effect (manager_of sample_store) "cupboard" "Juice" 3 None)
              sample_has_cupboard eq_refl) as (_ & _ & Hrec & _).
  rewrite Hrec. by rewrite decide_True.
Defined.

Lemma remove_item_effect_witness :
  is_Some (record_at (data (manager_of sample_store)) "cupboard" "Water")
  ∧ record_at (data (remove_item "cupboard" "Water" (manager_of sample_store)).2)
      "cupboard" "Water" = None.
Proof.
  assert (H : is_Some (record_at (data (manager_of sample_store)) "cupboard" "Water"))
    by (vm_compute; eauto).
  split; [exact H|].
  destruct (proj2 (remove_item_effect (manager_of sample_store) "cupboard" "Water") H)
    as (_ & _ & Hrec & _).
  rewrite Hrec. by rewrite decide_True.
Defined.

Lemma add_remove_round_trip_witness :
  is_Some (data (manager_of sample_store) !! "cupboard")
  ∧ record_at (data (manager_of sample_store)) "cupboard" "Juice" = None
  ∧ data (remove_item "cupboard" "Juice"
            (add_item "cupboard" "Juice" 3 None (manager_of sample_store)).2).2
    = data (manager_of sample_store).
Proof.
  split; [apply sample_has_cupboard|]. split; [reflexivity|].
  apply (proj1 (add_remove_round_trip (manager_of sample_store) "cupboard" "Juice" 3 None));
    [apply sample_has_cupboard | reflexivity].
Defined.

Lemma edit_item_effect_witness :
  record_at (data (manager_of sample_store)) "cupboard" "Water"
    = Some (mkItem 6 (Some "still"))
  ∧ record_at (data (edit_item "cupboard" "Water" (Some 9) None
                       (manager_of sample_store)).2) "cupboard" "Water"
    = Some (mkItem 9 (Some "still")).
Proof.
  split; [reflexivity|].
  destruct (proj2 (edit_item_effect (manager_of sample_store) "cupboard" "Water"
                     (Some 9) None) (mkItem 6 (Some "still")) eq_refl)
    as (_ & _ & Hrec & _).
  exact Hrec.
Defined.

Lemma search_item_finds_witness :
  ∃ results,
    (search_item "Cola" (manager_of sample_store)).1 = Some results
    ∧ results !! "cupboard" = Some (mkItem 12 (Some "drinks"))
    ∧ results !! "refrigerator_2" = None.
Proof.
  destruct (search_item_finds (manager_of sample_store) "Cola") as (Hnone & Hsome & _).
  destruct ((search_item "Cola" (manager_of sample_store)).1) as [results|] eqn:E.
  - exists results. split; [done|].
    destruct (Hsome results eq_refl) as [Hl _]. rewrite !Hl.
    split; reflexivity.
  - pose proof (proj1 Hnone eq_refl "cupboard") as H. discriminate H.
Defined.

Lemma mutations_are_written_witness :
  synced (written_manager sample_store)
  ∧ synced (add_to_cupboard [("Water", 1)] (written_manager sample_store)).2.
Proof.
  assert (H : synced (written_manager sample_store)) by reflexivity.
  split; [exact H|].
  destruct (mutations_are_written (written_manager sample_store))
    as (_ & _ & _ & _ & Hreceive & _ & Hsynced).
  exact (Hsynced _ (Hreceive [("Water", 1)]) H).
Defined.

Lemma transfer_target_and_frame_witness :
  record_at (data (manager_of sample_store)) "cupboard" "Cola"
    = Some (mkItem 12 (Some "drinks"))
  ∧ 4 ≤ 12
  ∧ has_fridges (data (manager_of sample_store))
  ∧ (move_from_cupboard "Cola" 4 (manager_of sample_store)).1
    = Returned (true, "refrigerator_1")
  ∧ record_at (data (move_from_cupboard "Cola" 4 (manager_of sample_store)).2)
      "cupboard" "Water" = Some (mkItem 6 (Some "still")).
Proof.
  split; [reflexivity|]. split; [lia|]. split; [apply sample_has_fridges|].
  destruct (transfer_target_and_frame (manager_of sample_store) "Cola" 4
              (mkItem 12 (Some "drinks")) eq_refl ltac:(simpl; lia) sample_has_fridges)
    as (Hres & _ & Hother & _).
  split; [exact Hres|].
  rewrite Hother by discriminate. reflexivity.
Defined.

Lemma receive_order_and_split_witness :
  [("Water", 10); ("Juice", 4)] ≡ₚ [("Juice", 4); ("Water", 10)]
  ∧ data (add_to_cupboard [("Water", 10); ("Juice", 4)] (manager_of sample_store)).2
    = data (add_to_cupboard [("Juice", 4); ("Water", 10)] (manager_of sample_store)).2.
Proof.
  assert (H : [("Water", 10); ("Juice", 4)] ≡ₚ [("Juice", 4); ("Water", 10)])
    by apply perm_swap.
  split; [exact H|].
  exact (proj1 (receive_order_and_split _ _ (manager_of sample_store)) H).
Defined.

Lemma reorder_outcome_witness :
  (∀ item, Z.abs (fridge_total (data (manager_of (cola_store 7))) item) < 2 ^ 1023)
  ∧ ∃ to_order,
      (check_stock_levels default_threshold (manager_of (cola_store 7))).1
      = Returned to_order.
Proof.
  assert (H : ∀ item,
             Z.abs (fridge_total (data (manager_of (cola_store 7))) item) < 2 ^ 1023).
  { intros item. pose proof (cola_store_totals 7 item ltac:(simpl; lia)) as Hle.
    simpl. assert (2 ^ 53 < 2 ^ 1023) by (apply Z.pow_lt_mono_r; lia). lia. }
  split; [exact H|].
  exact (proj2 (proj2 (proj2 (proj2
           (reorder_outcome default_threshold (manager_of (cola_store 7)))))) H).
Defined.

Lemma evaluator_cleaning_witness :
  kept 46 = false ∧ 46%N ≠ chr_x ∧ 46%N ≠ chr_kha
  ∧ calculate_expression eval_integers (of_ascii "2" ++ 46%N :: of_ascii "5")
    = calculate_expression eval_integers (of_ascii "2" ++ of_ascii "5").
Proof.
  split; [reflexivity|]. split; [discriminate|]. split; [discriminate|].
  apply (proj1 (evaluator_cleaning eval_integers (of_ascii "2") (of_ascii "5") 46%N));
    [reflexivity | discriminate | discriminate].
Defined.

Lemma session_walk_witness :
  (count_cola "8").1 = Returned COUNTING_CONFIRM
  ∧ is_Some (record_at (data (manager_of (cola_store 5))) "refrigerator_1" "Cola")
  ∧ is_Some (recorded (count_cola "8").2 "refrigerator_1" "Cola")
  ∧ (feed eval_power [of_ascii "10**5000"]
       (start_counting (manager_of (cola_store 5))) (manager_of (cola_store 5))).1
    = Raise ValueError
  ∧ unprintable (manager_of (cola_store 5))
      (feed eval_power [of_ascii "10**5000"]
         (start_counting (manager_of (cola_store 5))) (manager_of (cola_store 5))).2.
Proof.
  assert (H1 : (count_cola "8").1 = Returned COUNTING_CONFIRM)
    by (vm_compute; reflexivity).
  assert (H2 : is_Some (record_at (data (manager_of (cola_store 5)))
                          "refrigerator_1" "Cola")) by (vm_compute; eauto).
  assert (H3 : (feed eval_power [of_ascii "10**5000"]
                  (start_counting (manager_of (cola_store 5)))
                  (manager_of (cola_store 5))).1 = Raise ValueError)
    by (vm_compute; reflexivity).
  split; [exact H1|]. split; [exact H2|]. split.
  - apply (proj1 (proj2 (session_walk eval_integers (manager_of (cola_store 5))
                           [of_ascii "8"])) H1 "refrigerator_1" "Cola");
      [by left | exact H2].
  - split; [exact H3|].
    exact (proj2 (proj2 (session_walk eval_power (manager_of (cola_store 5))
                           [of_ascii "10**5000"])) H3).
Defined.

Lemma default_store_empty :
  Forall (λ l, location_inventory l (manager_of create_default_data) = ∅)
    counting_locations.
Proof. repeat constructor. Qed.

Lemma cola_store_has_items (q : Z) :
  location_inventory "refrigerator_1" (manager_of (cola_store q)) ≠ ∅.
Proof.
  intros H. apply (f_equal (λ items : Inventory, items !! "Cola")) in H.
  rewrite lookup_empty in H.
  rewrite (location_inventory_record "refrigerator_1" "Cola") in H by (by left).
  change (data (manager_of (cola_store q))) with (cola_store q) in H.
  rewrite cola_store_record, decide_True in H by done. discriminate H.
Qed.

Lemma stocktake_start_witness :
  Forall (λ l, location_inventory l (manager_of create_default_data) = ∅)
    counting_locations
  ∧ start_counting (manager_of create_default_data)
    = (Returned COUNTING_CONFIRM, mkCounting 4 ∅ None)
  ∧ location_inventory "refrigerator_1" (manager_of (cola_store 5)) ≠ ∅
  ∧ ∃ item_name r,
      head (keys (location_inventory "refrigerator_1" (manager_of (cola_store 5))))
      = Some item_name
      ∧ location_inventory "refrigerator_1" (manager_of (cola_store 5)) !! item_name
        = Some r
      ∧ start_counting (manager_of (cola_store 5))
        = (if printable (quantity r) then Returned COUNTING_ITEM
           else Raise ValueError,
           mkCounting 0 ∅
             (Some (mkCursor
                      (keys (location_inventory "refrigerator_1"
                               (manager_of (cola_store 5))))
                      0 "refrigerator_1"))).
Proof.
  split; [apply default_store_empty|]. split.
  { apply (proj2 (stocktake_start (manager_of create_default_data))),
      default_store_empty. }
  split; [apply cola_store_has_items|].
  apply (proj1 (stocktake_start (manager_of (cola_store 5))) [] "refrigerator_1"
           ["refrigerator_2"; "refrigerator_3"; "cupboard"]);
    [reflexivity | constructor | apply cola_store_has_items].
Defined.

Lemma add_conversation_witness :
  add_item_location "Шкаф" no_user_data = (ADD_NAME, set_location "cupboard" no_user_data)
  ∧ add_item_quantity (Some 3)
      (add_item_name "Juice" (set_location "cupboard" no_user_data)).2
    = (ADD_CATEGORY,
       set_quantity 3 (set_name "Juice" (set_location "cupboard" no_user_data)))
  ∧ ∃ location qty,
      location_map "Шкаф" = Some location
      ∧ location ∈ counting_locations
      ∧ Some 3 = Some qty ∧ 0 < qty
      ∧ add_item_category "-"
          (set_quantity 3 (set_name "Juice" (set_location "cupboard" no_user_data)))
          (manager_of sample_store)
        = (Returned ((add_item location "Juice" qty (unless_dash "-")
                        (manager_of sample_store)).1, END),
           (add_item location "Juice" qty (unless_dash "-") (manager_of sample_store)).2).
Proof.
  split; [reflexivity|]. split; [reflexivity|].
  destruct (add_conversation "Шкаф" "Juice" "-" (Some 3) no_user_data
              (set_location "cupboard" no_user_data)
              (set_quantity 3 (set_name "Juice" (set_location "cupboard" no_user_data)))
              (manager_of sample_store) eq_refl eq_refl)
    as (location & qty & H1 & H2 & H3 & H4 & H5 & _).
  exists location, qty. done.
Defined.

Lemma edit_conversation_witness :
  edit_item_location "Шкаф" no_user_data (manager_of sample_store)
    = (EDIT_NAME, set_location "cupboard" no_user_data)
  ∧ edit_item_name "Water" (set_location "cupboard" no_user_data) (manager_of sample_store)
    = (Returned EDIT_QUANTITY, set_name "Water" (set_location "cupboard" no_user_data))
  ∧ edit_item_quantity "-" None (set_name "Water" (set_location "cupboard" no_user_data))
    = (EDIT_CATEGORY,
       set_new_quantity None (set_name "Water" (set_location "cupboard" no_user_data)))
  ∧ (edit_item_category "sparkling"
       (set_new_quantity None (set_name "Water" (set_location "cupboard" no_user_data)))
       (manager_of sample_store)).1
    = Returned (true, END).
Proof.
  split; [reflexivity|]. split; [reflexivity|]. split; [reflexivity|].
  destruct (edit_conversation "Шкаф" "Water" "-" "sparkling" None no_user_data
              (set_location "cupboard" no_user_data)
              (set_name "Water" (set_location "cupboard" no_user_data))
              (set_new_quantity None (set_name "Water" (set_location "cupboard" no_user_data)))
              (manager_of sample_store) eq_refl eq_refl eq_refl)
    as (location & r & nq & _ & _ & _ & Hres & _).
  exact Hres.
Defined.

Lemma remove_conversation_witness :
  remove_item_location "Шкаф" no_user_data (manager_of sample_store)
    = (REMOVE_ITEM, set_location "cupboard" no_user_data)
  ∧ remove_item_name "Juice" (set_location "cupboard" no_user_data)
      (manager_of sample_store)
    = (Returned (RemoveNotFound, END), manager_of sample_store).
Proof.
  split; [reflexivity|].
  destruct (remove_conversation "Шкаф" "Juice" no_user_data
              (set_location "cupboard" no_user_data) (manager_of sample_store) eq_refl)
    as (location & Hloc & Hnone & _).
  injection Hloc as <-. apply Hnone. reflexivity.
Defined.

Lemma fill_outcomes_witness :
  ud_fill_item (set_fill_item "Water" no_user_data) = Some "Water"
  ∧ has_fridges (data (manager_of sample_store))
  ∧ match (handle_fill_quantity (Some 7) (set_fill_item "Water" no_user_data)
             (manager_of sample_store)).1 with
    | Returned (FillTooMuch max_quantity, st) => max_quantity = 6
    | _ => False
    end.
Proof.
  split; [reflexivity|]. split; [apply sample_has_fridges|].
  pose proof (fill_outcomes (Some 7) (set_fill_item "Water" no_user_data) "Water"
                (manager_of sample_store) eq_refl sample_has_fridges) as H.
  destruct (handle_fill_quantity (Some 7) (set_fill_item "Water" no_user_data)
              (manager_of sample_store)).1 as [[[] st]|] eqn:E;
    try (vm_compute in E; discriminate E).
  destruct H as (_ & Hmax & _). rewrite <- Hmax. reflexivity.
Defined.

Lemma receive_line_by_line_witness :
  goods_of (receive_lines digits_only digits_only (of_ascii "Juice")) = []
  ∧ handle_receive_goods digits_only digits_only (of_ascii "Juice")
      (manager_of sample_store)
    = ((NothingRecognised, RECEIVE_GOODS), manager_of sample_store).
Proof.
  assert (H : goods_of (receive_lines digits_only digits_only (of_ascii "Juice")) = [])
    by reflexivity.
  split; [exact H|].
  exact (proj1 (proj2 (proj2 (receive_line_by_line digits_only digits_only [] []
                                (of_ascii "Juice") (manager_of sample_store)))) H).
Defined.

Lemma receive_line_reading_witness :
  strip (of_ascii " Red Bull 0.5 5 ") = of_ascii "Red Bull 0.5" ++ chr_space :: of_ascii "5"
  ∧ (chr_space ∉ of_ascii "5")
  ∧ receive_line digits_only digits_only (of_ascii " Red Bull 0.5 5 ")
    = inl ("Red Bull 0.5"%string, 5).
Proof.
  assert (H1 : strip (of_ascii " Red Bull 0.5 5 ")
               = of_ascii "Red Bull 0.5" ++ chr_space :: of_ascii "5") by reflexivity.
  assert (H2 : chr_space ∉ of_ascii "5").
  { intros H. apply list_elem_of_singleton in H. discriminate H. }
  split; [exact H1|]. split; [exact H2|].
  rewrite (proj1 (receive_line_reading digits_only digits_only
                    (of_ascii " Red Bull 0.5 5 ") (of_ascii "Red Bull 0.5")
                    (of_ascii "5")) H1 H2).
  reflexivity.
Defined.
